(** * doi_finder.py: a shallow embedding and its properties

    The program reads a file of citations, strips the noise in front of
    each one, asks the CrossRef service for the DOI of each, and keeps the
    answers in a table that is free of duplicate DOIs, stored as a CSV
    file and as a spreadsheet.

    Part I embeds the program: Python's [str] methods, exceptions,
    dictionaries, the part of pandas the program uses, the world the
    program runs in (files, clock, service, standard output) and then the
    methods of [DOIFinder] and [main], in the order of the source.
    Part II holds the definitions that the statements use: the words of the
    specification and sample data. Part III states and proves the
    properties. *)

From stdpp Require Import gmap strings list fin_maps.
From Stdlib Require Import ZArith NArith Lia.

Local Open Scope Z_scope.
Local Open Scope string_scope.
Local Open Scope list_scope.
Local Open Scope nat_scope.

Set Warnings "-clear-no-such-hyp".

(* ===================================================================== *)
(** * Part I: the program                                                 *)
(* ===================================================================== *)

(** ** Python strings

    A [str] is a [string]; a character is an [ascii], read as a code
    point below 256. *)

Module PyStr.

Definition code (c : Ascii.ascii) : N := Ascii.N_of_ascii c.

Definition between (lo hi : N) (c : Ascii.ascii) : bool :=
  ((lo <=? code c) && (code c <=? hi))%N.

(** [str.isspace] on one character: TAB..CR, FS..US, SPACE, NEL, NBSP. *)
Definition isspace (c : Ascii.ascii) : bool :=
  between 9 13 c || between 28 32 c || (code c =? 133)%N || (code c =? 160)%N.

(** The regular expression class [[a-zA-Z]]. *)
Definition is_alpha (c : Ascii.ascii) : bool :=
  between 65 90 c || between 97 122 c.

(** [str.isprintable] on one character: the graphic characters and the
    ASCII space; NBSP and the soft hyphen are not printable. *)
Definition isprintable (c : Ascii.ascii) : bool :=
  between 32 126 c || (between 161 255 c && negb (code c =? 173)%N).

(** Truth value of a [str]: the empty string is false. *)
Definition truthy (s : string) : bool :=
  match s with EmptyString => false | String _ _ => true end.

Fixpoint lstrip (s : string) : string :=
  match s with
  | EmptyString => EmptyString
  | String c s' => if isspace c then lstrip s' else s
  end.

Fixpoint rstrip (s : string) : string :=
  match s with
  | EmptyString => EmptyString
  | String c s' =>
      let r := rstrip s' in
      if isspace c && negb (truthy r) then EmptyString else String c r
  end.

(** [s.strip()] *)
Definition strip (s : string) : string := rstrip (lstrip s).

(** [s[n:]] *)
Fixpoint drop (n : nat) (s : string) : string :=
  match n, s with
  | O, _ => s
  | S _, EmptyString => EmptyString
  | S n', String _ s' => drop n' s'
  end.

(** [s[:n]] *)
Fixpoint take (n : nat) (s : string) : string :=
  match n, s with
  | O, _ => EmptyString
  | S _, EmptyString => EmptyString
  | S n', String c s' => String c (take n' s')
  end.

(** [re.search(r'[a-zA-Z]', s)]: [match.start()] of the first match, or
    [None]. *)
Fixpoint re_search_alpha (s : string) : option nat :=
  match s with
  | EmptyString => None
  | String c s' => if is_alpha c then Some O else S <$> re_search_alpha s'
  end.

(** [''.join(c for c in s if p(c))] *)
Fixpoint join_if (p : Ascii.ascii -> bool) (s : string) : string :=
  match s with
  | EmptyString => EmptyString
  | String c s' => if p c then String c (join_if p s') else join_if p s'
  end.

(** [s.endswith(suffix)] *)
Definition endswith (suffix s : string) : bool :=
  String.eqb (drop (String.length s - String.length suffix) s) suffix
  && (String.length suffix <=? String.length s).

(** [s.replace(old, new)] for a non-empty [old]: the occurrences of
    [old] are replaced from left to right, without overlap. [skip] counts
    the characters of an occurrence that are still to be passed over. *)
Fixpoint replace_from (old new : string) (skip : nat) (s : string) : string :=
  match s with
  | EmptyString => EmptyString
  | String c s' =>
      match skip with
      | S k => replace_from old new k s'
      | O =>
          if String.prefix old s
          then new +:+ replace_from old new (String.length old - 1) s'
          else String c (replace_from old new O s')
      end
  end.

Definition replace (old new s : string) : string := replace_from old new O s.

End PyStr.

(** ** Exceptions and results *)

Inductive exn : Type :=
| SystemExit (status : Z)
| KeyboardInterrupt
| KeyError (key : string)
| IndexError
| TypeError
| ValueError
| ZeroDivisionError
| OSError
| ParserError
| EmptyDataError
| MergeError
| ServiceError (what : string).

(** The exceptions that [except Exception] catches: all but the two that
    derive from [BaseException] directly. *)
Definition is_Exception (e : exn) : bool :=
  match e with
  | SystemExit _ | KeyboardInterrupt => false
  | _ => true
  end.

Inductive result (A : Type) : Type :=
| Ok (a : A)
| Raise (e : exn).
Arguments Ok {A} a.
Arguments Raise {A} e.

Definition rbind {A B} (m : result A) (k : A -> result B) : result B :=
  match m with
  | Ok a => k a
  | Raise e => Raise e
  end.

Declare Scope result_scope.
Delimit Scope result_scope with result.
Notation "x <- m ;; k" := (rbind m (fun x => k))
  (at level 100, m at next level, right associativity) : result_scope.

(** ** Values and dictionaries

    A cell of a table or a value of a Record is a [str] or the missing
    value of pandas. A [dict] keeps its keys in insertion order. *)

Inductive value : Type :=
| Str (s : string)
| NaN.

Global Instance value_eq_dec : EqDecision value.
Proof. solve_decision. Defined.

Global Instance value_countable : Countable value :=
  inj_countable'
    (fun v => match v with Str s => Some s | NaN => None end)
    (fun o => match o with Some s => Str s | None => NaN end)
    (fun v => match v with Str _ => eq_refl | NaN => eq_refl end).

Definition dict : Type := list (string * value).

(** [d.get(k)] *)
Fixpoint dict_get (d : dict) (k : string) : option value :=
  match d with
  | [] => None
  | (k', v) :: d' => if String.eqb k' k then Some v else dict_get d' k
  end.

(** [d[k]] *)
Definition getitem (d : dict) (k : string) : result value :=
  match dict_get d k with
  | Some v => Ok v
  | None => Raise (KeyError k)
  end.

(** [d[k] = v] *)
Fixpoint setitem (d : dict) (k : string) (v : value) : dict :=
  match d with
  | [] => [(k, v)]
  | (k', v') :: d' =>
      if String.eqb k' k then (k', v) :: d' else (k', v') :: setitem d' k v
  end.

(** ** The Result Merger: [DOIFinder.remove_duplicate_dois]

    The loop, with [seen_dois] and [unique_results] as its state. *)
Fixpoint remove_duplicate_dois_loop
    (results : list dict) (seen_dois : gset value) (unique_results : list dict)
    : result (list dict) :=
  match results with
  | [] => Ok unique_results
  | r :: rest =>
      (doi <- getitem r "doi" ;;
       if decide (doi ∉ seen_dois)
       then remove_duplicate_dois_loop rest ({[doi]} ∪ seen_dois)
                                       (unique_results ++ [r])
       else remove_duplicate_dois_loop rest seen_dois unique_results)%result
  end.

Definition remove_duplicate_dois (results : list dict) : result (list dict) :=
  remove_duplicate_dois_loop results ∅ [].

(** ** The Normalizer (first part of [process_citations_file])

    [[line.strip() for line in f if line.strip()]] *)
Definition read_citations (lines : list string) : list string :=
  PyStr.strip <$> List.filter (fun line => PyStr.truthy (PyStr.strip line)) lines.

(** The body of the preprocessing loop, at index [i]. *)
Definition preprocess_at (citations : list string) (i : nat) : list string :=
  match citations !! i with
  | Some c =>
      match PyStr.re_search_alpha c with
      | Some start => <[i := PyStr.strip (PyStr.drop start c)]> citations
      | None => citations
      end
  | None => citations
  end.

(** [for i in range(len(citations)): ...] *)
Definition preprocess (citations : list string) : list string :=
  foldl preprocess_at citations (seq 0 (length citations)).

(** The citations that [process_citations_file] looks up, from the lines
    of the input file. *)
Definition normalized_citations (lines : list string) : list string :=
  preprocess (read_citations lines).

(** ** Records

    The Record that [process_citations_file] appends for a lookup result:
    [{'citation': citation_text, 'doi': doi if doi else '',
      'doi_url': f'https://doi.org/{doi}' if doi else ''}] *)
Definition make_record (citation_text doi : string) : dict :=
  [("citation", Str citation_text);
   ("doi", Str (if PyStr.truthy doi then doi else ""));
   ("doi_url", Str (if PyStr.truthy doi then "https://doi.org/" +:+ doi else ""))].

(** ** pandas

    A frame is column-oriented: named columns in order, each as long as
    the index. A cell is a [str] or a missing value; numbers and booleans
    are not among the cells. A file holds the frame that was written to
    it, and reading returns that frame: this is what pandas does for a
    table of plain text ([reads_back_as_written] below), and not for a
    cell that its parser takes for a missing value, a number or a
    boolean. The statements that read a table written earlier in the
    same scenario ask for plain text. *)

Module Pandas.

Record DataFrame : Type := mkDataFrame {
  nrows : nat;
  cols : list (string * list value) }.

(** [df.columns] *)
Definition columns (df : DataFrame) : list string := (cols df).*1.

(** The elements of [l] that are not in [seen], each once, in the order
    of their first occurrence. *)
Fixpoint first_occurrences {A} `{EqDecision A} (seen l : list A) : list A :=
  match l with
  | [] => []
  | x :: l' =>
      if decide (x ∈ seen) then first_occurrences seen l'
      else x :: first_occurrences (x :: seen) l'
  end.

(** [pd.DataFrame(records)]: one column per key, in the order in which the
    keys first appear; a Record without the key has a missing cell. *)
Definition of_records (records : list dict) : DataFrame :=
  let keys := first_occurrences [] (records ≫= fun r => r.*1) in
  mkDataFrame (length records)
    ((fun k => (k, (fun r => default NaN (dict_get r k)) <$> records)) <$> keys).

(** [df.to_dict('records')] *)
Definition to_dict_records (df : DataFrame) : list dict :=
  (fun i => foldl (fun d col => setitem d col.1 (default NaN (col.2 !! i)))
                  [] (cols df))
  <$> seq 0 (nrows df).

Definition named (c : string) (col : string * list value) : bool :=
  String.eqb col.1 c.

(** [df[c]] as a single column. With several columns named [c] pandas
    returns a frame, which the one use in the program then fails to
    assign to a single column: [ValueError]. *)
Definition getcol (df : DataFrame) (c : string) : result (list value) :=
  match List.filter (named c) (cols df) with
  | [] => Raise (KeyError c)
  | [col] => Ok col.2
  | _ => Raise ValueError
  end.

(** [df[c] = vs]: every column named [c] takes the values; a new name is
    added as the last column. *)
Definition setcol (df : DataFrame) (c : string) (vs : list value) : DataFrame :=
  if decide (c ∈ columns df)
  then mkDataFrame (nrows df)
         ((fun col => if named c col then (col.1, vs) else col) <$> cols df)
  else mkDataFrame (nrows df) (cols df ++ [(c, vs)]).

(** [df.drop(columns=[c], inplace=True)] *)
Definition drop (df : DataFrame) (c : string) : result DataFrame :=
  if decide (c ∈ columns df)
  then Ok (mkDataFrame (nrows df)
             (List.filter (fun col => negb (named c col)) (cols df)))
  else Raise (KeyError c).

(** *** [pd.merge(left, right, on='doi', how='outer', suffixes=('', '_new'))] *)

Fixpoint positions_from (i : nat) (v : value) (vs : list value) : list nat :=
  match vs with
  | [] => []
  | x :: vs' =>
      if decide (x = v) then i :: positions_from (S i) v vs'
      else positions_from (S i) v vs'
  end.

Definition positions (v : value) (vs : list value) : list nat :=
  positions_from 0 v vs.

(** The row pairs of the full outer join of two key columns: key by key,
    every left row with every right row of that key, and the rows
    without a partner on their own. The keys are taken in the order of
    their first occurrence, left column first, as pandas before 2.2
    does; from 2.2 on pandas sorts the keys of an outer join. The rows are
    the same, and what is stated of the frame written ([joined_row]
    below) does not depend on their order. *)
Definition outer_join (lk rk : list value) : list (option nat * option nat) :=
  first_occurrences [] (lk ++ rk) ≫= fun k =>
    match positions k lk, positions k rk with
    | [], R => (fun j => (None, Some j)) <$> R
    | L, [] => (fun i => (Some i, None)) <$> L
    | L, R => L ≫= fun i => (fun j => (Some i, Some j)) <$> R
    end.

(** The cells of a column at the rows of an indexer; no row, no cell. *)
Definition take_rows (vs : list value) (ix : list (option nat)) : list value :=
  (fun o => match o with
            | Some i => default NaN (vs !! i)
            | None => NaN
            end) <$> ix.

(** The key of a joined row: the left key, or the right key for a row
    that has no left partner. *)
Definition key_cells (lk rk : list value) (pairs : list (option nat * option nat))
    : list value :=
  (fun p => match p with
            | (Some i, _) => default NaN (lk !! i)
            | (None, Some j) => default NaN (rk !! j)
            | (None, None) => NaN
            end) <$> pairs.

Definition merge (left right : DataFrame) : result DataFrame :=
  (lk <- getcol left "doi" ;;
   rk <- getcol right "doi" ;;
   let pairs := outer_join lk rk in
   let rcols := List.filter (fun col => negb (named "doi" col)) (cols right) in
   let rlabels :=
     (fun col => if decide (col.1 ∈ columns left)
                 then col.1 +:+ "_new" else col.1) <$> rcols in
   if decide (NoDup rlabels) then
     Ok (mkDataFrame (length pairs)
           (((fun col => if named "doi" col
                         then (col.1, key_cells lk rk pairs)
                         else (col.1, take_rows col.2 pairs.*1)) <$> cols left)
            ++ zip rlabels ((fun col => take_rows col.2 pairs.*2) <$> rcols)))
   else Raise MergeError)%result.

End Pandas.

(** ** The world of the program *)

(** A file is a text, or a table written by [to_csv] or by [to_excel]. *)
Inductive File : Type :=
| TextFile (lines : list string)
| CsvFile (df : Pandas.DataFrame)
| XlsxFile (df : Pandas.DataFrame).

(** The answer of the CrossRef service to [works(query=...)], with the keys
    that the program reads; a key that is absent is [None]. *)
Record work : Type := mk_work { work_DOI : option string }.
Record message_body : Type := mk_message { message_items : option (list work) }.
Record reply : Type := mk_reply { reply_message : option message_body }.

(** The service: what a query returns or raises, and how long it takes, in
    milliseconds. *)
Record Service : Type := mk_service {
  works : string -> result reply;
  latency : string -> Z }.

(** What the program prints, one constructor for each [print] of the
    source, with the values it interpolates. *)
Inductive Msg : Type :=
| SearchingFor (citation : string)
| FoundDOI (doi : string)
| FailedToFind (citation : string)
| ProcessingCitations (n : nat)
| Progress (i n : nat)
| ErrorLoadingExcel (e : exn)
| ResultsSavedTo (path : string)
| ErrorSavingExcel (e : exn)
| SummaryHeader
| TotalCitations (n : nat)
| DOIsFound (n : nat)
| SuccessRate (found total : nat)
| DuplicatesRemoved (n : Z)
| CitationsRemaining (n : nat)
| ErrorCsvNotFound (path : string)
| CleaningDuplicates (path : string)
| CleanedSavedTo (path : string)
| ErrorCitationsNotFound (path : string)
| ProcessingFrom (path : string)
| LoadingExisting (path : string)
| TotalInCsv (n : nat)
| NewlyAdded (n : Z)
| DuplicatesNotAdded (n : Z)
| ErrorNoArguments
| InterruptedByUser
| ErrorMsg (e : exn).

(** Files by path, the clock in milliseconds, the service, the queries
    issued so far with the time of each, and the standard output. *)
Record World : Type := mk_world {
  fs : gmap string File;
  now : Z;
  service : Service;
  requests : list (Z * string);
  stdout : list Msg }.

(** ** Computations: state and exceptions *)

Definition M (A : Type) : Type := World -> World * result A.

Definition ret {A} (a : A) : M A := fun w => (w, Ok a).

Definition bind {A B} (m : M A) (k : A -> M B) : M B :=
  fun w =>
    match m w with
    | (w', Ok a) => k a w'
    | (w', Raise e) => (w', Raise e)
    end.

Definition raise {A} (e : exn) : M A := fun w => (w, Raise e).

Definition lift {A} (r : result A) : M A := fun w => (w, r).

(** [try: m except <catches>: handler] *)
Definition try_except {A} (m : M A) (catches : exn -> bool) (handler : exn -> M A)
    : M A :=
  fun w =>
    match m w with
    | (w', Ok a) => (w', Ok a)
    | (w', Raise e) => if catches e then handler e w' else (w', Raise e)
    end.

Declare Scope io_scope.
Delimit Scope io_scope with io.
Bind Scope io_scope with M.
Notation "x <- m ;; k" := (bind m (fun x => k))
  (at level 100, m at next level, right associativity) : io_scope.
Notation "m ;; k" := (bind m (fun _ => k))
  (at level 100, right associativity) : io_scope.

Definition print (msg : Msg) : M unit :=
  fun w => (mk_world (fs w) (now w) (service w) (requests w) (stdout w ++ [msg]),
            Ok tt).

(** [time.time()], in milliseconds *)
Definition time_time : M Z := fun w => (w, Ok (now w)).

(** [time.sleep(d)] *)
Definition time_sleep (d : Z) : M unit :=
  fun w => (mk_world (fs w) (now w + d) (service w) (requests w) (stdout w),
            Ok tt).

(** [cr.works(query=citation)]: the query is issued now and answered after
    the latency of the service. *)
Definition cr_works (query : string) : M reply :=
  fun w => (mk_world (fs w) (now w + latency (service w) query) (service w)
                     (requests w ++ [(now w, query)]) (stdout w),
            works (service w) query).

(** [Path(p).exists()] *)
Definition path_exists (p : string) : M bool :=
  fun w => (w, Ok (bool_decide (is_Some (fs w !! p)))).

Definition write_file (p : string) (f : File) : M unit :=
  fun w => (mk_world (<[p := f]> (fs w)) (now w) (service w) (requests w)
                     (stdout w),
            Ok tt).

(** [open(p, 'r', encoding='utf-8')] and the iteration over its lines. *)
Definition read_lines (p : string) : M (list string) :=
  fun w =>
    match fs w !! p with
    | Some (TextFile lines) => (w, Ok lines)
    | _ => (w, Raise OSError)
    end.

(** [pd.read_csv(p)]; a file without columns has nothing to parse. The
    frame is returned as it was written (see the note on pandas above). *)
Definition read_csv (p : string) : M Pandas.DataFrame :=
  fun w =>
    match fs w !! p with
    | Some (CsvFile df) =>
        match Pandas.cols df with
        | [] => (w, Raise EmptyDataError)
        | _ => (w, Ok df)
        end
    | Some _ => (w, Raise ParserError)
    | None => (w, Raise OSError)
    end.

(** [pd.read_excel(p)] *)
Definition read_excel (p : string) : M Pandas.DataFrame :=
  fun w =>
    match fs w !! p with
    | Some (XlsxFile df) => (w, Ok df)
    | Some _ => (w, Raise ValueError)
    | None => (w, Raise OSError)
    end.

(** [df.to_csv(p, index=False)] *)
Definition to_csv (df : Pandas.DataFrame) (p : string) : M unit :=
  write_file p (CsvFile df).

(** [os.path.splitext(p)[1]]: the extension starts at the last dot of the
    file name, unless that name has dots only before it. *)
Module OsPath.

Definition dot : Ascii.ascii := Ascii.ascii_of_N 46.
Definition sep : Ascii.ascii := Ascii.ascii_of_N 47.

Fixpoint rfind_from (c : Ascii.ascii) (s : string) (i : nat) (last : option nat)
    : option nat :=
  match s with
  | EmptyString => last
  | String a s' =>
      rfind_from c s' (S i) (if Ascii.eqb a c then Some i else last)
  end.

(** [s.rfind(c)], [None] for -1 *)
Definition rfind (c : Ascii.ascii) (s : string) : option nat :=
  rfind_from c s 0 None.

Fixpoint all_dots (s : string) : bool :=
  match s with
  | EmptyString => true
  | String a s' => Ascii.eqb a dot && all_dots s'
  end.

Definition splitext_ext (p : string) : string :=
  match rfind dot p with
  | None => ""
  | Some dotIndex =>
      let filenameIndex :=
        match rfind sep p with Some sepIndex => S sepIndex | None => 0 end in
      if (filenameIndex <=? dotIndex)
         && negb (all_dots (String.substring filenameIndex
                                             (dotIndex - filenameIndex) p))
      then PyStr.drop dotIndex p
      else ""
  end.

End OsPath.

(** [df.to_excel(p, index=False)]: pandas picks the writer from the
    extension of the path; with openpyxl installed it has one for [.xlsx]
    and [.xlsm] and raises [ValueError] for any other. *)
Definition to_excel (df : Pandas.DataFrame) (p : string) : M unit :=
  let ext := OsPath.splitext_ext p in
  if String.eqb ext ".xlsx" || String.eqb ext ".xlsm"
  then write_file p (XlsxFile df)
  else raise ValueError.

(** ** [class DOIFinder]

    [__init__] also opens an HTTP session with a [User-Agent] header; no
    method uses it, and it is left out. Times are in milliseconds. *)
Record DOIFinder : Type := mk_finder {
  request_delay : Z;
  last_request_time : Z }.

Definition DOIFinder_init : DOIFinder := mk_finder 1000 0.

(** [DOIFinder.rate_limit] *)
Definition rate_limit (self : DOIFinder) : M DOIFinder :=
  (current_time <- time_time ;;
   let elapsed := (current_time - last_request_time self)%Z in
   (if (elapsed <? request_delay self)%Z
    then time_sleep (request_delay self - elapsed)%Z
    else ret tt) ;;
   t <- time_time ;;
   ret (mk_finder (request_delay self) t))%io.

(** [api_search_result['message']['items'][0]['DOI']] *)
Definition top_DOI (api_search_result : reply) : result string :=
  match reply_message api_search_result with
  | None => Raise (KeyError "message")
  | Some message =>
      match message_items message with
      | None => Raise (KeyError "items")
      | Some [] => Raise IndexError
      | Some (item :: _) =>
          match work_DOI item with
          | None => Raise (KeyError "DOI")
          | Some doi => Ok doi
          end
      end
  end.

(** [DOIFinder.find_doi]; the bare [except:] catches every exception. *)
Definition find_doi (self : DOIFinder) (citation : string)
    : M (string * string * string) :=
  (print (SearchingFor (PyStr.take 80 citation)) ;;
   try_except
     (api_search_result <- cr_works citation ;;
      doi <- lift (top_DOI api_search_result) ;;
      print (FoundDOI doi) ;;
      ret (citation, doi, "CrossRef"))
     (fun _ => true)
     (fun _ =>
        print (FailedToFind (PyStr.take 80 citation)) ;;
        ret (citation, "Not Found", "CrossRef")))%io.

(** The lookup loop of [process_citations_file]:
    [for i, citation in enumerate(citations, 1)], where [n] is
    [len(citations)]. *)
Fixpoint lookup_loop (self : DOIFinder) (n i : nat) (citations : list string)
    (results : list dict) : M (list dict) :=
  match citations with
  | [] => ret results
  | citation :: rest =>
      (print (Progress i n) ;;
       found <- find_doi self citation ;;
       let '(citation_text, doi, source) := found in
       let results := results ++ [make_record citation_text doi] in
       (if i <? n then time_sleep 500 else ret tt) ;;
       lookup_loop self n (S i) rest results)%io
  end.

(** [DOIFinder.process_citations_file] *)
Definition process_citations_file (self : DOIFinder) (file_path : string)
    : M (list dict) :=
  (lines <- read_lines file_path ;;
   let citations := normalized_citations lines in
   print (ProcessingCitations (length citations)) ;;
   lookup_loop self (length citations) 1 citations [])%io.

(** [DOIFinder.save_results] *)

(** [for result in results: result['citation'] = ''.join(c for c in
    result['citation'] if c.isprintable())]; the Records are changed in
    place, so what follows sees the sanitized Records. *)
Fixpoint sanitize (results : list dict) : result (list dict) :=
  match results with
  | [] => Ok []
  | r :: rest =>
      (citation <- getitem r "citation" ;;
       match citation with
       | Str s =>
           rest' <- sanitize rest ;;
           Ok (setitem r "citation" (Str (PyStr.join_if PyStr.isprintable s))
               :: rest')
       | NaN => Raise TypeError
       end)%result
  end.

(** The loop over [merged_df.columns] that folds each [_new] column into
    the column of its name without [_new]. *)
Fixpoint fold_new_columns (columns : list string) (merged_df : Pandas.DataFrame)
    : result Pandas.DataFrame :=
  match columns with
  | [] => Ok merged_df
  | col :: rest =>
      if PyStr.endswith "_new" col
      then (vs <- Pandas.getcol merged_df col ;;
            let merged_df :=
              Pandas.setcol merged_df (PyStr.replace "_new" "" col) vs in
            merged_df <- Pandas.drop merged_df col ;;
            fold_new_columns rest merged_df)%result
      else fold_new_columns rest merged_df
  end.

(** [len([r for r in results if r['doi'] != 'Not Found'])] *)
Fixpoint count_found (results : list dict) : result nat :=
  match results with
  | [] => Ok 0
  | r :: rest =>
      (doi <- getitem r "doi" ;;
       n <- count_found rest ;;
       Ok (if decide (doi ≠ Str "Not Found") then S n else n))%result
  end.

(** The second step of [save_results]: the frame to write is the new frame,
    or its join with the spreadsheet that is already there. *)
Definition merge_existing (excel_path : string) (new_df : Pandas.DataFrame)
    : M Pandas.DataFrame :=
  (excel_exists <- path_exists excel_path ;;
   if excel_exists : bool
   then try_except
          (existing_df <- read_excel excel_path ;;
           merged_df <- lift (Pandas.merge existing_df new_df) ;;
           lift (fold_new_columns (Pandas.columns merged_df) merged_df))
          is_Exception
          (fun e => print (ErrorLoadingExcel e) ;; ret new_df)
   else ret new_df)%io.

(** The third step: the spreadsheet, then the CSV file. *)
Definition write_tables (final_df : Pandas.DataFrame)
    (excel_path output_path : string) : M unit :=
  (try_except
     (to_excel final_df excel_path ;;
      print (ResultsSavedTo excel_path))
     is_Exception
     (fun e => print (ErrorSavingExcel e)) ;;
   to_csv final_df output_path ;;
   print (ResultsSavedTo output_path))%io.

(** The fourth step: the summary. *)
Definition print_summary (self : DOIFinder) (results : list dict)
    (check_duplicates : bool) : M unit :=
  (if negb check_duplicates
   then
     found_count <- lift (count_found results) ;;
     print SummaryHeader ;;
     print (TotalCitations (length results)) ;;
     print (DOIsFound found_count) ;;
     match length results with
     | O => raise ZeroDivisionError
     | S _ => print (SuccessRate found_count (length results))
     end
   else
     let initial_count := length results in
     unique_results <- lift (remove_duplicate_dois results) ;;
     let duplicates_removed :=
       (Z.of_nat initial_count - Z.of_nat (length unique_results))%Z in
     print SummaryHeader ;;
     print (DuplicatesRemoved duplicates_removed) ;;
     print (CitationsRemaining (length unique_results)))%io.

Definition save_results (self : DOIFinder) (results : list dict)
    (output_path : string) (check_duplicates : bool) : M unit :=
  (results <- lift (sanitize results) ;;
   let new_df := Pandas.of_records results in
   let excel_path := PyStr.replace ".csv" ".xlsx" output_path in
   final_df <- merge_existing excel_path new_df ;;
   write_tables final_df excel_path output_path ;;
   print_summary self results check_duplicates)%io.

(** ** [main] *)

(** The parsed command line; [-o] defaults to ['dois.csv']. *)
Record Args : Type := mk_args {
  input : option string;
  output : string;
  clean : option string }.

(** An option that was given and is not the empty string. *)
Definition given (a : option string) : option string :=
  match a with
  | Some s => if PyStr.truthy s then Some s else None
  | None => None
  end.

(** The body of the [try] of [main]. *)
Definition main_try (finder : DOIFinder) (args : Args) : M unit :=
  match given (clean args), given (input args) with
  | Some csv_file, _ =>
      (csv_exists <- path_exists csv_file ;;
       (if negb csv_exists
        then print (ErrorCsvNotFound csv_file) ;; raise (SystemExit 1)
        else ret tt) ;;
       print (CleaningDuplicates csv_file) ;;
       existing_df <- read_csv csv_file ;;
       let existing_results := Pandas.to_dict_records existing_df in
       unique_results <- lift (remove_duplicate_dois existing_results) ;;
       let initial_count := length existing_results in
       let final_count := length unique_results in
       let duplicates_removed :=
         (Z.of_nat initial_count - Z.of_nat final_count)%Z in
       to_csv (Pandas.of_records unique_results) csv_file ;;
       print (CleanedSavedTo csv_file) ;;
       print SummaryHeader ;;
       print (DuplicatesRemoved duplicates_removed) ;;
       print (CitationsRemaining final_count))%io
  | None, Some citations_file =>
      (citations_exist <- path_exists citations_file ;;
       (if negb citations_exist
        then print (ErrorCitationsNotFound citations_file) ;;
             raise (SystemExit 1)
        else ret tt) ;;
       print (ProcessingFrom citations_file) ;;
       new_results <- process_citations_file finder citations_file ;;
       let output_file := output args in
       output_exists <- path_exists output_file ;;
       existing_results <-
         (if output_exists : bool
          then print (LoadingExisting output_file) ;;
               existing_df <- read_csv output_file ;;
               ret (Pandas.to_dict_records existing_df)
          else ret []) ;;
       let combined_results := existing_results ++ new_results in
       unique_results <- lift (remove_duplicate_dois combined_results) ;;
       let total_existing := length existing_results in
       let total_new := length new_results in
       let total_combined := length unique_results in
       let duplicates_removed :=
         (Z.of_nat total_existing + Z.of_nat total_new
          - Z.of_nat total_combined)%Z in
       let successfully_added :=
         (Z.of_nat total_combined - Z.of_nat total_existing)%Z in
       save_results finder unique_results (output args) false ;;
       print SummaryHeader ;;
       print (TotalInCsv total_combined) ;;
       print (NewlyAdded successfully_added) ;;
       print (DuplicatesNotAdded duplicates_removed))%io
  | None, None =>
      (print ErrorNoArguments ;; raise (SystemExit 1))%io
  end.

Definition main (args : Args) : M unit :=
  let finder := DOIFinder_init in
  try_except (main_try finder args)
    (fun e => match e with KeyboardInterrupt => true | _ => is_Exception e end)
    (fun e =>
       match e with
       | KeyboardInterrupt => print InterruptedByUser ;; raise (SystemExit 1)
       | _ => print (ErrorMsg e) ;; raise (SystemExit 1)
       end)%io.

(** One run of the script: the world it leaves and its exit status. *)
Definition run (args : Args) (w : World) : World * Z :=
  match main args w with
  | (w', Ok _) => (w', 0%Z)
  | (w', Raise (SystemExit status)) => (w', status)
  | (w', Raise _) => (w', 1%Z)
  end.

(* ===================================================================== *)
(** * Part II: the vocabulary of the statements                           *)
(* ===================================================================== *)

(** ** The Normalizer: the source in one step, and the contract of the
    specification *)

(** A blank line holds white space only. *)
Fixpoint is_blank (line : string) : bool :=
  match line with
  | EmptyString => true
  | String c s => PyStr.isspace c && is_blank s
  end.

(** What the source makes of one raw line, in one step: the substring that
    starts at the first letter of [[a-zA-Z]], trimmed; the trimmed line
    when it has no such letter. *)
Definition az_normalize (line : string) : string :=
  match PyStr.re_search_alpha line with
  | Some i => PyStr.strip (PyStr.drop i line)
  | None => PyStr.strip line
  end.

(** What the body of the preprocessing loop makes of one citation. *)
Definition normalize_one (c : string) : string :=
  match PyStr.re_search_alpha c with
  | Some start => PyStr.strip (PyStr.drop start c)
  | None => c
  end.

Definition newline : string := String (Ascii.ascii_of_N 10) EmptyString.

(** An alphabetic character, as the specification has it: a letter, of
    [[a-zA-Z]] or not ([str.isalpha]; below 256 also the ordinal
    indicators, the micro sign and the letters of Latin-1). *)
Definition is_alphabetic (c : Ascii.ascii) : bool :=
  PyStr.is_alpha c
  || (PyStr.code c =? 170)%N || (PyStr.code c =? 181)%N || (PyStr.code c =? 186)%N
  || PyStr.between 192 214 c || PyStr.between 216 246 c
  || PyStr.between 248 255 c.

(** The index of the first alphabetic character of a line. *)
Fixpoint search_alphabetic (s : string) : option nat :=
  match s with
  | EmptyString => None
  | String c s' => if is_alphabetic c then Some O else S <$> search_alphabetic s'
  end.

(** The contract of the Normalizer for one raw line, in the words of the
    specification: the substring that starts at the first alphabetic
    character, trimmed; the trimmed line when it has none. *)
Definition spec_normalize (line : string) : string :=
  match search_alphabetic line with
  | Some i => PyStr.strip (PyStr.drop i line)
  | None => PyStr.strip line
  end.

(** Blank lines are dropped before that step. *)
Definition spec_normalizer (lines : list string) : list string :=
  spec_normalize <$> List.filter (fun line => negb (is_blank line)) lines.

(** A line of ASCII characters. *)
Fixpoint ascii_only (s : string) : bool :=
  match s with
  | EmptyString => true
  | String c s' => (PyStr.code c <? 128)%N && ascii_only s'
  end.

(** The letter A with a ring above, U+00C5, and a citation that starts
    with it. *)
Definition A_ring : Ascii.ascii := Ascii.ascii_of_N 197.

Definition aberg_line : string :=
  String A_ring "berg, K., 2001, Nature 1, 1." +:+ newline.

(** ** Records and the first-seen selection *)

Definition doi_of (r : dict) : option value := dict_get r "doi".

(** A Record has a [doi] field. *)
Definition has_doi (r : dict) : Prop := is_Some (doi_of r).

Definition doi_is (d : value) (r : dict) : bool :=
  bool_decide (doi_of r = Some d).

(** The Records that the loop keeps when it starts with [seen]: those whose
    [doi] was not met before. *)
Fixpoint first_seen (seen : gset value) (results : list dict) : list dict :=
  match results with
  | [] => []
  | r :: rest =>
      match doi_of r with
      | Some d =>
          if decide (d ∉ seen)
          then r :: first_seen ({[d]} ∪ seen) rest
          else first_seen seen rest
      | None => first_seen seen rest
      end
  end.

(** The number of Records whose [doi] is the sentinel. *)
Definition not_found_rows (results : list dict) : nat :=
  length (List.filter (doi_is (Str "Not Found")) results).

(** ** Sample Records *)

Definition abate : dict :=
  make_record "Abate, A. R., and D. J. Durian, 2007, Phys. Rev. E 76, 021306."
              "10.1103/PhysRevE.76.021306".

Definition abou : dict :=
  make_record "Abou, B., and F. Gallet, 2004, Phys. Rev. Lett. 93, 160603."
              "10.1103/PhysRevLett.93.160603".

Definition abate_again : dict :=
  make_record "A. R. Abate and D. J. Durian, PRE 76 (2007) 021306"
              "10.1103/PhysRevE.76.021306".

Definition unresolved_one : dict :=
  make_record "Smith, J., private communication." "Not Found".

Definition unresolved_two : dict :=
  make_record "Jones, K., unpublished notes." "Not Found".

Definition abou_again : dict :=
  make_record "B. Abou and F. Gallet, PRL 93 (2004) 160603"
              "10.1103/PhysRevLett.93.160603".

(** ** Lookups and runs *)

(** The DOI that [find_doi] returns for a citation: the top DOI of the
    answer of the service, or the sentinel when anything raises. *)
Definition doi_for (svc : Service) (citation : string) : string :=
  match rbind (works svc citation) top_DOI with
  | Ok doi => doi
  | Raise _ => "Not Found"
  end.

(** The Records that the lookup loop appends for a list of citations. *)
Definition looked_up (svc : Service) (citations : list string) : list dict :=
  (fun citation => make_record citation (doi_for svc citation)) <$> citations.

(** The spreadsheet path that [save_results] derives from the output path. *)
Definition excel_path_of (output_path : string) : string :=
  PyStr.replace ".csv" ".xlsx" output_path.

(** [to_excel] has a writer for the path. *)
Definition excel_writable (p : string) : bool :=
  String.eqb (OsPath.splitext_ext p) ".xlsx"
  || String.eqb (OsPath.splitext_ext p) ".xlsm".

(** The last four lines of an ingest run that reaches its summary. *)
Definition ingest_summary (total : nat) (added duplicates : Z) : list Msg :=
  [SummaryHeader; TotalInCsv total; NewlyAdded added;
   DuplicatesNotAdded duplicates].

(** The last four lines of a clean run. *)
Definition clean_summary (csv_file : string) (removed : Z) (remaining : nat)
    : list Msg :=
  [CleanedSavedTo csv_file; SummaryHeader; DuplicatesRemoved removed;
   CitationsRemaining remaining].

(** A later run of the script: a new process, with an output of its own,
    in the world that the earlier run left. *)
Definition next_run (w : World) : World :=
  mk_world (fs w) (now w) (service w) (requests w) [].

(** A Record that [save_results] can sanitize and count: its citation is a
    [str] and it has a [doi]. *)
Definition well_formed (r : dict) : Prop :=
  (exists s, dict_get r "citation" = Some (Str s)) /\ has_doi r.

(** The result of a computation is not an exception that [except
    Exception] lets through. *)
Definition raises_Exception {A} (r : result A) : Prop :=
  match r with
  | Raise e => is_Exception e = true
  | Ok _ => True
  end.

(** ** Sample services and worlds *)

(** A service that finds no work for any query. *)
Definition no_hits : Service :=
  mk_service (fun _ => Ok (mk_reply (Some (mk_message (Some []))))) (fun _ => 0%Z).

(** A service that is down. *)
Definition unreachable : Service :=
  mk_service (fun _ => Raise (ServiceError "connection refused")) (fun _ => 0%Z).

(** A service that knows two papers and answers at once. *)
Definition two_papers : Service :=
  mk_service
    (fun query =>
       if String.prefix "Abate" query
       then Ok (mk_reply (Some (mk_message
              (Some [mk_work (Some "10.1103/PhysRevE.76.021306")]))))
       else if String.prefix "Abou" query
       then Ok (mk_reply (Some (mk_message
              (Some [mk_work (Some "10.1103/PhysRevLett.93.160603")]))))
       else Ok (mk_reply (Some (mk_message (Some [])))))
    (fun _ => 0%Z).

Definition world_of (files : gmap string File) (svc : Service) : World :=
  mk_world files 0 svc [] [].

Definition smith_line : string := "1. Smith, J., private communication." +:+ newline.
Definition jones_line : string := "[2] Jones, K., unpublished notes." +:+ newline.
Definition abate_line : string :=
  "1. Abate, A. R., and D. J. Durian, 2007, Phys. Rev. E 76, 021306." +:+ newline.
Definition abou_line : string :=
  "2. Abou, B., and F. Gallet, 2004, Phys. Rev. Lett. 93, 160603." +:+ newline.

(** An input file with one citation that no service resolves. *)
Definition one_unresolved : World :=
  world_of {[ "cites.txt" := TextFile [smith_line] ]} unreachable.

(** An input file with two citations that the service does not find. *)
Definition two_unresolved : World :=
  world_of {[ "cites.txt" := TextFile [smith_line; newline; jones_line] ]} no_hits.

(** An input file with the two papers that the service knows. *)
Definition two_known : World :=
  world_of {[ "cites.txt" := TextFile [abate_line; abou_line] ]} two_papers.

(** An input file of blank lines. *)
Definition blank_input : World :=
  world_of {[ "cites.txt" := TextFile [newline; "   " +:+ newline] ]} two_papers.

Definition ingest_args : Args := mk_args (Some "cites.txt") "dois.csv" None.
Definition clean_args : Args := mk_args None "dois.csv" (Some "dois.csv").



(** A table with three Records, two of them with the same [doi]. *)
Definition three_rows : Pandas.DataFrame :=
  Pandas.of_records [abate; abou; abate_again].

Definition to_clean : World :=
  world_of {[ "dois.csv" := CsvFile three_rows ]} two_papers.

(** ** Tables that are read back as written

    In the model [read_csv] returns the frame that [to_csv] wrote. pandas
    itself parses the text of the file again: it reads a cell that holds
    one of its missing-value tokens as a missing value, and a column in
    which every cell is a number, or every cell a boolean, as numbers or
    booleans. A table is read back as written when every cell is plain
    text, to which none of this applies; the statements about a run that
    reads the table that an earlier run wrote ask for that. *)

(** The texts that [read_csv] reads as a missing value by default. *)
Definition na_values : list string :=
  [EmptyString; "#N/A"; "#N/A N/A"; "#NA"; "-1.#IND"; "-1.#QNAN"; "-NaN";
   "-nan"; "1.#IND"; "1.#QNAN"; "<NA>"; "N/A"; "NA"; "NULL"; "NaN"; "None";
   "n/a"; "nan"; "null"].

Fixpoint str_forallb (p : Ascii.ascii -> bool) (s : string) : bool :=
  match s with
  | EmptyString => true
  | String c s' => p c && str_forallb p s'
  end.

Fixpoint str_existsb (p : Ascii.ascii -> bool) (s : string) : bool :=
  match s with
  | EmptyString => false
  | String c s' => p c || str_existsb p s'
  end.

(** The characters of which the numbers and booleans that [read_csv]
    recognises are made: white space, digits, sign, point and exponent,
    and the letters of [inf], [infinity], [nan], [true] and [false]. *)
Definition numeric_char (c : Ascii.ascii) : bool :=
  PyStr.isspace c || PyStr.between 48 57 c
  || str_existsb (Ascii.eqb c) "+-.eEiInNfFtTyYaArRuUlLsS".

(** A text that [to_csv] and [read_csv] take to itself: it is printable,
    it is not a missing-value token, also with white space around it, and
    a character in it rules out a number and a boolean. *)
Definition plain_text (s : string) : bool :=
  str_forallb PyStr.isprintable s
  && negb (List.existsb (String.eqb (PyStr.strip s)) na_values)
  && str_existsb (fun c => negb (numeric_char c)) s.

Definition plain_cell (v : value) : bool :=
  match v with
  | Str s => plain_text s
  | NaN => false
  end.

(** Every cell of the frame is plain text. *)
Definition reads_back_as_written (df : Pandas.DataFrame) : bool :=
  List.forallb (fun col => List.forallb plain_cell col.2) (Pandas.cols df).

(** A Record of the three keys whose values are plain text, and one whose
    values are plain text once its citation is sanitized. *)
Definition plain_record (r : dict) : Prop :=
  exists citation doi doi_url,
    r = [("citation", Str citation); ("doi", Str doi); ("doi_url", Str doi_url)]
    /\ plain_text citation = true /\ plain_text doi = true
    /\ plain_text doi_url = true.

Definition plain_when_sanitized (r : dict) : Prop :=
  exists citation doi doi_url,
    r = [("citation", Str citation); ("doi", Str doi); ("doi_url", Str doi_url)]
    /\ plain_text (PyStr.join_if PyStr.isprintable citation) = true
    /\ plain_text doi = true /\ plain_text doi_url = true.

(** ** Tables on disk *)

(** The Records that an ingest run loads from its output path: none when
    there is no file, the rows of the table when [read_csv] can read it. *)
Definition existing_table (files : gmap string File) (output_file : string)
    : option (list dict) :=
  match files !! output_file with
  | None => Some []
  | Some (CsvFile df) =>
      match Pandas.cols df with
      | [] => None
      | _ => Some (Pandas.to_dict_records df)
      end
  | Some _ => None
  end.

(** A Record as [process_citations_file] builds it: the three keys, in
    order, with [str] values. *)
Definition shaped (r : dict) : Prop :=
  exists citation doi doi_url,
    r = [("citation", Str citation); ("doi", Str doi); ("doi_url", Str doi_url)].

(** The cells of the column [k] of the frame of a list of Records. *)
Definition column_of (k : string) (records : list dict) : list value :=
  (fun r => default NaN (dict_get r k)) <$> records.

(** The [doi] values of a list of Records, as a set. *)
Definition dois (results : list dict) : gset value :=
  list_to_set (omap id (doi_of <$> results)).

(** ** The join of [save_results], column by column *)

(** [sub] occurs in [s]. *)
Fixpoint occurs (sub s : string) : bool :=
  String.prefix sub s
  || match s with
     | EmptyString => false
     | String _ s' => occurs sub s'
     end.

(** A column name without ["_new"] in it. *)
Definition no_new (c : string) : Prop := occurs "_new" c = false.

(** The label that the merge gives to a column of the new frame: the
    suffix [_new] when the existing frame has a column of that name. *)
Definition new_label (lnames : list string) (c : string) : string :=
  if decide (c ∈ lnames) then c +:+ "_new" else c.

(** [A] with the cells [vs] in every column named [c]. *)
Definition set_named (c : string) (vs : list value)
    (A : list (string * list value)) : list (string * list value) :=
  (fun col => if Pandas.named c col then (col.1, vs) else col) <$> A.

(** The columns [A] of the existing frame after the loop has folded the
    columns [done] of the new frame into them. *)
Definition folded_into (lnames : list string) (ix : list (option nat))
    (done A : list (string * list value)) : list (string * list value) :=
  foldl (fun A col =>
           if decide (col.1 ∈ lnames)
           then set_named col.1 (Pandas.take_rows col.2 ix) A
           else A) A done.

(** The column of the merged frame for a column of the new frame. *)
Definition joined_right (lnames : list string) (ix : list (option nat))
    (col : string * list value) : string * list value :=
  (new_label lnames col.1, Pandas.take_rows col.2 ix).

Definition right_only (lnames : list string) (col : string * list value) : bool :=
  bool_decide (col.1 ∉ lnames).

(** The frame when the loop has dealt with the columns [done] of the new
    frame and has the columns [todo] before it; [A] are the columns that
    the merge made of those of the existing frame. *)
Definition join_state (n : nat) (lnames : list string) (ix : list (option nat))
    (A done todo : list (string * list value)) : Pandas.DataFrame :=
  Pandas.mkDataFrame n
    (folded_into lnames ix done A
     ++ (joined_right lnames ix <$> List.filter (right_only lnames) done)
     ++ (joined_right lnames ix <$> todo)).

(** ** The rows of the join

    The outer join is stated by its rows, in whatever order they come:
    pandas before 2.2 takes the keys in the order of their first
    occurrence, as [Pandas.outer_join] does, and from 2.2 on in sorted
    order. *)







(** A spreadsheet to which the user added the column [notes]. *)
Definition noted_sheet : Pandas.DataFrame :=
  Pandas.mkDataFrame 2
    [("citation", [Str "Abate 2007"; Str "Abou 2004"]);
     ("doi", [Str "10.1103/PhysRevE.76.021306";
              Str "10.1103/PhysRevLett.93.160603"]);
     ("doi_url", [Str "https://doi.org/10.1103/PhysRevE.76.021306";
                  Str "https://doi.org/10.1103/PhysRevLett.93.160603"]);
     ("notes", [Str "granular"; Str "colloids"])].

Definition noted : World :=
  world_of {[ "dois.xlsx" := XlsxFile noted_sheet ]} two_papers.

(** A spreadsheet in which the user renamed the [doi] column. *)
Definition renamed_sheet : Pandas.DataFrame :=
  Pandas.mkDataFrame 2
    [("citation", [Str "Abate 2007"; Str "Abou 2004"]);
     ("DOI", [Str "10.1103/PhysRevE.76.021306";
              Str "10.1103/PhysRevLett.93.160603"]);
     ("notes", [Str "granular"; Str "colloids"])].


(** ** Records under the sanitizing loop, and the lookups in time *)

(** The citation of a Record is a [str]. *)
Definition citation_is_str (r : dict) : Prop :=
  exists s, dict_get r "citation" = Some (Str s).

(** What the sanitizing loop makes of one Record. *)
Definition sanitized (r r' : dict) : Prop :=
  r'.*1 = r.*1
  /\ (forall k, k <> "citation" -> dict_get r' k = dict_get r k)
  /\ exists s, dict_get r "citation" = Some (Str s)
               /\ dict_get r' "citation"
                  = Some (Str (PyStr.join_if PyStr.isprintable s)).

(** The queries that the lookup loop issues for a list of citations when
    it starts at time [t]: each one half a second after the answer to the
    one before. *)
Fixpoint schedule (svc : Service) (t : Z) (citations : list string)
    : list (Z * string) :=
  match citations with
  | [] => []
  | c :: rest => (t, c) :: schedule svc (t + latency svc c + 500)%Z rest
  end.

(** The time that the service takes for a list of citations. *)
Definition total_latency (svc : Service) (citations : list string) : Z :=
  foldr (fun c t => (latency svc c + t)%Z) 0%Z citations.

(** What [find_doi] prints after the line that announces the search. *)
Definition lookup_report (svc : Service) (citation : string) : Msg :=
  match rbind (works svc citation) top_DOI with
  | Ok doi => FoundDOI doi
  | Raise _ => FailedToFind (PyStr.take 80 citation)
  end.

(** ** What a computation may change *)

(** From [w] to [w'] only the files at the paths [S] were written, and,
    unless [net] is set, no query was issued and no time has passed. *)
Definition changes_only (S : list string) (net : bool) (w w' : World) : Prop :=
  service w' = service w
  /\ (forall p, p ∉ S -> fs w' !! p = fs w !! p)
  /\ (net = false -> requests w' = requests w /\ now w' = now w).

(** A computation that changes the world within these bounds and raises
    only exceptions in [P]. *)
Definition keeps {A} (S : list string) (net : bool) (P : exn -> Prop) (m : M A)
    : Prop :=
  forall w, changes_only S net w (m w).1
            /\ match (m w).2 with Raise e => P e | Ok _ => True end.

(** What [except Exception] catches, and the exit that [main] asks for. *)
Definition Exception_or_exit_1 (e : exn) : Prop :=
  is_Exception e = true \/ e = SystemExit 1.

(** The paths at which a run writes. *)
Definition written_paths (args : Args) : list string :=
  match given (clean args), given (input args) with
  | Some csv_file, _ => [csv_file]
  | None, Some _ => [output args; excel_path_of (output args)]
  | None, None => []
  end.

(** The run looks citations up. *)
Definition ingests (args : Args) : bool :=
  match given (clean args), given (input args) with
  | None, Some _ => true
  | _, _ => false
  end.

(** ** Runs that fail, and more sample worlds *)

(** The message of a run that ends before it starts to work: no mode was
    chosen, or the file to work on is not there. *)
Definition usage_error (args : Args) (w : World) : option Msg :=
  match given (clean args), given (input args) with
  | Some csv_file, _ =>
      if bool_decide (is_Some (fs w !! csv_file)) then None
      else Some (ErrorCsvNotFound csv_file)
  | None, Some citations_file =>
      if bool_decide (is_Some (fs w !! citations_file)) then None
      else Some (ErrorCitationsNotFound citations_file)
  | None, None => Some ErrorNoArguments
  end.

(** The world after one more line of output. *)
Definition printed (msg : Msg) (w : World) : World :=
  mk_world (fs w) (now w) (service w) (requests w) (stdout w ++ [msg]).

(** An input file with two papers and an output file without columns. *)
Definition empty_table : World :=
  world_of {[ "cites.txt" := TextFile [abate_line; abou_line];
              "dois.csv" := CsvFile (Pandas.of_records []) ]} two_papers.

(** The world of the blank input file after its run, with a new input
    file of two papers. *)
Definition after_blank_run : World :=
  mk_world (<[ "more.txt" := TextFile [abate_line; abou_line] ]>
              (fs (run ingest_args blank_input).1))
           0 two_papers [] [].

(** An output file with the rows of [abate] twice and one new paper to
    look up. *)
Definition doubled_table : World :=
  world_of {[ "cites.txt" := TextFile [abou_line];
              "dois.csv" := CsvFile (Pandas.of_records [abate; abate_again]) ]}
           two_papers.

(** A table of five rows with three [doi] values. *)
Definition five_rows : Pandas.DataFrame :=
  Pandas.of_records [abate; unresolved_one; abou; abate_again; unresolved_two].

(** A service whose first hit has no DOI and whose second has one. *)
Definition second_hit_only : Service :=
  mk_service
    (fun _ => Ok (mk_reply (Some (mk_message
               (Some [mk_work None; mk_work (Some "10.1000/second")])))))
    (fun _ => 0%Z).

(** A table in which pandas read the citation ["NA"] of an earlier run
    as a missing value, and an input file with that citation. *)
Definition na_record : dict :=
  [("citation", NaN); ("doi", Str "Not Found");
   ("doi_url", Str "https://doi.org/Not Found")].

Definition na_table : World :=
  world_of {[ "cites.txt" := TextFile ["[3] NA" +:+ newline];
              "dois.csv" := CsvFile (Pandas.of_records [na_record]) ]} no_hits.

(* ===================================================================== *)
(** * Part III: properties                                                *)
(* ===================================================================== *)

(** ** The Normalizer *)

Section StripFacts.
Import PyStr.

Lemma isspace_not_alpha c : isspace c = true -> is_alpha c = false.
Proof.
  destruct c as [[] [] [] [] [] [] [] []]; vm_compute; congruence.
Qed.

Lemma rstrip_idemp s : rstrip (rstrip s) = rstrip s.
Proof.
  induction s as [|c s IH]; [done|]. simpl.
  destruct (isspace c && negb (truthy (rstrip s))) eqn:E; [done|].
  simpl. by rewrite IH, E.
Qed.

Lemma lstrip_rstrip s : lstrip (rstrip s) = rstrip (lstrip s).
Proof.
  induction s as [|c s IH]; [done|]. simpl.
  destruct (isspace c) eqn:Ec; simpl.
  - destruct (truthy (rstrip s)) eqn:Er; simpl.
    + by rewrite Ec.
    + rewrite <- IH. by destruct (rstrip s).
  - by rewrite Ec.
Qed.

Lemma strip_rstrip s : strip (rstrip s) = strip s.
Proof. unfold strip. by rewrite lstrip_rstrip, rstrip_idemp. Qed.

Lemma rstrip_blank s : truthy (rstrip s) = negb (is_blank s).
Proof.
  induction s as [|c s IH]; [done|]. simpl.
  rewrite IH. by destruct (isspace c), (is_blank s).
Qed.

Lemma lstrip_blank s : is_blank (lstrip s) = is_blank s.
Proof.
  induction s as [|c s IH]; [done|]. simpl.
  destruct (isspace c) eqn:Ec; simpl; [done|]. by rewrite Ec.
Qed.

Lemma strip_truthy s : truthy (strip s) = negb (is_blank s).
Proof. unfold strip. by rewrite rstrip_blank, lstrip_blank. Qed.

(** Stripping on the left moves the first letter, it does not lose it. *)
Lemma search_lstrip s :
  match re_search_alpha s with
  | None => re_search_alpha (lstrip s) = None
  | Some j => exists k, re_search_alpha (lstrip s) = Some k
                        /\ drop k (lstrip s) = drop j s
  end.
Proof.
  induction s as [|c s IH]; [done|]. simpl.
  destruct (isspace c) eqn:Ec.
  - rewrite (isspace_not_alpha _ Ec).
    destruct (re_search_alpha s) as [j|]; simpl; [|done].
    destruct IH as (k & Hk & Hd). by exists k.
  - simpl. destruct (is_alpha c); [by exists O|].
    destruct (re_search_alpha s) as [j|]; simpl; [|done]. by exists (S j).
Qed.

(** Stripping on the right keeps the first letter where it is. *)
Lemma search_rstrip s :
  match re_search_alpha s with
  | None => re_search_alpha (rstrip s) = None
  | Some j => re_search_alpha (rstrip s) = Some j
              /\ drop j (rstrip s) = rstrip (drop j s)
  end.
Proof.
  induction s as [|c s IH]; [done|]. simpl.
  destruct (is_alpha c) eqn:Ea.
  - destruct (isspace c) eqn:Ec.
    + rewrite (isspace_not_alpha _ Ec) in Ea. done.
    + simpl. rewrite Ea. simpl. by rewrite ?Ec.
  - destruct (re_search_alpha s) as [j|]; simpl.
    + destruct IH as [Hj Hd].
      assert (truthy (rstrip s) = true) as ->.
      { destruct (rstrip s); [simpl in Hj; discriminate|done]. }
      rewrite andb_false_r. simpl. by rewrite Ea, Hj.
    + destruct (isspace c && negb (truthy (rstrip s))); [done|].
      simpl. by rewrite Ea, IH.
Qed.

(** What the source does to a trimmed line, in one step on the raw
    line. *)
Lemma normalize_strip line :
  match re_search_alpha (strip line) with
  | Some start => strip (drop start (strip line))
  | None => strip line
  end = az_normalize line.
Proof.
  unfold az_normalize, strip at 1 3 4.
  pose proof (search_lstrip line) as Hl.
  pose proof (search_rstrip (lstrip line)) as Hr.
  destruct (re_search_alpha line) as [j|].
  - destruct Hl as (k & Hk & Hd). rewrite Hk in Hr.
    destruct Hr as [-> ->]. by rewrite Hd, strip_rstrip.
  - rewrite Hl in Hr. by rewrite Hr.
Qed.

End StripFacts.

Lemma preprocess_from (done rest : list string) :
  foldl preprocess_at ((normalize_one <$> done) ++ rest)
        (seq (length done) (length rest))
  = normalize_one <$> (done ++ rest).
Proof.
  revert done. induction rest as [|c rest IH]; intros done; simpl.
  - by rewrite !app_nil_r.
  - assert (preprocess_at ((normalize_one <$> done) ++ c :: rest) (length done)
            = (normalize_one <$> (done ++ [c])) ++ rest) as ->.
    { unfold preprocess_at.
      rewrite list_lookup_middle by (by rewrite length_fmap).
      rewrite fmap_app, <- app_assoc.
      rewrite <- (length_fmap normalize_one done).
      set (L := normalize_one <$> done). simpl. unfold normalize_one.
      destruct (PyStr.re_search_alpha c); [|done].
      replace (length L) with (length L + 0) by lia.
      by rewrite insert_app_r. }
    specialize (IH (done ++ [c])).
    rewrite length_app in IH. simpl in IH.
    replace (length done + 1) with (S (length done)) in IH by lia.
    rewrite IH. by rewrite <- app_assoc.
Qed.

Lemma preprocess_fmap (citations : list string) :
  preprocess citations = normalize_one <$> citations.
Proof. apply (preprocess_from [] citations). Qed.

Lemma filter_ext_bool {A} (f g : A -> bool) (l : list A) :
  (forall x, f x = g x) -> List.filter f l = List.filter g l.
Proof.
  intros H. induction l as [|x l IH]; [done|]. simpl. by rewrite H, IH.
Qed.

Lemma normalized_citations_spec (lines : list string) :
  normalized_citations lines
  = az_normalize <$> List.filter (fun line => negb (is_blank line)) lines.
Proof.
  unfold normalized_citations, read_citations.
  rewrite preprocess_fmap, <- list_fmap_compose.
  rewrite (filter_ext_bool _ (fun line => negb (is_blank line)))
    by apply strip_truthy.
  apply list_fmap_ext. intros _ line _. apply normalize_strip.
Qed.

(** [re_search_alpha] finds the first letter: the character at the index it
    returns is a letter and no character before it is one; it returns
    [None] on a string without letters only. *)
Lemma re_search_alpha_Some (s : string) (i : nat) :
  PyStr.re_search_alpha s = Some i ->
  (exists c, String.get i s = Some c /\ PyStr.is_alpha c = true)
  /\ forall j c, j < i -> String.get j s = Some c -> PyStr.is_alpha c = false.
Proof.
  revert i. induction s as [|a s IH]; intros i H; simpl in H; [done|].
  destruct (PyStr.is_alpha a) eqn:Ea.
  - injection H as <-. split; [by exists a|]. intros j c Hj. lia.
  - destruct (PyStr.re_search_alpha s) as [k|]; simpl in H; [|done].
    injection H as <-. destruct (IH k eq_refl) as [(c & Hc & Hac) Hlt].
    split; [by exists c|].
    intros [|j] c' Hj Hg; simpl in Hg.
    + by injection Hg as <-.
    + apply (Hlt j); [lia|done].
Qed.

Lemma re_search_alpha_None (s : string) :
  PyStr.re_search_alpha s = None ->
  forall j c, String.get j s = Some c -> PyStr.is_alpha c = false.
Proof.
  induction s as [|a s IH]; intros H j c Hg; simpl in *; [done|].
  destruct (PyStr.is_alpha a) eqn:Ea; [done|].
  destruct (PyStr.re_search_alpha s); [done|].
  destruct j as [|j]; [by injection Hg as <-|]. by apply (IH eq_refl j).
Qed.

(** C5, on the code: the search is for a letter of [[a-zA-Z]], so an
    alphabetic character outside that class is not found. A citation
    that starts with such a letter loses it: the line of Aberg, with its
    ring, comes out as ["berg, K., ..."], where the contract keeps the
    line from its first alphabetic character on. *)
Theorem normalizer_cuts_a_letter_outside_az :
  is_alphabetic A_ring = true
  /\ PyStr.is_alpha A_ring = false
  /\ normalized_citations [aberg_line] = ["berg, K., 2001, Nature 1, 1."]
  /\ spec_normalizer [aberg_line]
     = [String A_ring "berg, K., 2001, Nature 1, 1."]
  /\ normalized_citations [aberg_line] <> spec_normalizer [aberg_line].
Proof. vm_compute. repeat split; try reflexivity. discriminate. Qed.

Lemma is_alphabetic_ascii c :
  (PyStr.code c <? 128)%N = true -> is_alphabetic c = PyStr.is_alpha c.
Proof.
  destruct c as [[] [] [] [] [] [] [] []]; vm_compute; congruence.
Qed.

Lemma search_alphabetic_ascii s :
  ascii_only s = true -> search_alphabetic s = PyStr.re_search_alpha s.
Proof.
  induction s as [|c s IH]; [done|]. cbn [ascii_only].
  intros [Hc Hs]%andb_true_iff. cbn [search_alphabetic PyStr.re_search_alpha].
  by rewrite (is_alphabetic_ascii c Hc), (IH Hs).
Qed.

(** X28. On lines of ASCII characters the Normalizer keeps its contract:
    it drops the blank lines and returns, for each other line, the
    substring that starts at its first alphabetic character, trimmed, or
    the trimmed line when it has none. *)
Theorem normalizer_contract_on_ascii (lines : list string) :
  Forall (fun line => ascii_only line = true) lines ->
  normalized_citations lines = spec_normalizer lines.
Proof.
  intros Hascii. rewrite normalized_citations_spec. unfold spec_normalizer.
  induction Hascii as [|line lines Hline _ IH]; [done|].
  cbn [List.filter]. destruct (negb (is_blank line)); [|exact IH].
  rewrite !fmap_cons, IH. f_equal.
  unfold az_normalize, spec_normalize. by rewrite search_alphabetic_ascii.
Qed.

Lemma normalizer_contract_on_ascii_witness :
  Forall (fun line => ascii_only line = true)
    ["1. Abate, A. R., 2007, Phys. Rev. E 76, 021306." +:+ newline; newline]
  /\ normalized_citations
       ["1. Abate, A. R., 2007, Phys. Rev. E 76, 021306." +:+ newline; newline]
     = spec_normalizer
         ["1. Abate, A. R., 2007, Phys. Rev. E 76, 021306." +:+ newline; newline]
  /\ spec_normalizer
       ["1. Abate, A. R., 2007, Phys. Rev. E 76, 021306." +:+ newline; newline]
     = ["Abate, A. R., 2007, Phys. Rev. E 76, 021306."].
Proof.
  assert (Forall (fun line => ascii_only line = true)
            ["1. Abate, A. R., 2007, Phys. Rev. E 76, 021306." +:+ newline;
             newline]) as H by (repeat constructor).
  split; [exact H|]. split; [|reflexivity].
  exact (normalizer_contract_on_ascii _ H).
Defined.

(** ** The Result Merger *)

Lemma remove_duplicate_dois_loop_first_seen results seen unique_results :
  Forall has_doi results ->
  remove_duplicate_dois_loop results seen unique_results
  = Ok (unique_results ++ first_seen seen results).
Proof.
  intros Hwf. revert seen unique_results.
  induction Hwf as [|r rest [d Hd] _ IH]; intros seen acc; simpl.
  - by rewrite app_nil_r.
  - unfold getitem. unfold doi_of in Hd. unfold doi_of. rewrite Hd. simpl.
    destruct (decide (d ∉ seen)); [|apply IH].
    rewrite IH. by rewrite <- app_assoc.
Qed.

Lemma remove_duplicate_dois_first_seen results :
  Forall has_doi results ->
  remove_duplicate_dois results = Ok (first_seen ∅ results).
Proof. apply remove_duplicate_dois_loop_first_seen. Qed.

Lemma first_seen_sublist seen results :
  first_seen seen results `sublist_of` results.
Proof.
  revert seen. induction results as [|r rest IH]; intros seen; simpl; [done|].
  destruct (doi_of r) as [d|]; [|by apply sublist_cons].
  destruct (decide (d ∉ seen)); [by apply sublist_skip|by apply sublist_cons].
Qed.

Lemma first_seen_fresh seen results r :
  r ∈ first_seen seen results -> exists d, doi_of r = Some d /\ d ∉ seen.
Proof.
  revert seen. induction results as [|r' rest IH]; intros seen; simpl.
  - by intros ?%elem_of_nil.
  - destruct (doi_of r') as [d|] eqn:Hd; [|apply IH].
    destruct (decide (d ∉ seen)); [|apply IH].
    intros [->|Hin]%elem_of_cons; [by exists d|].
    destruct (IH _ Hin) as (d' & Hd' & Hnot). exists d'. set_solver.
Qed.

Lemma first_seen_NoDup seen results :
  NoDup (doi_of <$> first_seen seen results).
Proof.
  revert seen. induction results as [|r rest IH]; intros seen; simpl.
  - constructor.
  - destruct (doi_of r) as [d|] eqn:Hd; [|apply IH].
    destruct (decide (d ∉ seen)); [|apply IH].
    simpl. constructor; [|apply IH].
    intros (r' & Hr' & Hin)%list_elem_of_fmap.
    destruct (first_seen_fresh _ _ _ Hin) as (d' & Hd' & Hnot).
    rewrite Hd in Hr'. rewrite Hd' in Hr'. injection Hr' as <-. set_solver.
Qed.

Lemma first_seen_find seen results d :
  List.find (doi_is d) (first_seen seen results)
  = if decide (d ∈ seen) then None else List.find (doi_is d) results.
Proof.
  revert seen. induction results as [|r rest IH]; intros seen; simpl.
  - by destruct (decide (d ∈ seen)).
  - unfold doi_is at 2. destruct (doi_of r) as [d'|] eqn:Hd.
    + destruct (decide (d' ∉ seen)) as [Hn|Hn]; simpl.
      * unfold doi_is at 1. rewrite Hd.
        destruct (decide (d' = d)) as [->|Hne].
        -- rewrite !bool_decide_eq_true_2 by done.
           by rewrite decide_False by done.
        -- rewrite !bool_decide_eq_false_2 by congruence.
           rewrite IH. destruct (decide (d ∈ seen)).
           ++ rewrite decide_True; [done|]. apply elem_of_union. by right.
           ++ rewrite decide_False; [done|].
              rewrite elem_of_union, elem_of_singleton. intros [?|?]; congruence.
      * rewrite IH. destruct (decide (d ∈ seen)) as [|Hd']; [done|].
        rewrite bool_decide_eq_false_2; [done|].
        intros Heq. injection Heq as ->. by apply Hn.
    + rewrite IH. by rewrite bool_decide_eq_false_2 by done.
Qed.

Lemma first_seen_idemp seen results :
  first_seen seen (first_seen seen results) = first_seen seen results.
Proof.
  revert seen. induction results as [|r rest IH]; intros seen; simpl; [done|].
  destruct (doi_of r) as [d|] eqn:Hd; [|apply IH].
  destruct (decide (d ∉ seen)) as [Hn|Hn]; [|apply IH].
  simpl. rewrite Hd. rewrite decide_True by done. by rewrite IH.
Qed.

Lemma first_seen_has_doi seen results :
  Forall has_doi (first_seen seen results).
Proof.
  apply Forall_forall. intros r Hin.
  destruct (first_seen_fresh _ _ _ Hin) as (d & Hd & _). by exists d.
Qed.

(** C1. On Records that have a [doi] field the Result Merger returns a
    sequence in which no two Records share a [doi], which is a subsequence
    of the input, and in which the Record of each [doi] value is the first
    Record of the input with that value. *)
Theorem remove_duplicate_dois_first_seen_subsequence (results : list dict) :
  Forall has_doi results ->
  exists unique_results,
    remove_duplicate_dois results = Ok unique_results
    /\ NoDup (doi_of <$> unique_results)
    /\ unique_results `sublist_of` results
    /\ forall d, List.find (doi_is d) unique_results
                 = List.find (doi_is d) results.
Proof.
  intros Hwf. exists (first_seen ∅ results). split; [|split; [|split]].
  - by apply remove_duplicate_dois_first_seen.
  - apply first_seen_NoDup.
  - apply first_seen_sublist.
  - intros d. rewrite first_seen_find. by rewrite decide_False by set_solver.
Qed.

Lemma remove_duplicate_dois_first_seen_subsequence_witness :
  Forall has_doi [abate; abou; abate_again; unresolved_one]
  /\ exists unique_results,
      remove_duplicate_dois [abate; abou; abate_again; unresolved_one]
      = Ok unique_results
      /\ NoDup (doi_of <$> unique_results)
      /\ unique_results `sublist_of` [abate; abou; abate_again; unresolved_one]
      /\ forall d, List.find (doi_is d) unique_results
                   = List.find (doi_is d)
                       [abate; abou; abate_again; unresolved_one].
Proof.
  split;
    [|apply (remove_duplicate_dois_first_seen_subsequence
               [abate; abou; abate_again; unresolved_one])];
    repeat constructor; by eexists.
Defined.

(** C7. The Result Merger is idempotent: on Records that have a [doi]
    field it returns a sequence on which it returns that same sequence. *)
Theorem remove_duplicate_dois_idempotent (results : list dict) :
  Forall has_doi results ->
  exists unique_results,
    remove_duplicate_dois results = Ok unique_results
    /\ remove_duplicate_dois unique_results = Ok unique_results.
Proof.
  intros Hwf. exists (first_seen ∅ results). split.
  - by apply remove_duplicate_dois_first_seen.
  - rewrite remove_duplicate_dois_first_seen by apply first_seen_has_doi.
    by rewrite first_seen_idemp.
Qed.

Lemma remove_duplicate_dois_idempotent_witness :
  Forall has_doi [abate; unresolved_one; abate_again; unresolved_two]
  /\ exists unique_results,
      remove_duplicate_dois [abate; unresolved_one; abate_again; unresolved_two]
      = Ok unique_results
      /\ remove_duplicate_dois unique_results = Ok unique_results.
Proof.
  split;
    [|apply (remove_duplicate_dois_idempotent
               [abate; unresolved_one; abate_again; unresolved_two])];
    repeat constructor; by eexists.
Defined.

(** The Result Merger reads the [doi] of every Record: where it returns,
    every Record had one. *)
Lemma remove_duplicate_dois_loop_Ok results seen unique_results out :
  remove_duplicate_dois_loop results seen unique_results = Ok out ->
  Forall has_doi results.
Proof.
  revert seen unique_results.
  induction results as [|r rest IH]; intros seen acc H; [constructor|].
  simpl in H. unfold getitem in H.
  destruct (dict_get r "doi") as [d|] eqn:Hd; [|done]. simpl in H.
  constructor; [by exists d|].
  destruct (decide (d ∉ seen)); eapply IH, H.
Qed.

Lemma NoDup_fmap_filter_le {A B} (f : A -> B) (p : A -> bool) (v : B)
    (l : list A) :
  (forall x, p x = true -> f x = v) ->
  NoDup (f <$> l) -> length (List.filter p l) <= 1.
Proof.
  intros Hp. induction l as [|x l IH]; simpl; [lia|].
  intros [Hx Hl]%NoDup_cons. destruct (p x) eqn:Ex; [|by apply IH].
  assert (List.filter p l = []) as ->; [|simpl; lia].
  clear IH Hl. induction l as [|y l IH]; [done|]. simpl.
  destruct (p y) eqn:Ey.
  - exfalso. apply Hx. simpl. rewrite (Hp _ Ex), <- (Hp _ Ey). left.
  - apply IH. intros Hin. apply Hx. simpl. by right.
Qed.

Lemma not_found_rows_le_1 (unique_results : list dict) :
  NoDup (doi_of <$> unique_results) -> not_found_rows unique_results <= 1.
Proof.
  apply (NoDup_fmap_filter_le doi_of _ (Some (Str "Not Found"))).
  intros r Hr. unfold doi_is in Hr. by apply bool_decide_eq_true in Hr.
Qed.

Lemma find_filter_nonempty {A} (p : A -> bool) (l : list A) :
  0 < length (List.filter p l) <-> is_Some (List.find p l).
Proof.
  induction l as [|x l IH]; simpl.
  - split; [lia|]. by intros [? ?].
  - destruct (p x); simpl; [|done]. split; [by eexists|lia].
Qed.

(** C3, as stated, fails: no input makes the Result Merger return more than
    one Record whose [doi] is the sentinel. *)
Lemma not_found_rows_do_not_coexist :
  ~ exists results unique_results,
      2 <= not_found_rows results
      /\ remove_duplicate_dois results = Ok unique_results
      /\ 1 < not_found_rows unique_results.
Proof.
  intros (results & unique_results & _ & Hrun & Hmany).
  pose proof (remove_duplicate_dois_loop_Ok _ _ _ _ Hrun) as Hwf.
  rewrite (remove_duplicate_dois_first_seen _ Hwf) in Hrun.
  injection Hrun as <-.
  pose proof (not_found_rows_le_1 _ (first_seen_NoDup ∅ results)). lia.
Qed.

(** C3, amended. On Records that have a [doi] field the Result Merger
    returns at most one Record whose [doi] is the sentinel ["Not Found"],
    and exactly one when the input holds such a Record: the sentinel is a
    [doi] value like any other. *)
Theorem remove_duplicate_dois_one_not_found (results : list dict) :
  Forall has_doi results ->
  exists unique_results,
    remove_duplicate_dois results = Ok unique_results
    /\ not_found_rows unique_results <= 1
    /\ (1 <= not_found_rows results -> not_found_rows unique_results = 1).
Proof.
  intros Hwf. exists (first_seen ∅ results). split; [|split].
  - by apply remove_duplicate_dois_first_seen.
  - apply not_found_rows_le_1, first_seen_NoDup.
  - intros Hone.
    pose proof (not_found_rows_le_1 _ (first_seen_NoDup ∅ results)) as Hle.
    assert (0 < not_found_rows (first_seen ∅ results)); [|lia].
    apply find_filter_nonempty. rewrite first_seen_find.
    rewrite decide_False by set_solver. by apply find_filter_nonempty.
Qed.

Lemma remove_duplicate_dois_one_not_found_witness :
  Forall has_doi [unresolved_one; abate; unresolved_two]
  /\ exists unique_results,
      remove_duplicate_dois [unresolved_one; abate; unresolved_two]
      = Ok unique_results
      /\ not_found_rows unique_results <= 1
      /\ (1 <= not_found_rows [unresolved_one; abate; unresolved_two] ->
          not_found_rows unique_results = 1).
Proof.
  split;
    [|apply (remove_duplicate_dois_one_not_found
               [unresolved_one; abate; unresolved_two])];
    repeat constructor; by eexists.
Defined.

(** ** The Lookup Client *)

Lemma find_doi_run self citation w :
  exists w',
    find_doi self citation w
    = (w', Ok (citation, doi_for (service w) citation, "CrossRef"))
    /\ fs w' = fs w /\ service w' = service w
    /\ now w' = (now w + latency (service w) citation)%Z
    /\ requests w' = requests w ++ [(now w, citation)].
Proof.
  unfold find_doi, doi_for, bind, try_except, cr_works, lift, print, ret.
  simpl. destruct (works (service w) citation) as [api|e]; simpl.
  - destruct (top_DOI api) as [doi|e]; simpl; eauto 10.
  - eauto 10.
Qed.

(** [find_doi] never raises, and where the lookup raises it returns the
    sentinel. *)
Lemma find_doi_not_found self citation w e :
  rbind (works (service w) citation) top_DOI = Raise e ->
  exists w', find_doi self citation w = (w', Ok (citation, "Not Found", "CrossRef")).
Proof.
  intros H. destruct (find_doi_run self citation w) as (w' & Hrun & _).
  exists w'. rewrite Hrun. unfold doi_for. by rewrite H.
Qed.

(** The Record of a citation that was not found. *)
Lemma make_record_not_found citation :
  make_record citation "Not Found"
  = [("citation", Str citation); ("doi", Str "Not Found");
     ("doi_url", Str "https://doi.org/Not Found")].
Proof. reflexivity. Qed.

(** C2, on the code: for a citation whose lookup raises, [find_doi] does not
    raise and the Record has the [doi] ["Not Found"], but its [doi_url] is
    ["https://doi.org/Not Found"], not the empty string. *)
Theorem failed_lookup_record :
  exists w' r,
    process_citations_file DOIFinder_init "cites.txt" one_unresolved
    = (w', Ok [r])
    /\ dict_get r "citation" = Some (Str "Smith, J., private communication.")
    /\ dict_get r "doi" = Some (Str "Not Found")
    /\ dict_get r "doi_url" = Some (Str "https://doi.org/Not Found").
Proof. do 2 eexists. vm_compute. repeat split; reflexivity. Qed.

(** [find_doi] issues its query at the time at which it is called: nothing
    is waited for, and [rate_limit] is not part of it. *)
Lemma find_doi_queries_at_once self citation w :
  requests (find_doi self citation w).1 = requests w ++ [(now w, citation)].
Proof.
  destruct (find_doi_run self citation w) as (w' & -> & _ & _ & _ & Hreq).
  done.
Qed.

(** What [rate_limit] does when it is called: on return the time is at
    least [request_delay] after the last request, and is recorded. *)
Lemma rate_limit_waits self w :
  exists w' self',
    rate_limit self w = (w', Ok self')
    /\ (last_request_time self + request_delay self <= now w')%Z
    /\ (now w <= now w')%Z
    /\ last_request_time self' = now w'
    /\ request_delay self' = request_delay self.
Proof.
  unfold rate_limit, bind, time_time, time_sleep, ret. simpl.
  destruct (now w - last_request_time self <? request_delay self)%Z eqn:E;
    simpl; do 2 eexists; (split; [reflexivity|]); simpl.
  - apply Z.ltb_lt in E. lia.
  - apply Z.ltb_ge in E. lia.
Qed.

(** C4, on the code: the two queries of a file of two citations are issued
    half a second apart, less than [request_delay]. *)
Theorem queries_closer_than_request_delay :
  requests (process_citations_file DOIFinder_init "cites.txt" two_known).1
  = [(0%Z, "Abate, A. R., and D. J. Durian, 2007, Phys. Rev. E 76, 021306.");
     (500%Z, "Abou, B., and F. Gallet, 2004, Phys. Rev. Lett. 93, 160603.")]
  /\ (500 - 0 < request_delay DOIFinder_init)%Z.
Proof. split; [vm_compute; reflexivity|reflexivity]. Qed.

(** ** Stepping through computations *)

Lemma bind_Ok {A B} (m : M A) (k : A -> M B) w w' a :
  m w = (w', Ok a) -> bind m k w = k a w'.
Proof. intros H. unfold bind. by rewrite H. Qed.

Lemma bind_Raise {A B} (m : M A) (k : A -> M B) w w' e :
  m w = (w', Raise e) -> bind m k w = (w', Raise e).
Proof. intros H. unfold bind. by rewrite H. Qed.

(** ** Dictionaries *)

Lemma dict_get_setitem d k v k' :
  dict_get (setitem d k v) k' = if String.eqb k k' then Some v else dict_get d k'.
Proof.
  induction d as [|[k0 v0] d IH]; simpl.
  - done.
  - destruct (String.eqb k0 k) eqn:E0; simpl.
    + apply String.eqb_eq in E0 as ->. by destruct (String.eqb k k').
    + rewrite IH. destruct (String.eqb k0 k') eqn:E1; [|done].
      apply String.eqb_eq in E1 as ->. by rewrite String.eqb_sym, E0.
Qed.

Lemma sanitize_well_formed results :
  Forall well_formed results ->
  exists results',
    sanitize results = Ok results'
    /\ length results' = length results
    /\ doi_of <$> results' = doi_of <$> results
    /\ Forall well_formed results'.
Proof.
  induction 1 as [|r rest [[s Hs] [d Hd]] _ (rest' & Hrest & Hlen & Hdoi & Hwf)].
  - by exists [].
  - simpl. unfold getitem. rewrite Hs. simpl. rewrite Hrest. simpl.
    eexists. split; [reflexivity|]. split; [simpl; by rewrite Hlen|].
    assert (doi_of (setitem r "citation" (Str (PyStr.join_if PyStr.isprintable s)))
            = doi_of r) as Hsame.
    { unfold doi_of. by rewrite dict_get_setitem. }
    split; [by rewrite !fmap_cons, Hsame, Hdoi|].
    constructor; [|done]. split.
    + eexists. by rewrite dict_get_setitem.
    + unfold has_doi. rewrite Hsame. by exists d.
Qed.

Lemma count_found_has_doi results :
  Forall has_doi results -> exists n, count_found results = Ok n.
Proof.
  induction 1 as [|r rest [d Hd] _ [n Hn]]; [by exists 0|].
  simpl. unfold getitem. unfold doi_of in Hd. rewrite Hd. simpl. rewrite Hn.
  simpl. eauto.
Qed.

(** ** The frames of pandas raise exceptions that [except Exception]
    catches *)

Lemma getcol_raises df c : raises_Exception (Pandas.getcol df c).
Proof.
  unfold Pandas.getcol. destruct (List.filter _ _) as [|? [|? ?]]; done.
Qed.

Lemma drop_raises df c : raises_Exception (Pandas.drop df c).
Proof. unfold Pandas.drop. by destruct (decide _). Qed.

Lemma merge_raises left right : raises_Exception (Pandas.merge left right).
Proof.
  unfold Pandas.merge.
  pose proof (getcol_raises left "doi") as Hl.
  destruct (Pandas.getcol left "doi"); [|done]. simpl.
  pose proof (getcol_raises right "doi") as Hr.
  destruct (Pandas.getcol right "doi"); [|done]. simpl.
  by destruct (decide _).
Qed.

Lemma fold_new_columns_raises columns df :
  raises_Exception (fold_new_columns columns df).
Proof.
  revert df. induction columns as [|col rest IH]; intros df; simpl; [done|].
  destruct (PyStr.endswith "_new" col); [|apply IH].
  pose proof (getcol_raises df col) as Hg.
  destruct (Pandas.getcol df col) as [vs|]; [|done]. simpl.
  pose proof (drop_raises (Pandas.setcol df (PyStr.replace "_new" "" col) vs) col) as Hd.
  destruct (Pandas.drop _ col); [|done]. simpl. apply IH.
Qed.

(** ** The steps of [save_results] *)

Lemma load_existing_run excel_path new_df w :
  exists r,
    bind (read_excel excel_path)
      (fun existing_df =>
         bind (lift (Pandas.merge existing_df new_df))
           (fun merged_df =>
              lift (fold_new_columns (Pandas.columns merged_df) merged_df))) w
    = (w, r)
    /\ raises_Exception r.
Proof.
  unfold bind, read_excel, lift.
  destruct (fs w !! excel_path) as [[lines|df|df]|]; try by eexists.
  pose proof (merge_raises df new_df) as Hm.
  destruct (Pandas.merge df new_df) as [merged|e]; [|by eexists].
  eexists. split; [reflexivity|]. apply fold_new_columns_raises.
Qed.

Lemma merge_existing_run excel_path new_df w :
  exists w' final_df,
    merge_existing excel_path new_df w = (w', Ok final_df)
    /\ fs w' = fs w /\ service w' = service w
    /\ (fs w !! excel_path = None -> w' = w /\ final_df = new_df).
Proof.
  unfold merge_existing. unfold bind at 1. unfold path_exists.
  destruct (fs w !! excel_path) as [f|] eqn:Hf.
  - rewrite bool_decide_eq_true_2 by eauto. unfold try_except.
    destruct (load_existing_run excel_path new_df w) as (r & -> & Hr).
    destruct r as [df|e]; simpl in Hr.
    + do 2 eexists. split; [reflexivity|]. done.
    + rewrite Hr. unfold bind, print, ret.
      do 2 eexists. split; [reflexivity|]. done.
  - rewrite bool_decide_eq_false_2 by (by intros [? ?]).
    do 2 eexists. split; [reflexivity|]. done.
Qed.

Lemma write_tables_run final_df excel_path output_path w :
  exists w',
    write_tables final_df excel_path output_path w = (w', Ok tt)
    /\ service w' = service w
    /\ fs w' !! output_path = Some (CsvFile final_df)
    /\ (forall p, p <> output_path -> p <> excel_path -> fs w' !! p = fs w !! p).
Proof.
  unfold write_tables, bind, try_except, to_excel, to_csv, write_file, raise,
    print.
  destruct (_ || _); simpl; eexists; (split; [reflexivity|]); simpl;
    (split; [done|]); (split; [by rewrite lookup_insert_eq|]); intros p Ho He.
  - by rewrite !lookup_insert_ne.
  - by rewrite lookup_insert_ne.
Qed.

Lemma print_summary_run self results w :
  Forall has_doi results -> results <> [] ->
  exists w',
    print_summary self results false w = (w', Ok tt)
    /\ fs w' = fs w /\ service w' = service w.
Proof.
  intros Hwf Hne. destruct (count_found_has_doi _ Hwf) as [n Hn].
  unfold print_summary, bind, lift, print, raise. simpl. rewrite Hn.
  destruct results; [done|]. simpl. eauto.
Qed.

Lemma print_summary_empty self w :
  exists w',
    print_summary self [] false w = (w', Raise ZeroDivisionError)
    /\ fs w' = fs w
    /\ stdout w' = stdout w ++ [SummaryHeader; TotalCitations 0; DOIsFound 0].
Proof.
  unfold print_summary, bind, lift, print, raise. simpl.
  eexists. split; [reflexivity|]. simpl. split; [done|].
  by rewrite <- !app_assoc.
Qed.

(** ** [save_results] as a whole *)

Lemma save_results_run self results output_path w :
  Forall well_formed results -> results <> [] ->
  exists w' results' final_df,
    save_results self results output_path false w = (w', Ok tt)
    /\ sanitize results = Ok results'
    /\ service w' = service w
    /\ fs w' !! output_path = Some (CsvFile final_df)
    /\ (forall p, p <> output_path -> p <> excel_path_of output_path ->
                  fs w' !! p = fs w !! p)
    /\ (fs w !! excel_path_of output_path = None ->
        final_df = Pandas.of_records results').
Proof.
  intros Hwf Hne.
  destruct (sanitize_well_formed _ Hwf) as (results' & Hs & Hlen & Hdoi & Hwf').
  unfold save_results. unfold bind at 1. unfold lift at 1. rewrite Hs.
  fold (excel_path_of output_path).
  destruct (merge_existing_run (excel_path_of output_path)
              (Pandas.of_records results') w)
    as (w1 & final_df & Hm & Hfs1 & Hsvc1 & Hfresh).
  rewrite (bind_Ok _ _ _ _ _ Hm).
  destruct (write_tables_run final_df (excel_path_of output_path) output_path w1)
    as (w2 & Hw & Hsvc2 & Hout & Hframe).
  rewrite (bind_Ok _ _ _ _ _ Hw).
  destruct (print_summary_run self results' w2) as (w3 & Hp & Hfs3 & Hsvc3).
  { eapply Forall_impl; [exact Hwf'|]. by intros r [_ ?]. }
  { intros ->. destruct results; [done|]. simpl in Hlen. lia. }
  exists w3, results', final_df. rewrite Hp, Hfs3, Hsvc3, Hsvc2, Hsvc1.
  repeat split; try done.
  - intros p Ho He. rewrite Hframe by done. by rewrite Hfs1.
  - intros Hnone. by destruct (Hfresh Hnone).
Qed.

Lemma save_results_empty self output_path w :
  (save_results self [] output_path false w).2 = Raise ZeroDivisionError.
Proof.
  unfold save_results. unfold bind at 1. unfold lift at 1. simpl sanitize. cbv iota beta.
  destruct (merge_existing_run (PyStr.replace ".csv" ".xlsx" output_path)
              (Pandas.of_records []) w)
    as (w1 & final_df & Hm & _).
  rewrite (bind_Ok _ _ _ _ _ Hm).
  destruct (write_tables_run final_df (PyStr.replace ".csv" ".xlsx" output_path)
              output_path w1) as (w2 & Hw & _).
  rewrite (bind_Ok _ _ _ _ _ Hw).
  destruct (print_summary_empty self w2) as (w3 & -> & _). done.
Qed.

(** ** [process_citations_file] *)

Lemma lookup_loop_run self n i citations results w :
  exists w',
    lookup_loop self n i citations results w
    = (w', Ok (results ++ looked_up (service w) citations))
    /\ fs w' = fs w /\ service w' = service w.
Proof.
  revert i results w. induction citations as [|c rest IH]; intros i results w.
  - simpl. exists w. unfold ret. by rewrite app_nil_r.
  - simpl. unfold bind at 1. unfold print at 1. unfold bind at 1.
    set (w0 := mk_world _ _ _ _ _).
    destruct (find_doi_run self c w0) as (w1 & -> & Hfs1 & Hsvc1 & _).
    assert (exists w2, (if i <? n then time_sleep 500 else ret tt) w1 = (w2, Ok tt)
                       /\ fs w2 = fs w1 /\ service w2 = service w1)
      as (w2 & Hsl & Hfs2 & Hsvc2).
    { destruct (i <? n); eexists; (split; [reflexivity|]); done. }
    rewrite (bind_Ok _ _ _ _ _ Hsl).
    destruct (IH (S i) (results ++ [make_record c (doi_for (service w0) c)]) w2)
      as (w3 & -> & Hfs3 & Hsvc3).
    exists w3. rewrite Hfs3, Hfs2, Hfs1, Hsvc3, Hsvc2, Hsvc1.
    split; [|done]. by rewrite <- app_assoc.
Qed.

Lemma process_citations_file_run self file_path lines w :
  fs w !! file_path = Some (TextFile lines) ->
  exists w',
    process_citations_file self file_path w
    = (w', Ok (looked_up (service w) (normalized_citations lines)))
    /\ fs w' = fs w /\ service w' = service w.
Proof.
  intros Hf. unfold process_citations_file. unfold bind at 1. unfold read_lines.
  rewrite Hf. unfold bind at 1. unfold print at 1.
  set (w0 := mk_world _ _ _ _ _).
  destruct (lookup_loop_run self (length (normalized_citations lines)) 1
              (normalized_citations lines) [] w0) as (w1 & -> & Hfs & Hsvc).
  exists w1. by rewrite Hfs, Hsvc.
Qed.

(** ** Records of the program's own shape, and their table *)

Lemma make_record_shaped citation doi : shaped (make_record citation doi).
Proof. unfold make_record. by do 3 eexists. Qed.

Lemma shaped_well_formed r : shaped r -> well_formed r.
Proof.
  intros (a & b & c & ->). split; [by exists a|by exists (Str b)].
Qed.

Lemma looked_up_shaped svc citations : Forall shaped (looked_up svc citations).
Proof.
  apply Forall_fmap, Forall_forall. intros c _. apply make_record_shaped.
Qed.

Lemma sanitize_shaped results :
  Forall shaped results ->
  exists results',
    sanitize results = Ok results'
    /\ Forall shaped results'
    /\ doi_of <$> results' = doi_of <$> results.
Proof.
  induction 1 as [|r rest (a & b & c & ->) _ (rest' & Hrest & Hsh & Hdoi)].
  - by exists [].
  - simpl. rewrite Hrest. simpl. eexists. split; [reflexivity|].
    split; [constructor; [by do 3 eexists|done]|].
    rewrite !fmap_cons. by rewrite Hdoi.
Qed.

Lemma first_occurrences_seen {A} `{EqDecision A} (seen l : list A) :
  Forall (fun x => x ∈ seen) l -> Pandas.first_occurrences seen l = [].
Proof.
  induction 1 as [|x l Hx _ IH]; [done|]. simpl. by rewrite decide_True.
Qed.

Lemma keys_shaped (records : list dict) :
  Forall shaped records ->
  Forall (fun k => k ∈ ["doi_url"; "doi"; "citation"]) (records ≫= fun r => r.*1).
Proof.
  induction 1 as [|r rest (a & b & c & ->) _ IH]; [constructor|].
  simpl. repeat constructor. done.
Qed.

Lemma of_records_shaped (records : list dict) :
  Forall shaped records -> records <> [] ->
  Pandas.of_records records
  = Pandas.mkDataFrame (length records)
      [("citation", column_of "citation" records);
       ("doi", column_of "doi" records);
       ("doi_url", column_of "doi_url" records)].
Proof.
  intros Hsh Hne. destruct Hsh as [|r rest (a & b & c & ->) Hrest]; [done|].
  set (records := _ :: rest).
  assert (Pandas.first_occurrences [] (records ≫= fun r => r.*1)
          = ["citation"; "doi"; "doi_url"]) as Hkeys.
  { unfold records. simpl. do 3 f_equal.
    exact (first_occurrences_seen _ _ (keys_shaped _ Hrest)). }
  unfold Pandas.of_records. by rewrite Hkeys.
Qed.

Lemma fmap_seq_lookup {A} (F : nat -> A) (l : list A) :
  (forall i x, l !! i = Some x -> F i = x) -> F <$> seq 0 (length l) = l.
Proof.
  intros HF. apply list_eq. intros i. rewrite list_lookup_fmap.
  destruct (l !! i) as [x|] eqn:Hx.
  - rewrite lookup_seq_lt by (by eapply lookup_lt_Some). simpl.
    by rewrite (HF _ _ Hx).
  - rewrite lookup_seq_ge by (by apply lookup_ge_None). done.
Qed.

(** Writing such Records as a table and reading the table back gives the
    Records. *)
Lemma to_dict_records_of_records (records : list dict) :
  Forall shaped records -> records <> [] ->
  Pandas.to_dict_records (Pandas.of_records records) = records.
Proof.
  intros Hsh Hne. rewrite of_records_shaped by done.
  unfold Pandas.to_dict_records. simpl.
  apply fmap_seq_lookup. intros i r Hr.
  unfold column_of. rewrite !list_lookup_fmap, Hr. simpl.
  rewrite Forall_forall in Hsh.
  destruct (Hsh r) as (a & b & c & ->); [by eapply list_elem_of_lookup_2|].
  reflexivity.
Qed.

(** ** The first-seen selection of a concatenation *)

Lemma dois_cons r results :
  dois (r :: results)
  = match doi_of r with Some d => {[d]} ∪ dois results | None => dois results end.
Proof. unfold dois. simpl. by destruct (doi_of r). Qed.

Lemma first_seen_all_seen seen results :
  dois results ⊆ seen -> first_seen seen results = [].
Proof.
  induction results as [|r rest IH]; [done|]. rewrite dois_cons. simpl.
  destruct (doi_of r) as [d|]; intros Hsub.
  - rewrite decide_False by set_solver. apply IH. set_solver.
  - by apply IH.
Qed.

Lemma first_seen_app seen A B :
  first_seen seen (A ++ B) = first_seen seen A ++ first_seen (seen ∪ dois A) B.
Proof.
  revert seen. induction A as [|r A IH]; intros seen.
  - simpl. replace (seen ∪ dois []) with seen; [done|].
    unfold dois. simpl. set_solver.
  - rewrite dois_cons. simpl. destruct (doi_of r) as [d|].
    + destruct (decide (d ∉ seen)) as [Hn|Hn].
      * simpl. rewrite IH.
        replace ({[d]} ∪ seen ∪ dois A) with (seen ∪ ({[d]} ∪ dois A));
          [done|set_solver].
      * rewrite IH. apply dec_stable in Hn.
        replace (seen ∪ ({[d]} ∪ dois A)) with (seen ∪ dois A);
          [done|set_solver].
    + apply IH.
Qed.

Lemma first_seen_fixed seen results :
  Forall has_doi results ->
  NoDup (doi_of <$> results) ->
  dois results ## seen ->
  first_seen seen results = results.
Proof.
  intros Hwf. revert seen.
  induction Hwf as [|r rest [d Hd] _ IH]; intros seen Hnd Hdisj; [done|].
  rewrite dois_cons, Hd in Hdisj. rewrite fmap_cons in Hnd.
  apply NoDup_cons in Hnd as [Hfresh Hnd].
  simpl. rewrite Hd. rewrite decide_True by set_solver. f_equal.
  apply IH; [done|].
  assert (d ∉ dois rest); [|set_solver].
  unfold dois. rewrite elem_of_list_to_set, list_elem_of_omap.
  intros (o & Ho & Hid). simpl in Hid. subst o. by rewrite Hd in Hfresh.
Qed.

Lemma dois_first_seen seen results :
  seen ∪ dois (first_seen seen results) = seen ∪ dois results.
Proof.
  revert seen. induction results as [|r rest IH]; intros seen; [done|].
  rewrite dois_cons. simpl. destruct (doi_of r) as [d|] eqn:Hd; [|apply IH].
  destruct (decide (d ∉ seen)) as [Hn|Hn].
  - rewrite dois_cons, Hd. specialize (IH ({[d]} ∪ seen)). set_solver.
  - apply dec_stable in Hn. rewrite IH. set_solver.
Qed.

Lemma dois_fmap_eq A B : doi_of <$> A = doi_of <$> B -> dois A = dois B.
Proof. unfold dois. by intros ->. Qed.

(** Merging a table that is free of duplicates with Records whose [doi]
    values it already holds gives the table back. *)
Lemma first_seen_absorbs table results :
  Forall has_doi table ->
  NoDup (doi_of <$> table) ->
  dois results ⊆ dois table ->
  first_seen ∅ (table ++ results) = table.
Proof.
  intros Hwf Hnd Hsub. rewrite first_seen_app.
  rewrite first_seen_fixed by (done || set_solver).
  rewrite first_seen_all_seen by set_solver. by rewrite app_nil_r.
Qed.

Lemma first_seen_nonempty results :
  Forall has_doi results -> results <> [] -> first_seen ∅ results <> [].
Proof.
  intros [|r rest [d Hd] _] Hne; [done|]. simpl. rewrite Hd.
  by rewrite decide_True by set_solver.
Qed.

Lemma first_seen_Forall (P : dict -> Prop) seen results :
  Forall P results -> Forall P (first_seen seen results).
Proof.
  intros H. revert seen. induction H as [|r rest Hr _ IH]; intros seen; simpl.
  - constructor.
  - destruct (doi_of r) as [d|]; [|apply IH].
    destruct (decide (d ∉ seen)); [constructor; [done|apply IH]|apply IH].
Qed.

(** ** Ingest runs *)

(** What the run loads from its output path. *)
Lemma load_existing_table output_file E w :
  existing_table (fs w) output_file = Some E ->
  exists w',
    (if bool_decide (is_Some (fs w !! output_file))
     then bind (print (LoadingExisting output_file))
            (fun _ => bind (read_csv output_file)
                        (fun existing_df =>
                           ret (Pandas.to_dict_records existing_df)))
     else ret []) w
    = (w', Ok E)
    /\ fs w' = fs w /\ service w' = service w.
Proof.
  unfold existing_table, bind, print, read_csv, ret. simpl.
  destruct (fs w !! output_file) as [[lines|df|df]|] eqn:Hf; try done.
  - rewrite bool_decide_eq_true_2 by eauto. rewrite Hf.
    destruct (Pandas.cols df); [done|]. intros [= <-]. by eexists.
  - rewrite bool_decide_eq_false_2 by (by intros [? ?]).
    intros [= <-]. by eexists.
Qed.

(** An ingest run that finds its input, can read the table at its output
    path and has a Record to save, ends with the summary of its counts. *)
Lemma ingest_run args w citations_file lines E :
  given (clean args) = None ->
  given (input args) = Some citations_file ->
  fs w !! citations_file = Some (TextFile lines) ->
  existing_table (fs w) (output args) = Some E ->
  Forall well_formed E ->
  E ++ looked_up (service w) (normalized_citations lines) <> [] ->
  let N := looked_up (service w) (normalized_citations lines) in
  let U := first_seen ∅ (E ++ N) in
  exists w' pre U' final_df,
    run args w = (w', 0%Z)
    /\ stdout w'
       = pre ++ ingest_summary (length U)
                  (Z.of_nat (length U) - Z.of_nat (length E))
                  (Z.of_nat (length E) + Z.of_nat (length N)
                   - Z.of_nat (length U))
    /\ service w' = service w
    /\ sanitize U = Ok U'
    /\ fs w' !! output args = Some (CsvFile final_df)
    /\ (forall p, p <> output args -> p <> excel_path_of (output args) ->
                  fs w' !! p = fs w !! p)
    /\ (fs w !! excel_path_of (output args) = None ->
        final_df = Pandas.of_records U').
Proof.
  intros Hclean Hinput Hfile Htable HE Hne N U.
  assert (Forall well_formed (E ++ N)) as Hwf.
  { apply Forall_app. split; [done|].
    eapply Forall_impl; [apply looked_up_shaped|]. apply shaped_well_formed. }
  assert (Forall has_doi (E ++ N)) as Hdoi.
  { eapply Forall_impl; [exact Hwf|]. by intros r [_ ?]. }
  unfold run, main, try_except, main_try. rewrite Hclean, Hinput.
  unfold bind at 1. unfold path_exists at 1.
  rewrite bool_decide_eq_true_2 by eauto. simpl negb. cbv iota.
  unfold bind at 1. unfold ret at 1.
  unfold bind at 1. unfold print at 1.
  set (w0 := mk_world _ _ _ _ _).
  destruct (process_citations_file_run DOIFinder_init citations_file lines w0)
    as (w1 & Hproc & Hfs1 & Hsvc1); [done|].
  rewrite (bind_Ok _ _ _ _ _ Hproc).
  cbv zeta. unfold bind at 1. unfold path_exists at 1.
  destruct (load_existing_table (output args) E w1) as (w2 & Hload & Hfs2 & Hsvc2).
  { by rewrite Hfs1. }
  rewrite (bind_Ok _ _ _ _ _ Hload).
  unfold bind at 1. unfold lift at 1.
  change (service w0) with (service w). fold N.
  rewrite (remove_duplicate_dois_first_seen _ Hdoi). fold U.
  destruct (save_results_run DOIFinder_init U (output args) w2)
    as (w3 & U' & final_df & Hsave & Hsan & Hsvc3 & Hout & Hframe & Hfresh).
  { by apply first_seen_Forall. }
  { by apply first_seen_nonempty. }
  rewrite (bind_Ok _ _ _ _ _ Hsave).
  unfold bind, print. simpl.
  eexists. exists (stdout w3), U', final_df. split; [reflexivity|]. simpl.
  split; [by rewrite <- !app_assoc|].
  rewrite Hsvc3, Hsvc2, Hsvc1. split; [done|]. split; [done|].
  split; [done|]. split.
  - intros p Ho He. rewrite Hframe by done. by rewrite Hfs2, Hfs1.
  - intros Hnone. apply Hfresh. by rewrite Hfs2, Hfs1.
Qed.

(** C8, as stated, fails: with two citations that the service does not
    find, the first run adds one Record and the second run reports two
    duplicates. *)
Lemma second_run_duplicates_differ_from_first_run_added :
  let first := run ingest_args two_unresolved in
  let second := run ingest_args (next_run first.1) in
  first.2 = 0%Z
  /\ (exists pre, stdout first.1 = pre ++ ingest_summary 1 1 1)
  /\ second.2 = 0%Z
  /\ (exists pre, stdout second.1 = pre ++ ingest_summary 1 0 2).
Proof.
  vm_compute. repeat split.
  - eexists [_; _; _; _; _; _; _; _; _; _; _; _; _; _]. reflexivity.
  - eexists [_; _; _; _; _; _; _; _; _; _; _; _; _; _; _]. reflexivity.
Qed.

(** ** Tables of plain text *)

Lemma Forall_of_forallb {A} (f : A -> bool) (l : list A) :
  List.forallb f l = true -> Forall (fun x => f x = true) l.
Proof.
  induction l as [|x l IH]; [constructor|]. simpl.
  intros [Hx Hl]%andb_true_iff. constructor; [done|by apply IH].
Qed.

Lemma str_forallb_app p s t :
  str_forallb p (s +:+ t) = str_forallb p s && str_forallb p t.
Proof.
  induction s as [|c s IH]; [done|].
  change (String c s +:+ t) with (String c (s +:+ t)).
  cbn [str_forallb]. by rewrite IH, andb_assoc.
Qed.

Lemma plain_text_truthy s : plain_text s = true -> PyStr.truthy s = true.
Proof. by destruct s. Qed.

(** The link to a DOI that is plain text is plain text. *)
Lemma plain_text_doi_url doi :
  plain_text doi = true -> plain_text ("https://doi.org/" +:+ doi) = true.
Proof.
  unfold plain_text. intros [[Hp _]%andb_true_iff _]%andb_true_iff.
  rewrite str_forallb_app, Hp.
  change ("https://doi.org/" +:+ doi)
    with (String (Ascii.ascii_of_N 104) ("ttps://doi.org/" +:+ doi)).
  reflexivity.
Qed.

Lemma looked_up_plain svc citations :
  Forall (fun c => plain_text (PyStr.join_if PyStr.isprintable c) = true)
         citations ->
  Forall (fun c => plain_text (doi_for svc c) = true) citations ->
  Forall plain_when_sanitized (looked_up svc citations).
Proof.
  intros Hc Hd. apply Forall_fmap, Forall_forall. intros c Hin.
  rewrite Forall_forall in Hc, Hd. specialize (Hc c Hin). specialize (Hd c Hin).
  simpl. unfold make_record. rewrite (plain_text_truthy _ Hd).
  do 3 eexists. split; [reflexivity|]. split; [done|]. split; [done|].
  by apply plain_text_doi_url.
Qed.

Lemma sanitize_plain results results' :
  sanitize results = Ok results' ->
  Forall plain_when_sanitized results -> Forall plain_record results'.
Proof.
  revert results'. induction results as [|r rest IH]; intros results' H Hall.
  - injection H as <-. constructor.
  - apply Forall_cons_1 in Hall as [(c & d & u & -> & Hc & Hd & Hu) Hall].
    simpl in H. destruct (sanitize rest) as [rest'|] eqn:Hr; simpl in H; [|done].
    injection H as <-. constructor; [|by apply IH].
    by exists (PyStr.join_if PyStr.isprintable c), d, u.
Qed.

Lemma plain_record_shaped r : plain_record r -> shaped r.
Proof. intros (c & d & u & -> & _). by exists c, d, u. Qed.

(** The table of Records of plain text is read back as written. *)
Lemma of_records_plain records :
  Forall plain_record records ->
  reads_back_as_written (Pandas.of_records records) = true.
Proof.
  intros Hall. destruct records as [|r0 rest]; [done|].
  rewrite of_records_shaped; [|by eapply Forall_impl;
                                 [exact Hall|apply plain_record_shaped]|done].
  unfold reads_back_as_written. cbn [Pandas.cols List.forallb snd].
  assert (forall k, k ∈ ["citation"; "doi"; "doi_url"] ->
                    List.forallb plain_cell (column_of k (r0 :: rest)) = true)
    as Hcol.
  { intros k Hk. induction Hall as [|r rs (c & d & u & -> & Hc & Hd & Hu) _ IH];
      [done|].
    unfold column_of. rewrite fmap_cons. cbn [List.forallb].
    fold (column_of k rs). rewrite IH, andb_true_r.
    apply elem_of_cons in Hk as [->|Hk]; [done|].
    apply elem_of_cons in Hk as [->|Hk]; [done|].
    apply list_elem_of_singleton in Hk as ->. done. }
  rewrite !Hcol; [done| | |]; set_solver.
Qed.

(** C8, amended. When no table exists at the output path, neither the CSV
    file nor the spreadsheet, the input file holds a citation, and the
    citations as they are written and the DOIs that the service gives
    are plain text, so that pandas reads the table of the first run back
    as it was written, two ingest runs with the same input file, output
    path and service both reach their summary, and the duplicates that
    the second run reports are as many as the citations of the input
    file: the sum of the Records that the first run reports as added and
    of the duplicates that it reports. This is the number that the first
    run added exactly when the first run reports no duplicate. *)
Theorem second_run_duplicates_count_the_citations
    args w citations_file lines :
  given (clean args) = None ->
  given (input args) = Some citations_file ->
  fs w !! citations_file = Some (TextFile lines) ->
  fs w !! output args = None ->
  fs w !! excel_path_of (output args) = None ->
  normalized_citations lines <> [] ->
  Forall (fun c => plain_text (PyStr.join_if PyStr.isprintable c) = true)
         (normalized_citations lines) ->
  Forall (fun c => plain_text (doi_for (service w) c) = true)
         (normalized_citations lines) ->
  exists w1 pre1 total1 added1 duplicates1 table1
         w2 pre2 total2 added2 duplicates2,
    run args w = (w1, 0%Z)
    /\ stdout w1 = pre1 ++ ingest_summary total1 added1 duplicates1
    /\ fs w1 !! output args = Some (CsvFile table1)
    /\ reads_back_as_written table1 = true
    /\ run args (next_run w1) = (w2, 0%Z)
    /\ stdout w2 = pre2 ++ ingest_summary total2 added2 duplicates2
    /\ duplicates2 = Z.of_nat (length (normalized_citations lines))
    /\ duplicates2 = (added1 + duplicates1)%Z.
Proof.
  intros Hclean Hinput Hfile Hout Hxl Hne Hplainc Hplaind.
  set (N := looked_up (service w) (normalized_citations lines)).
  assert (length N = length (normalized_citations lines)) as HlenN.
  { unfold N, looked_up. by rewrite length_fmap. }
  assert (N <> []) as HneN.
  { intros HN. rewrite HN in HlenN. by destruct (normalized_citations lines). }
  assert (Forall shaped N) as HshN by apply looked_up_shaped.
  set (U := first_seen ∅ N).
  (* the first run *)
  destruct (ingest_run args w citations_file lines [])
    as (w1 & pre1 & U' & df & Hrun1 & Hstd1 & Hsvc1 & Hsan & Hcsv & Hframe & Hdf);
    try done.
  { unfold existing_table. by rewrite Hout. }
  simpl app in *. fold N in Hstd1, Hsan. fold U in Hstd1, Hsan.
  specialize (Hdf Hxl). subst df.
  assert (Forall shaped U) as HshU by (by apply first_seen_Forall).
  assert (U <> []) as HneU.
  { apply first_seen_nonempty; [|done].
    eapply Forall_impl; [exact HshN|]. intros r Hr.
    by destruct (shaped_well_formed r Hr). }
  destruct (sanitize_shaped U HshU) as (U'' & Hsan' & HshU' & HdoiU').
  rewrite Hsan in Hsan'. injection Hsan' as <-.
  assert (U' <> []) as HneU'.
  { intros ->. apply HneU. destruct U; [done|]. by rewrite fmap_cons in HdoiU'. }
  (* the table of the first run is plain text *)
  assert (reads_back_as_written (Pandas.of_records U') = true) as Hplain.
  { apply of_records_plain, (sanitize_plain U); [done|].
    apply first_seen_Forall. by apply looked_up_plain. }
  (* the second run *)
  destruct (ingest_run args (next_run w1) citations_file lines U')
    as (w2 & pre2 & U2' & df2 & Hrun2 & Hstd2 & _); try done.
  { simpl. rewrite Hframe; [done| |]; intros ->; congruence. }
  { simpl. unfold existing_table. rewrite Hcsv.
    rewrite of_records_shaped by done. simpl.
    rewrite <- of_records_shaped by done.
    by rewrite to_dict_records_of_records. }
  { eapply Forall_impl; [exact HshU'|]. apply shaped_well_formed. }
  { by destruct U'. }
  simpl service in Hstd2. rewrite Hsvc1 in Hstd2. fold N in Hstd2.
  assert (first_seen ∅ (U' ++ N) = U') as Habs.
  { apply first_seen_absorbs.
    - eapply Forall_impl; [exact HshU'|]. intros r Hr.
      by destruct (shaped_well_formed r Hr).
    - rewrite HdoiU'. apply first_seen_NoDup.
    - rewrite (dois_fmap_eq _ _ HdoiU'). unfold U.
      pose proof (dois_first_seen ∅ N) as Hd. set_solver. }
  rewrite Habs in Hstd2.
  do 5 eexists. exists (Pandas.of_records U'). do 5 eexists.
  split; [exact Hrun1|]. split; [exact Hstd1|].
  split; [exact Hcsv|]. split; [exact Hplain|].
  split; [exact Hrun2|]. split; [exact Hstd2|]. simpl. lia.
Qed.

Lemma second_run_duplicates_count_the_citations_witness :
  (given (clean ingest_args) = None
   /\ given (input ingest_args) = Some "cites.txt"
   /\ fs two_unresolved !! "cites.txt"
      = Some (TextFile [smith_line; newline; jones_line])
   /\ fs two_unresolved !! output ingest_args = None
   /\ fs two_unresolved !! excel_path_of (output ingest_args) = None
   /\ normalized_citations [smith_line; newline; jones_line] <> []
   /\ Forall (fun c => plain_text (PyStr.join_if PyStr.isprintable c) = true)
        (normalized_citations [smith_line; newline; jones_line])
   /\ Forall (fun c => plain_text (doi_for (service two_unresolved) c) = true)
        (normalized_citations [smith_line; newline; jones_line]))
  /\ exists w1 pre1 total1 added1 duplicates1 table1
            w2 pre2 total2 added2 duplicates2,
      run ingest_args two_unresolved = (w1, 0%Z)
      /\ stdout w1 = pre1 ++ ingest_summary total1 added1 duplicates1
      /\ fs w1 !! output ingest_args = Some (CsvFile table1)
      /\ reads_back_as_written table1 = true
      /\ run ingest_args (next_run w1) = (w2, 0%Z)
      /\ stdout w2 = pre2 ++ ingest_summary total2 added2 duplicates2
      /\ duplicates2
         = Z.of_nat (length (normalized_citations
                               [smith_line; newline; jones_line]))
      /\ duplicates2 = (added1 + duplicates1)%Z.
Proof.
  assert (Forall (fun c => plain_text (PyStr.join_if PyStr.isprintable c) = true)
            (normalized_citations [smith_line; newline; jones_line])) as Hc.
  { apply Forall_of_forallb. vm_compute. reflexivity. }
  assert (Forall (fun c => plain_text (doi_for (service two_unresolved) c) = true)
            (normalized_citations [smith_line; newline; jones_line])) as Hd.
  { apply Forall_of_forallb. vm_compute. reflexivity. }
  split.
  { repeat split; try exact Hc; try exact Hd; vm_compute; congruence. }
  apply (second_run_duplicates_count_the_citations
           ingest_args two_unresolved "cites.txt"
           [smith_line; newline; jones_line]);
    try exact Hc; try exact Hd; vm_compute; congruence.
Defined.

(** ** An ingest run without citations *)

Lemma normalized_citations_blank lines :
  Forall (fun line => is_blank line = true) lines ->
  normalized_citations lines = [].
Proof.
  intros H. rewrite normalized_citations_spec.
  induction H as [|line rest Hl _ IH]; [done|]. simpl. by rewrite Hl.
Qed.

Lemma process_citations_file_blank self file_path lines w :
  fs w !! file_path = Some (TextFile lines) ->
  Forall (fun line => is_blank line = true) lines ->
  exists w',
    process_citations_file self file_path w = (w', Ok [])
    /\ fs w' = fs w
    /\ stdout w' = stdout w ++ [ProcessingCitations 0].
Proof.
  intros Hfile Hblank. unfold process_citations_file, bind, read_lines, print.
  rewrite Hfile, (normalized_citations_blank _ Hblank). simpl.
  by eexists.
Qed.

Lemma save_results_empty_fresh self output_path w :
  fs w !! excel_path_of output_path = None ->
  exists w',
    save_results self [] output_path false w = (w', Raise ZeroDivisionError)
    /\ fs w' !! output_path = Some (CsvFile (Pandas.of_records []))
    /\ (excel_writable (excel_path_of output_path) = true ->
        excel_path_of output_path <> output_path ->
        fs w' !! excel_path_of output_path
        = Some (XlsxFile (Pandas.of_records [])))
    /\ stdout w'
       = stdout w
         ++ [(if excel_writable (excel_path_of output_path)
              then ResultsSavedTo (excel_path_of output_path)
              else ErrorSavingExcel ValueError);
             ResultsSavedTo output_path;
             SummaryHeader; TotalCitations 0; DOIsFound 0].
Proof.
  intros Hxl. unfold save_results. unfold bind at 1. unfold lift at 1.
  simpl sanitize. cbv iota beta zeta. fold (excel_path_of output_path).
  destruct (merge_existing_run (excel_path_of output_path)
              (Pandas.of_records []) w) as (w1 & df & Hm & _ & _ & Hfresh).
  destruct (Hfresh Hxl) as [-> ->]. rewrite (bind_Ok _ _ _ _ _ Hm).
  unfold bind at 1. unfold write_tables, try_except, to_excel. cbv zeta.
  fold (excel_writable (excel_path_of output_path)).
  destruct (excel_writable (excel_path_of output_path)) eqn:Hw.
  - unfold bind, write_file, to_csv, write_file, print, print_summary, lift,
      raise. simpl.
    eexists. split; [reflexivity|]. simpl.
    split; [by rewrite lookup_insert_eq|].
    split; [|by rewrite <- !app_assoc].
    intros _ Hne. rewrite lookup_insert_ne by done.
    by rewrite lookup_insert_eq.
  - unfold bind, raise, to_csv, write_file, print, print_summary, lift,
      raise. simpl.
    eexists. split; [reflexivity|]. simpl.
    split; [by rewrite lookup_insert_eq|].
    split; [done|by rewrite <- !app_assoc].
Qed.

(** C10. [save_results] on an empty list of Records, with
    [check_duplicates] false, raises [ZeroDivisionError]; so an ingest run
    on an input file of blank lines, with no table at the output path,
    writes the empty CSV file and the empty spreadsheet, prints the error
    in place of its summary and exits with status 1. *)
Theorem empty_ingest_exits_with_status_1 :
  (forall self output_path w,
      (save_results self [] output_path false w).2 = Raise ZeroDivisionError)
  /\ forall args w citations_file lines,
      given (clean args) = None ->
      given (input args) = Some citations_file ->
      fs w !! citations_file = Some (TextFile lines) ->
      Forall (fun line => is_blank line = true) lines ->
      fs w !! output args = None ->
      fs w !! excel_path_of (output args) = None ->
      exists w',
        run args w = (w', 1%Z)
        /\ fs w' !! output args = Some (CsvFile (Pandas.of_records []))
        /\ (excel_writable (excel_path_of (output args)) = true ->
            excel_path_of (output args) <> output args ->
            fs w' !! excel_path_of (output args)
            = Some (XlsxFile (Pandas.of_records [])))
        /\ stdout w'
           = stdout w
             ++ [ProcessingFrom citations_file; ProcessingCitations 0;
                 (if excel_writable (excel_path_of (output args))
                  then ResultsSavedTo (excel_path_of (output args))
                  else ErrorSavingExcel ValueError);
                 ResultsSavedTo (output args);
                 SummaryHeader; TotalCitations 0; DOIsFound 0;
                 ErrorMsg ZeroDivisionError].
Proof.
  split; [apply save_results_empty|].
  intros args w citations_file lines Hclean Hinput Hfile Hblank Hout Hxl.
  unfold run, main, try_except, main_try. rewrite Hclean, Hinput.
  unfold bind at 1. unfold path_exists at 1.
  rewrite bool_decide_eq_true_2 by eauto. simpl negb. cbv iota.
  unfold bind at 1. unfold ret at 1.
  unfold bind at 1. unfold print at 1.
  set (w0 := mk_world _ _ _ _ _).
  destruct (process_citations_file_blank DOIFinder_init citations_file lines w0)
    as (w1 & Hproc & Hfs1 & Hstd1); [done..|].
  rewrite (bind_Ok _ _ _ _ _ Hproc). cbv zeta.
  unfold bind at 1. unfold path_exists at 1. rewrite Hfs1. simpl fs.
  rewrite Hout. rewrite bool_decide_eq_false_2 by (by intros [? ?]).
  unfold bind at 1. unfold ret at 1.
  unfold bind at 1. unfold lift at 1.
  change (remove_duplicate_dois ([] ++ [])) with (@Ok (list dict) []).
  cbv iota beta.
  destruct (save_results_empty_fresh DOIFinder_init (output args) w1)
    as (w2 & Hsave & Hcsv & Hxlsx & Hstd2).
  { by rewrite Hfs1. }
  rewrite (bind_Raise _ _ _ _ _ Hsave). simpl.
  unfold bind, print, raise. simpl.
  eexists. split; [reflexivity|]. simpl.
  split; [done|]. split; [done|].
  rewrite Hstd2, Hstd1. simpl. by rewrite <- !app_assoc.
Qed.

Lemma empty_ingest_exits_with_status_1_witness :
  (given (clean ingest_args) = None
   /\ given (input ingest_args) = Some "cites.txt"
   /\ fs blank_input !! "cites.txt"
      = Some (TextFile [newline; "   " +:+ newline])
   /\ Forall (fun line => is_blank line = true) [newline; "   " +:+ newline]
   /\ fs blank_input !! output ingest_args = None
   /\ fs blank_input !! excel_path_of (output ingest_args) = None)
  /\ exists w',
      run ingest_args blank_input = (w', 1%Z)
      /\ fs w' !! output ingest_args = Some (CsvFile (Pandas.of_records []))
      /\ (excel_writable (excel_path_of (output ingest_args)) = true ->
          excel_path_of (output ingest_args) <> output ingest_args ->
          fs w' !! excel_path_of (output ingest_args)
          = Some (XlsxFile (Pandas.of_records [])))
      /\ stdout w'
         = stdout blank_input
           ++ [ProcessingFrom "cites.txt"; ProcessingCitations 0;
               (if excel_writable (excel_path_of (output ingest_args))
                then ResultsSavedTo (excel_path_of (output ingest_args))
                else ErrorSavingExcel ValueError);
               ResultsSavedTo (output ingest_args);
               SummaryHeader; TotalCitations 0; DOIsFound 0;
               ErrorMsg ZeroDivisionError].
Proof.
  split; [repeat split; repeat constructor|].
  apply (proj2 empty_ingest_exits_with_status_1
           ingest_args blank_input "cites.txt" [newline; "   " +:+ newline]);
    repeat constructor.
Defined.

(** ** Clean runs *)

Lemma to_dict_records_length df :
  length (Pandas.to_dict_records df) = Pandas.nrows df.
Proof. unfold Pandas.to_dict_records. by rewrite length_fmap, length_seq. Qed.




(** ** The Persistence Writer: names with and without [_new] *)

Lemma str_drop_app_length s t : PyStr.drop (String.length s) (s +:+ t) = t.
Proof. induction s as [|a s IH]; [done|]. simpl. apply IH. Qed.

Lemma str_length_app s t :
  String.length (s +:+ t) = String.length s + String.length t.
Proof. induction s as [|a s IH]; [done|]. simpl. by rewrite IH. Qed.

Lemma endswith_app s t : PyStr.endswith t (s +:+ t) = true.
Proof.
  unfold PyStr.endswith. rewrite str_length_app.
  replace (String.length s + String.length t - String.length t)
    with (String.length s) by lia.
  rewrite str_drop_app_length, String.eqb_refl. simpl. apply Nat.leb_le. lia.
Qed.

Lemma prefix_refl s : String.prefix s s = true.
Proof.
  induction s as [|a s IH]; [done|]. simpl. by destruct (Ascii.ascii_dec a a).
Qed.

Lemma occurs_cons sub a s :
  occurs sub (String a s) = String.prefix sub (String a s) || occurs sub s.
Proof. reflexivity. Qed.

Lemma occurs_drop sub s k :
  String.prefix sub (PyStr.drop k s) = true -> occurs sub s = true.
Proof.
  revert k. induction s as [|a s IH]; intros k H.
  - destruct k; cbn [PyStr.drop] in H; unfold occurs; by rewrite H.
  - rewrite occurs_cons. destruct k as [|k]; cbn [PyStr.drop] in H.
    + by rewrite H.
    + rewrite (IH k H). apply orb_true_r.
Qed.

Lemma endswith_occurs sub s : PyStr.endswith sub s = true -> occurs sub s = true.
Proof.
  unfold PyStr.endswith. intros [H _]%andb_true_iff.
  apply String.eqb_eq in H. eapply occurs_drop. rewrite H. apply prefix_refl.
Qed.

Lemma no_new_endswith c : no_new c -> PyStr.endswith "_new" c = false.
Proof.
  intros H. destruct (PyStr.endswith "_new" c) eqn:E; [|done].
  apply endswith_occurs in E. unfold no_new in H. congruence.
Qed.

Lemma no_new_tail a c : no_new (String a c) -> no_new c.
Proof.
  unfold no_new. rewrite occurs_cons. by intros [_ ?]%orb_false_iff.
Qed.

Lemma no_new_prefix c : no_new c -> String.prefix "_new" c = false.
Proof.
  unfold no_new. destruct c; [done|]. rewrite occurs_cons.
  by intros [? _]%orb_false_iff.
Qed.

Lemma prefix_cons a s b t :
  String.prefix (String a s) (String b t)
  = if Ascii.ascii_dec a b then String.prefix s t else false.
Proof. reflexivity. Qed.

Lemma prefix_nil_l t : String.prefix "" t = true.
Proof. by destruct t. Qed.

Lemma append_cons a s t : String a s +:+ t = String a (s +:+ t).
Proof. reflexivity. Qed.

Lemma append_nil t : "" +:+ t = t.
Proof. reflexivity. Qed.

(** An occurrence of ["_new"] that starts inside [c] in [c +:+ "_new"]
    lies within [c]. *)
Lemma prefix_new_app c :
  c <> "" ->
  String.prefix "_new" (c +:+ "_new") = String.prefix "_new" c.
Proof.
  intros Hne.
  destruct c as [|a1 [|a2 [|a3 [|a4 c]]]]; [done|..];
    rewrite !append_cons, ?append_nil;
    repeat (rewrite !prefix_cons;
            destruct (Ascii.ascii_dec _ _) as [<-|?]; try done).
  by rewrite !prefix_nil_l.
Qed.

Lemma replace_new_app c :
  no_new c -> PyStr.replace "_new" "" (c +:+ "_new") = c.
Proof.
  unfold PyStr.replace. induction c as [|a c IH]; intros H; [done|].
  change (String a c +:+ "_new") with (String a (c +:+ "_new")).
  cbn [PyStr.replace_from].
  change (String a (c +:+ "_new")) with (String a c +:+ "_new").
  rewrite prefix_new_app by done. rewrite (no_new_prefix _ H).
  f_equal. apply IH. by eapply no_new_tail.
Qed.

Lemma app_new_inj c1 c2 : c1 +:+ "_new" = c2 +:+ "_new" -> c1 = c2.
Proof.
  revert c2. induction c1 as [|a c1 IH]; intros [|b c2] H; simpl in H.
  - done.
  - exfalso. injection H as <- H.
    destruct c2 as [|? [|? [|? [|? ?]]]]; simpl in H; try done.
    all: try (injection H as <- H); try done.
  - exfalso. injection H as -> H.
    destruct c1 as [|? [|? [|? [|? ?]]]]; simpl in H; try done.
    all: try (injection H as -> H); try done.
  - injection H as -> H. by rewrite (IH _ H).
Qed.

Lemma no_new_app_new c1 c2 : no_new c2 -> c2 <> c1 +:+ "_new".
Proof.
  intros H ->. pose proof (no_new_endswith _ H) as E.
  by rewrite endswith_app in E.
Qed.

(** ** The Persistence Writer: columns by name *)

Lemma named_true c col : Pandas.named c col = true <-> col.1 = c.
Proof. unfold Pandas.named. apply String.eqb_eq. Qed.

Lemma named_false c col : Pandas.named c col = false <-> col.1 <> c.
Proof. unfold Pandas.named. apply String.eqb_neq. Qed.

Lemma filter_named_nil c (A : list (string * list value)) :
  c ∉ A.*1 -> List.filter (Pandas.named c) A = [].
Proof.
  induction A as [|col A IH]; [done|]. rewrite fmap_cons, not_elem_of_cons.
  intros [Hne Hnot]. simpl.
  rewrite (proj2 (named_false c col)) by done. by apply IH.
Qed.

Lemma filter_not_named_id c (A : list (string * list value)) :
  c ∉ A.*1 -> List.filter (fun col => negb (Pandas.named c col)) A = A.
Proof.
  induction A as [|col A IH]; [done|]. rewrite fmap_cons, not_elem_of_cons.
  intros [Hne Hnot]. simpl.
  rewrite (proj2 (named_false c col)) by done. simpl. by rewrite IH.
Qed.

Lemma filter_app_bool {A} (p : A -> bool) (l1 l2 : list A) :
  List.filter p (l1 ++ l2) = List.filter p l1 ++ List.filter p l2.
Proof. apply List.filter_app. Qed.

Lemma set_named_names c vs A : (set_named c vs A).*1 = A.*1.
Proof.
  unfold set_named. rewrite <- list_fmap_compose. apply list_fmap_ext.
  intros _ col _. simpl. by destruct (Pandas.named c col).
Qed.

Lemma set_named_id c vs A : c ∉ A.*1 -> set_named c vs A = A.
Proof.
  induction A as [|col A IH]; [done|]. rewrite fmap_cons, not_elem_of_cons.
  intros [Hne Hnot]. unfold set_named. rewrite fmap_cons.
  rewrite (proj2 (named_false c col)) by done. f_equal. by apply IH.
Qed.

Lemma folded_into_snoc lnames ix done col A :
  folded_into lnames ix (done ++ [col]) A
  = if decide (col.1 ∈ lnames)
    then set_named col.1 (Pandas.take_rows col.2 ix) (folded_into lnames ix done A)
    else folded_into lnames ix done A.
Proof. unfold folded_into. by rewrite foldl_snoc. Qed.

Lemma folded_into_names lnames ix done A :
  (folded_into lnames ix done A).*1 = A.*1.
Proof.
  induction done as [|col done IH] using rev_ind; [done|].
  rewrite folded_into_snoc. destruct (decide _); [|done].
  by rewrite set_named_names.
Qed.

Lemma getcol_unique n A c vs :
  NoDup A.*1 -> (c, vs) ∈ A -> Pandas.getcol (Pandas.mkDataFrame n A) c = Ok vs.
Proof.
  intros Hnd Hin. unfold Pandas.getcol. simpl.
  apply list_elem_of_split in Hin as (A1 & A2 & ->).
  rewrite fmap_app, fmap_cons in Hnd.
  apply NoDup_app in Hnd as (_ & Hdisj & [Hnot _]%NoDup_cons).
  rewrite filter_app_bool. simpl.
  rewrite (proj2 (named_true c (c, vs))) by done.
  rewrite (filter_named_nil c A1), (filter_named_nil c A2); [done|done|].
  intros Hc. apply (Hdisj _ Hc). simpl. left.
Qed.

(** ** The Persistence Writer: the loop over the merged columns *)

Lemma fold_new_columns_skip columns rest df :
  Forall no_new columns ->
  fold_new_columns (columns ++ rest) df = fold_new_columns rest df.
Proof.
  induction 1 as [|c columns Hc _ IH]; [done|]. simpl.
  by rewrite (no_new_endswith _ Hc).
Qed.

Section JoinLoop.
Context (n : nat) (lnames : list string) (ix : list (option nat))
        (A : list (string * list value)).
Context (HA : A.*1 = lnames) (Hlnames : Forall no_new lnames).

Local Abbreviation state := (join_state n lnames ix A).

Lemma new_label_right_only col :
  right_only lnames col = true -> new_label lnames col.1 = col.1.
Proof.
  unfold right_only, new_label. intros H%bool_decide_eq_true.
  by rewrite decide_False.
Qed.

(** The names of the columns that the loop has kept of [done]. *)
Lemma kept_names done c :
  c ∈ (joined_right lnames ix <$> List.filter (right_only lnames) done).*1 ->
  c ∈ done.*1 /\ c ∉ lnames.
Proof.
  rewrite <- list_fmap_compose. intros (col & -> & Hin)%list_elem_of_fmap.
  apply list_elem_of_In, List.filter_In in Hin as [Hin Hro].
  simpl. rewrite (new_label_right_only _ Hro). split.
  - apply list_elem_of_fmap. exists col. split; [done|by apply list_elem_of_In].
  - unfold right_only in Hro. by apply bool_decide_eq_true in Hro.
Qed.

(** The names of the columns that are still to come. *)
Lemma todo_names todo c :
  c ∈ (joined_right lnames ix <$> todo).*1 ->
  exists m,
    (m ∈ todo.*1)
    /\ (((m ∈ lnames) /\ c = String.append m "_new")
        \/ ((m ∉ lnames) /\ c = m)).
Proof.
  rewrite <- list_fmap_compose. intros (col & -> & Hin)%list_elem_of_fmap.
  exists col.1. split; [apply list_elem_of_fmap; by exists col|].
  simpl. unfold new_label. destruct (decide _); [by left|by right].
Qed.

Lemma join_loop done todo :
  NoDup (done ++ todo).*1 ->
  Forall no_new (done ++ todo).*1 ->
  fold_new_columns (joined_right lnames ix <$> todo).*1 (state done todo)
  = Ok (state (done ++ todo) []).
Proof.
  revert done. induction todo as [|[m vs] todo IH]; intros done Hnd Hnn.
  - by rewrite app_nil_r.
  - assert (done ++ (m, vs) :: todo = (done ++ [(m, vs)]) ++ todo) as Hsnoc
      by by rewrite <- app_assoc.
    rewrite Hsnoc in Hnd, Hnn. rewrite Hsnoc.
    specialize (IH (done ++ [(m, vs)]) Hnd Hnn). rewrite <- IH. clear IH.
    assert (no_new m) as Hm.
    { rewrite Forall_forall in Hnn. apply Hnn.
      rewrite !fmap_app. set_solver. }
    assert ((m ∉ todo.*1) /\ (m ∉ done.*1)) as [Hmtodo Hmdone].
    { rewrite !fmap_app in Hnd. simpl in Hnd.
      apply NoDup_app in Hnd as (Hnd1 & Hdisj & _).
      apply NoDup_app in Hnd1 as (_ & Hd & _). split.
      - intros Hin. apply (Hdisj m); [set_solver|done].
      - intros Hin. apply (Hd m Hin). set_solver. }
    assert (forall c, c ∈ todo.*1 -> no_new c) as Htodo.
    { rewrite Forall_forall in Hnn. intros c Hc. apply Hnn.
      rewrite !fmap_app. set_solver. }
    assert (forall c, c ∈ done.*1 -> no_new c) as Hdone.
    { rewrite Forall_forall in Hnn. intros c Hc. apply Hnn.
      rewrite !fmap_app. set_solver. }
    rewrite Forall_forall in Hlnames.
    rewrite fmap_cons, (fmap_cons fst). cbn [fst joined_right].
    simpl fold_new_columns.
    set (P1 := folded_into lnames ix done A).
    set (P2 := joined_right lnames ix <$> List.filter (right_only lnames) done).
    set (P3 := joined_right lnames ix <$> todo).
    assert (m ∉ P2.*1) as Hm2.
    { by intros [Hc _]%kept_names. }
    destruct (decide (m ∈ lnames)) as [Hin|Hnot].
    + (* a column of both frames *)
      assert (new_label lnames m = m +:+ "_new") as ->.
      { unfold new_label. by rewrite decide_True. }
      rewrite endswith_app.
      set (lbl := m +:+ "_new").
      assert (lbl ∉ P1.*1) as Hl1.
      { unfold P1. rewrite folded_into_names, HA. intros Hc.
        by apply (no_new_app_new m lbl (Hlnames _ Hc)). }
      assert (lbl ∉ P2.*1) as Hl2.
      { intros [Hc _]%kept_names. by apply (no_new_app_new m lbl (Hdone _ Hc)). }
      assert (lbl ∉ P3.*1) as Hl3.
      { intros (m' & Hm' & [[_ Heq]|[_ Heq]])%todo_names.
        - apply app_new_inj in Heq. congruence.
        - apply (no_new_app_new m m' (Htodo _ Hm')). by rewrite <- Heq. }
      assert (m ∉ P3.*1) as Hm3.
      { intros (m' & Hm' & [[_ Heq]|[Hc Heq]])%todo_names.
        - by apply (no_new_app_new m' m Hm).
        - congruence. }
      assert (m <> lbl) as Hmlbl by apply (no_new_app_new m m Hm).
      unfold join_state. fold P1 P2 P3. rewrite fmap_cons.
      assert (joined_right lnames ix (m, vs) = (lbl, Pandas.take_rows vs ix))
        as ->.
      { unfold joined_right, new_label. simpl. by rewrite decide_True. }
      fold P3.
      (* merged_df[col] *)
      assert (Pandas.getcol
                (Pandas.mkDataFrame n
                   (P1 ++ P2 ++ (lbl, Pandas.take_rows vs ix) :: P3)) lbl
              = Ok (Pandas.take_rows vs ix)) as ->.
      { unfold Pandas.getcol. simpl. rewrite !filter_app_bool. simpl.
        rewrite (proj2 (named_true lbl (lbl, Pandas.take_rows vs ix))) by done.
        by rewrite !filter_named_nil by done. }
      simpl rbind. unfold lbl at 2. rewrite (replace_new_app _ Hm).
      (* merged_df[name] = ... *)
      unfold Pandas.setcol. rewrite decide_True.
      2:{ unfold Pandas.columns. simpl. rewrite !fmap_app.
          unfold P1. rewrite folded_into_names, HA. set_solver. }
      simpl Pandas.cols. simpl Pandas.nrows.
      fold (set_named m (Pandas.take_rows vs ix)
              (P1 ++ P2 ++ (lbl, Pandas.take_rows vs ix) :: P3)).
      assert (set_named m (Pandas.take_rows vs ix)
                (P1 ++ P2 ++ (lbl, Pandas.take_rows vs ix) :: P3)
              = set_named m (Pandas.take_rows vs ix) P1
                ++ P2 ++ (lbl, Pandas.take_rows vs ix) :: P3) as ->.
      { unfold set_named at 1. rewrite !fmap_app, fmap_cons.
        fold (set_named m (Pandas.take_rows vs ix) P1).
        fold (set_named m (Pandas.take_rows vs ix) P2).
        fold (set_named m (Pandas.take_rows vs ix) P3).
        rewrite (set_named_id m _ P2), (set_named_id m _ P3) by done.
        by rewrite (proj2 (named_false m (lbl, Pandas.take_rows vs ix)))
          by (simpl; congruence). }
      (* merged_df.drop(columns=[col]) *)
      unfold Pandas.drop. rewrite decide_True.
      2:{ unfold Pandas.columns. simpl. rewrite !fmap_app, fmap_cons.
          set_solver. }
      simpl Pandas.cols. simpl Pandas.nrows. simpl rbind.
      rewrite !filter_app_bool. simpl.
      rewrite (proj2 (named_true lbl (lbl, Pandas.take_rows vs ix))) by done.
      simpl. rewrite !filter_not_named_id; [|done|done|].
      2:{ by rewrite set_named_names. }
      do 2 f_equal.
      rewrite folded_into_snoc. simpl. rewrite decide_True by done.
      fold P1. f_equal. rewrite ?filter_app_bool. simpl.
      assert (right_only lnames (m, vs) = false) as ->.
      { unfold right_only. simpl. apply bool_decide_eq_false_2. by intros ?. }
      by rewrite app_nil_r.
    + (* a column of the new frame only *)
      assert (new_label lnames m = m) as ->.
      { unfold new_label. by rewrite decide_False. }
      rewrite (no_new_endswith _ Hm). unfold join_state. do 2 f_equal.
      rewrite folded_into_snoc. simpl. rewrite decide_False by done.
      fold P1. f_equal. rewrite ?filter_app_bool. simpl.
      assert (right_only lnames (m, vs) = true) as ->.
      { unfold right_only. simpl. by apply bool_decide_eq_true_2. }
      rewrite fmap_app, <- app_assoc. done.
Qed.

End JoinLoop.

(** ** The Persistence Writer: the join keeps the columns *)

Lemma filter_bool_names_sublist (p : string * list value -> bool) l :
  (List.filter p l).*1 `sublist_of` l.*1.
Proof.
  induction l as [|x l IH]; [done|]. simpl.
  destruct (p x); [by apply sublist_skip|by apply sublist_cons].
Qed.

Lemma filter_bool_names_NoDup (p : string * list value -> bool) l :
  NoDup l.*1 -> NoDup (List.filter p l).*1.
Proof.
  intros H. eapply sublist_NoDup; [exact H|apply filter_bool_names_sublist].
Qed.

Lemma elem_of_filter_bool {A} (p : A -> bool) (l : list A) x :
  x ∈ List.filter p l <-> x ∈ l /\ p x = true.
Proof. rewrite !list_elem_of_In. apply List.filter_In. Qed.

Lemma zip_fmap_same {A B C} (f : A -> B) (g : A -> C) (l : list A) :
  zip (f <$> l) (g <$> l) = (fun x => (f x, g x)) <$> l.
Proof. induction l as [|x l IH]; [done|]. csimpl. by rewrite IH. Qed.

Lemma new_label_NoDup lnames names :
  NoDup names -> Forall no_new names -> NoDup (new_label lnames <$> names).
Proof.
  intros Hnd Hnn. apply NoDup_fmap_2_strong; [|done].
  rewrite Forall_forall in Hnn.
  intros x y Hx Hy. unfold new_label.
  destruct (decide (x ∈ lnames)), (decide (y ∈ lnames)); intros Heq.
  - by apply app_new_inj.
  - symmetry in Heq. by destruct (no_new_app_new x y (Hnn _ Hy)).
  - by destruct (no_new_app_new y x (Hnn _ Hx)).
  - done.
Qed.

Lemma set_named_other c vs A c' v :
  c <> c' -> (c', v) ∈ A -> (c', v) ∈ set_named c vs A.
Proof.
  intros Hne Hin. unfold set_named. apply list_elem_of_fmap.
  exists (c', v). split; [|done].
  by rewrite (proj2 (named_false c (c', v))) by (simpl; congruence).
Qed.

Lemma set_named_hit c vs A :
  c ∈ A.*1 -> (c, vs) ∈ set_named c vs A.
Proof.
  intros (col & -> & Hin)%list_elem_of_fmap. unfold set_named.
  apply list_elem_of_fmap. exists col. split; [|done].
  by rewrite (proj2 (named_true col.1 col)).
Qed.

Lemma folded_into_other lnames ix done A c v :
  c ∉ done.*1 -> (c, v) ∈ A -> (c, v) ∈ folded_into lnames ix done A.
Proof.
  induction done as [|col done IH] using rev_ind; [done|].
  rewrite fmap_app, not_elem_of_app. simpl. rewrite not_elem_of_cons.
  intros [Hd [Hc _]] Hin. rewrite folded_into_snoc.
  destruct (decide _); [|by apply IH].
  apply set_named_other; [congruence|by apply IH].
Qed.

Lemma folded_into_hit lnames ix done A c vs :
  NoDup done.*1 -> (c, vs) ∈ done -> c ∈ lnames -> c ∈ A.*1 ->
  (c, Pandas.take_rows vs ix) ∈ folded_into lnames ix done A.
Proof.
  induction done as [|col done IH] using rev_ind.
  - by intros _ ?%elem_of_nil.
  - rewrite fmap_app. simpl. intros (Hnd & Hdisj & _)%NoDup_app Hin Hl HA.
    rewrite folded_into_snoc. apply elem_of_app in Hin as [Hin|Hin].
    + assert (col.1 <> c) as Hne.
      { intros Heq. apply (Hdisj c).
        - apply list_elem_of_fmap. by exists (c, vs).
        - rewrite <- Heq. left. }
      destruct (decide _); [apply set_named_other; [done|]|]; by apply IH.
    + apply list_elem_of_singleton in Hin as <-. simpl.
      rewrite decide_True by done. apply set_named_hit.
      by rewrite folded_into_names.
Qed.

(** The join, and the loop after it, on frames whose column names are
    distinct and hold no ["_new"]: a column that only the existing frame
    has keeps its cells, row by row of the existing frame, and a column of
    the new frame has its cells, row by row of the new frame. *)
Lemma join_keeps_columns existing_df new_df :
  NoDup (Pandas.columns existing_df) ->
  NoDup (Pandas.columns new_df) ->
  "doi" ∈ Pandas.columns existing_df ->
  "doi" ∈ Pandas.columns new_df ->
  Forall no_new (Pandas.columns existing_df) ->
  Forall no_new (Pandas.columns new_df) ->
  exists lk rk merged_df final_df,
    Pandas.getcol existing_df "doi" = Ok lk
    /\ Pandas.getcol new_df "doi" = Ok rk
    /\ Pandas.merge existing_df new_df = Ok merged_df
    /\ fold_new_columns (Pandas.columns merged_df) merged_df = Ok final_df
    /\ (forall c vs,
          (c, vs) ∈ Pandas.cols existing_df -> c ∉ Pandas.columns new_df ->
          Pandas.getcol final_df c
          = Ok (Pandas.take_rows vs (Pandas.outer_join lk rk).*1))
    /\ (forall c vs,
          (c, vs) ∈ Pandas.cols new_df -> c <> "doi" ->
          Pandas.getcol final_df c
          = Ok (Pandas.take_rows vs (Pandas.outer_join lk rk).*2))
    /\ Pandas.nrows final_df = length (Pandas.outer_join lk rk)
    /\ Pandas.getcol final_df "doi"
       = Ok (Pandas.key_cells lk rk (Pandas.outer_join lk rk)).
Proof.
  destruct existing_df as [nl L], new_df as [nr R].
  unfold Pandas.columns. simpl.
  intros HndL HndR HdoiL HdoiR HnnL HnnR.
  apply list_elem_of_fmap in HdoiL as ([k lk] & Hk & HinL). simpl in Hk. subst k.
  apply list_elem_of_fmap in HdoiR as ([k rk] & Hk & HinR). simpl in Hk. subst k.
  pose proof (getcol_unique nl L "doi" lk HndL HinL) as HgL.
  pose proof (getcol_unique nr R "doi" rk HndR HinR) as HgR.
  set (pairs := Pandas.outer_join lk rk).
  set (rcols := List.filter (fun col => negb (Pandas.named "doi" col)) R).
  set (A := (fun col => if Pandas.named "doi" col
                        then (col.1, Pandas.key_cells lk rk pairs)
                        else (col.1, Pandas.take_rows col.2 pairs.*1)) <$> L).
  assert (A.*1 = L.*1) as HA.
  { unfold A. rewrite <- list_fmap_compose. apply list_fmap_ext.
    intros _ col _. simpl. by destruct (Pandas.named "doi" col). }
  assert (NoDup rcols.*1) as Hndr.
  { by apply filter_bool_names_NoDup. }
  assert (Forall no_new rcols.*1) as Hnnr.
  { rewrite Forall_forall in HnnR. apply Forall_forall. intros c Hc.
    apply HnnR. eapply elem_of_sublist; [exact Hc|].
    apply filter_bool_names_sublist. }
  assert (Pandas.merge (Pandas.mkDataFrame nl L) (Pandas.mkDataFrame nr R)
          = Ok (join_state (length pairs) L.*1 pairs.*2 A [] rcols)) as Hmerge.
  { unfold Pandas.merge. rewrite HgL, HgR. simpl rbind. cbv zeta.
    fold pairs. simpl Pandas.cols. fold rcols. unfold Pandas.columns. simpl Pandas.cols.
    rewrite decide_True.
    2:{ change (NoDup ((new_label L.*1 ∘ fst) <$> rcols)).
        rewrite list_fmap_compose. by apply new_label_NoDup. }
    rewrite zip_fmap_same. reflexivity. }
  exists lk, rk, (join_state (length pairs) L.*1 pairs.*2 A [] rcols),
    (join_state (length pairs) L.*1 pairs.*2 A ([] ++ rcols) []).
  split; [done|]. split; [done|]. split; [done|]. split.
  { unfold Pandas.columns, join_state at 1. simpl Pandas.cols.
    rewrite fmap_app, HA. rewrite fold_new_columns_skip by done.
    by apply join_loop. }
  simpl app. unfold join_state. rewrite app_nil_r.
  assert (NoDup (folded_into L.*1 pairs.*2 rcols A
                 ++ (joined_right L.*1 pairs.*2
                       <$> List.filter (right_only L.*1) rcols)).*1) as Hfinal.
  { rewrite fmap_app, folded_into_names, HA. apply NoDup_app.
    split; [done|]. split.
    - intros c Hc [_ Hnot]%kept_names. done.
    - rewrite <- list_fmap_compose.
      rewrite (list_fmap_ext _ fst (List.filter (right_only L.*1) rcols)).
      + by apply filter_bool_names_NoDup.
      + intros _ col Hcol%list_elem_of_lookup_2.
        apply elem_of_filter_bool in Hcol as [_ Hro]. simpl.
        by apply new_label_right_only. }
  split; [|split; [|split; [done|]]].
  - intros c vs Hin Hnot. apply getcol_unique; [done|].
    apply elem_of_app. left. apply folded_into_other.
    + intros Hc. apply Hnot. eapply elem_of_sublist; [exact Hc|].
      apply filter_bool_names_sublist.
    + unfold A. apply list_elem_of_fmap. exists (c, vs). split; [|done].
      rewrite (proj2 (named_false "doi" (c, vs))); [done|]. simpl.
      intros ->. apply Hnot. apply list_elem_of_fmap. by exists ("doi", rk).
  - intros c vs Hin Hne. apply getcol_unique; [done|].
    assert ((c, vs) ∈ rcols) as Hr.
    { apply elem_of_filter_bool. split; [done|].
      by rewrite (proj2 (named_false "doi" (c, vs))). }
    apply elem_of_app. destruct (decide (c ∈ L.*1)) as [Hl|Hl].
    + left. apply folded_into_hit; [done|done|done|by rewrite HA].
    + right. apply list_elem_of_fmap. exists (c, vs). split.
      * unfold joined_right, new_label. simpl. by rewrite decide_False.
      * apply elem_of_filter_bool. split; [done|].
        unfold right_only. simpl. by apply bool_decide_eq_true_2.
  - apply getcol_unique; [done|].
    apply elem_of_app. left. apply folded_into_other.
    + intros (col & Hname & Hcol)%list_elem_of_fmap.
      apply elem_of_filter_bool in Hcol as [_ Hcol].
      apply negb_true_iff, named_false in Hcol. done.
    + unfold A. apply list_elem_of_fmap. exists ("doi", lk). split; [|done].
      by rewrite (proj2 (named_true "doi" ("doi", lk))).
Qed.

(** The cell of a joined column at a row that has a partner. *)
Lemma take_rows_lookup vs ix k i :
  ix !! k = Some (Some i) ->
  Pandas.take_rows vs ix !! k = Some (default NaN (vs !! i)).
Proof. intros H. unfold Pandas.take_rows. by rewrite list_lookup_fmap, H. Qed.

Lemma positions_from_lookup o v vs i :
  i ∈ Pandas.positions_from o v vs -> o <= i /\ vs !! (i - o) = Some v.
Proof.
  revert o. induction vs as [|x vs IH]; intros o; simpl.
  - by intros ?%elem_of_nil.
  - destruct (decide (x = v)) as [->|Hne].
    + intros [->|Hin]%elem_of_cons.
      * split; [lia|]. by rewrite Nat.sub_diag.
      * destruct (IH _ Hin) as [Hle Hl]. split; [lia|].
        replace (i - o) with (S (i - S o)) by lia. done.
    + intros Hin. destruct (IH _ Hin) as [Hle Hl]. split; [lia|].
      replace (i - o) with (S (i - S o)) by lia. done.
Qed.

Lemma positions_lookup v vs i : i ∈ Pandas.positions v vs -> vs !! i = Some v.
Proof.
  intros [_ H]%positions_from_lookup. by rewrite Nat.sub_0_r in H.
Qed.

(** The rows that the join pairs have the same [doi]. *)
Lemma outer_join_matched lk rk i j :
  (Some i, Some j) ∈ Pandas.outer_join lk rk ->
  exists doi, lk !! i = Some doi /\ rk !! j = Some doi.
Proof.
  unfold Pandas.outer_join. intros (k & Hin & _)%list_elem_of_bind.
  exists k.
  destruct (Pandas.positions k lk) as [|i0 L] eqn:HL.
  - apply list_elem_of_fmap in Hin as (? & [=] & _).
  - destruct (Pandas.positions k rk) as [|j0 R] eqn:HR.
    + apply list_elem_of_fmap in Hin as (? & [=] & _).
    + apply list_elem_of_bind in Hin as (i' & Hin & Hi').
      apply list_elem_of_fmap in Hin as (j' & [= -> ->] & Hj').
      split; apply positions_lookup; by rewrite ?HL, ?HR.
Qed.

(** The second step of [save_results] on a spreadsheet and new Records
    whose column names are distinct and hold no ["_new"]: the frame to
    write keeps the columns that only the spreadsheet has and has the new
    cells in the columns of the new frame. *)
Lemma merge_existing_keeps_columns excel_path existing_df new_df w :
  fs w !! excel_path = Some (XlsxFile existing_df) ->
  NoDup (Pandas.columns existing_df) ->
  NoDup (Pandas.columns new_df) ->
  "doi" ∈ Pandas.columns existing_df ->
  "doi" ∈ Pandas.columns new_df ->
  Forall no_new (Pandas.columns existing_df) ->
  Forall no_new (Pandas.columns new_df) ->
  exists lk rk final_df,
    merge_existing excel_path new_df w = (w, Ok final_df)
    /\ Pandas.getcol existing_df "doi" = Ok lk
    /\ Pandas.getcol new_df "doi" = Ok rk
    /\ (forall c vs,
          (c, vs) ∈ Pandas.cols existing_df -> c ∉ Pandas.columns new_df ->
          Pandas.getcol final_df c
          = Ok (Pandas.take_rows vs (Pandas.outer_join lk rk).*1))
    /\ (forall c vs,
          (c, vs) ∈ Pandas.cols new_df -> c <> "doi" ->
          Pandas.getcol final_df c
          = Ok (Pandas.take_rows vs (Pandas.outer_join lk rk).*2))
    /\ Pandas.nrows final_df = length (Pandas.outer_join lk rk)
    /\ Pandas.getcol final_df "doi"
       = Ok (Pandas.key_cells lk rk (Pandas.outer_join lk rk)).
Proof.
  intros Hfile HndL HndR HdoiL HdoiR HnnL HnnR.
  destruct (join_keeps_columns existing_df new_df)
    as (lk & rk & merged_df & final_df & HgL & HgR & Hmerge & Hfold & Hleft
        & Hright & Hrows & Hkeys); try done.
  exists lk, rk, final_df. split; [|done].
  unfold merge_existing, bind, path_exists, try_except, read_excel, lift.
  rewrite bool_decide_eq_true_2 by eauto. rewrite Hfile, Hmerge, Hfold. done.
Qed.

(** The scenario of the specification: the spreadsheet has a column
    [notes] that the new Records do not have; the frame to write has it,
    with the note of each row of the spreadsheet. *)
Example merge_existing_keeps_notes :
  exists final_df,
    merge_existing "dois.xlsx" (Pandas.of_records [abou; abate]) noted
    = (noted, Ok final_df)
    /\ Pandas.getcol final_df "notes" = Ok [Str "granular"; Str "colloids"]
    /\ Pandas.getcol final_df "citation"
       = Ok (column_of "citation" [abate; abou]).
Proof.
  destruct (merge_existing_keeps_columns "dois.xlsx" noted_sheet
              (Pandas.of_records [abou; abate]) noted)
    as (lk & rk & final_df & Hrun & HgL & HgR & Hleft & Hright & _).
  - reflexivity.
  - apply (bool_decide_unpack _). vm_compute. exact I.
  - apply (bool_decide_unpack _). vm_compute. exact I.
  - apply (bool_decide_unpack _). vm_compute. exact I.
  - apply (bool_decide_unpack _). vm_compute. exact I.
  - repeat constructor.
  - repeat constructor.
  - exists final_df. split; [done|].
    injection HgL as <-. injection HgR as <-. split.
    + rewrite (Hleft "notes" [Str "granular"; Str "colloids"]).
      * reflexivity.
      * apply (bool_decide_unpack _). vm_compute. exact I.
      * apply (bool_decide_unpack _). vm_compute. exact I.
    + rewrite (Hright "citation" (column_of "citation" [abou; abate])).
      * reflexivity.
      * apply (bool_decide_unpack _). vm_compute. exact I.
      * done.
Qed.

(** ** The Persistence Writer: what is written *)

Lemma write_tables_excel final_df excel_path output_path w :
  excel_writable excel_path = true -> excel_path <> output_path ->
  fs (write_tables final_df excel_path output_path w).1 !! excel_path
  = Some (XlsxFile final_df).
Proof.
  intros Hw Hne.
  unfold write_tables, bind, try_except, to_excel, to_csv, write_file, raise,
    print.
  unfold excel_writable in Hw. rewrite Hw. simpl.
  rewrite lookup_insert_ne by done. by rewrite lookup_insert_eq.
Qed.

Lemma print_summary_fs self results check_duplicates w :
  fs (print_summary self results check_duplicates w).1 = fs w.
Proof.
  unfold print_summary, bind, lift, print, raise.
  destruct check_duplicates; simpl.
  - by destruct (remove_duplicate_dois results).
  - destruct (count_found results); [|done]. simpl.
    by destruct (length results).
Qed.




(** The cells of a joined row that has a row of the existing frame and a
    row of the new frame: the two rows have the same [doi], and the cells
    are those of the two rows. *)
Lemma joined_row_cells lk rk vs vs' k i j :
  Pandas.outer_join lk rk !! k = Some (Some i, Some j) ->
  (exists doi, lk !! i = Some doi /\ rk !! j = Some doi)
  /\ Pandas.take_rows vs (Pandas.outer_join lk rk).*1 !! k
     = Some (default NaN (vs !! i))
  /\ Pandas.take_rows vs' (Pandas.outer_join lk rk).*2 !! k
     = Some (default NaN (vs' !! j)).
Proof.
  intros Hk. split; [|split].
  - apply outer_join_matched. by eapply list_elem_of_lookup_2.
  - apply take_rows_lookup. by rewrite list_lookup_fmap, Hk.
  - apply take_rows_lookup. by rewrite list_lookup_fmap, Hk.
Qed.

(** ** The rows of the outer join *)













(** ** The Persistence Writer: columns that are lost *)


(** ** More on the Normalizer *)

Lemma lstrip_idemp s : PyStr.lstrip (PyStr.lstrip s) = PyStr.lstrip s.
Proof.
  induction s as [|c s IH]; [done|]. simpl.
  destruct (PyStr.isspace c) eqn:Ec; [done|]. simpl. by rewrite Ec.
Qed.

Lemma strip_idemp s : PyStr.strip (PyStr.strip s) = PyStr.strip s.
Proof.
  unfold PyStr.strip. by rewrite lstrip_rstrip, rstrip_idemp, lstrip_idemp.
Qed.

Lemma alpha_not_space c : PyStr.is_alpha c = true -> PyStr.isspace c = false.
Proof.
  intros Ha. destruct (PyStr.isspace c) eqn:Ec; [|done].
  rewrite (isspace_not_alpha _ Ec) in Ha. done.
Qed.

(** The string from its first letter on starts with that letter. *)
Lemma search_drop s i :
  PyStr.re_search_alpha s = Some i ->
  exists a t, PyStr.drop i s = String a t /\ PyStr.is_alpha a = true.
Proof.
  revert i. induction s as [|c s IH]; intros i H; simpl in H; [done|].
  destruct (PyStr.is_alpha c) eqn:Ea.
  - injection H as <-. by exists c, s.
  - destruct (PyStr.re_search_alpha s) as [k|]; simpl in H; [|done].
    injection H as <-. simpl. by apply IH.
Qed.

Lemma strip_from_letter a t :
  PyStr.is_alpha a = true ->
  PyStr.strip (String a t) = String a (PyStr.rstrip t).
Proof.
  intros Ha. unfold PyStr.strip. simpl.
  rewrite (alpha_not_space _ Ha). simpl. by rewrite (alpha_not_space _ Ha).
Qed.

(** What the normalisation makes of a line that is not blank. *)
Lemma az_normalize_shape line :
  is_blank line = false ->
  az_normalize line <> ""
  /\ PyStr.strip (az_normalize line) = az_normalize line
  /\ match PyStr.re_search_alpha line with
     | Some _ => PyStr.re_search_alpha (az_normalize line) = Some 0
     | None => PyStr.re_search_alpha (az_normalize line) = None
     end.
Proof.
  intros Hb. unfold az_normalize.
  destruct (PyStr.re_search_alpha line) as [i|] eqn:Hs.
  - destruct (search_drop _ _ Hs) as (a & t & -> & Ha).
    rewrite !strip_from_letter by done. rewrite rstrip_idemp.
    split; [done|]. split; [done|]. simpl. by rewrite Ha.
  - split; [|split].
    + pose proof (strip_truthy line) as Ht. rewrite Hb in Ht.
      by destruct (PyStr.strip line).
    + apply strip_idemp.
    + pose proof (search_lstrip line) as Hl. rewrite Hs in Hl.
      pose proof (search_rstrip (PyStr.lstrip line)) as Hr.
      rewrite Hl in Hr. exact Hr.
Qed.

(** X1. Every citation that the Normalizer hands to the lookup is not
    empty, has no white space at either end, and starts with a letter of
    [[a-zA-Z]] if it holds one. *)
Theorem normalized_citations_trimmed (lines : list string) :
  Forall (fun c => c <> ""
                   /\ PyStr.strip c = c
                   /\ (PyStr.re_search_alpha c = None
                       \/ PyStr.re_search_alpha c = Some 0))
         (normalized_citations lines).
Proof.
  rewrite normalized_citations_spec. apply Forall_fmap, Forall_forall.
  intros line Hin. apply list_elem_of_In, List.filter_In in Hin as [_ Hb].
  apply negb_true_iff in Hb.
  destruct (az_normalize_shape line Hb) as (Hne & Hst & Hs).
  simpl. split; [done|]. split; [done|].
  destruct (PyStr.re_search_alpha line); [by right|by left].
Qed.

Lemma az_normalize_fixed c :
  c <> "" -> PyStr.strip c = c ->
  (PyStr.re_search_alpha c = None \/ PyStr.re_search_alpha c = Some 0) ->
  is_blank c = false /\ az_normalize c = c.
Proof.
  intros Hne Hst Hs. split.
  - pose proof (strip_truthy c) as Ht. rewrite Hst in Ht.
    destruct (is_blank c); [|done]. by destruct c.
  - unfold az_normalize. by destruct Hs as [-> | ->].
Qed.

(** X2. The Normalizer is idempotent: citations that it produced, read
    again as lines, are all kept and come out unchanged. *)
Theorem normalized_citations_idempotent (lines : list string) :
  normalized_citations (normalized_citations lines) = normalized_citations lines.
Proof.
  pose proof (normalized_citations_trimmed lines) as H.
  rewrite (normalized_citations_spec (normalized_citations lines)).
  induction H as [|c cs (Hne & Hst & Hs) _ IH]; [done|].
  destruct (az_normalize_fixed c Hne Hst Hs) as [Hb Hfix].
  cbn [List.filter]. rewrite Hb. cbn [negb]. by rewrite fmap_cons, Hfix, IH.
Qed.

(** ** More on the Result Merger *)

Lemma remove_duplicate_dois_loop_raises results seen unique_results e :
  remove_duplicate_dois_loop results seen unique_results = Raise e ->
  e = KeyError "doi" /\ ~ Forall has_doi results.
Proof.
  revert seen unique_results.
  induction results as [|r rest IH]; intros seen acc H; simpl in H; [done|].
  unfold getitem in H. destruct (dict_get r "doi") as [d|] eqn:Hd; simpl in H.
  - assert (e = KeyError "doi" /\ ~ Forall has_doi rest) as [-> Hn].
    { destruct (decide (d ∉ seen)); eapply IH; exact H. }
    split; [done|]. intros Hall. apply Hn. by inversion Hall.
  - injection H as <-. split; [done|]. intros Hall.
    inversion Hall as [|? ? [d Hr] _]; subst. unfold doi_of in Hr. congruence.
Qed.

(** X3. The Result Merger returns a list exactly when every Record has a
    [doi] key; when one lacks it, the merger raises [KeyError('doi')] and
    nothing else, wherever that Record stands in the list. *)
Theorem remove_duplicate_dois_missing_doi (results : list dict) :
  ((exists unique_results, remove_duplicate_dois results = Ok unique_results)
   <-> Forall has_doi results)
  /\ (remove_duplicate_dois results = Raise (KeyError "doi")
      <-> ~ Forall has_doi results)
  /\ (Forall has_doi results
      \/ remove_duplicate_dois results = Raise (KeyError "doi")).
Proof.
  assert (Forall has_doi results
          \/ remove_duplicate_dois results = Raise (KeyError "doi")) as Hcases.
  { destruct (remove_duplicate_dois results) as [out|e] eqn:H.
    - left. eapply remove_duplicate_dois_loop_Ok, H.
    - right. by destruct (remove_duplicate_dois_loop_raises _ _ _ _ H) as [-> _]. }
  split; [|split; [|exact Hcases]].
  - split.
    + intros [out H]. eapply remove_duplicate_dois_loop_Ok, H.
    + intros H. eexists. by apply remove_duplicate_dois_first_seen.
  - split.
    + intros H. eapply remove_duplicate_dois_loop_raises, H.
    + intros Hn. by destruct Hcases.
Qed.

Lemma first_seen_size seen results :
  size (seen ∪ dois results) = size seen + length (first_seen seen results).
Proof.
  revert seen. induction results as [|r rest IH]; intros seen.
  - simpl. replace (seen ∪ dois []) with seen; [lia|]. unfold dois. set_solver.
  - rewrite dois_cons. simpl. destruct (doi_of r) as [d|]; [|apply IH].
    destruct (decide (d ∉ seen)) as [Hd|Hd].
    + simpl. replace (seen ∪ ({[d]} ∪ dois rest))
        with (({[d]} ∪ seen) ∪ dois rest) by set_solver.
      rewrite IH, size_union by set_solver. rewrite size_singleton. lia.
    + apply dec_stable in Hd.
      replace (seen ∪ ({[d]} ∪ dois rest)) with (seen ∪ dois rest) by set_solver.
      apply IH.
Qed.

(** X4. The Result Merger keeps as many Records as the input has distinct
    [doi] values, so it removes [len(results)] minus that number. *)
Theorem remove_duplicate_dois_counts_distinct (results : list dict) :
  Forall has_doi results ->
  exists unique_results,
    remove_duplicate_dois results = Ok unique_results
    /\ length unique_results = size (dois results)
    /\ length unique_results <= length results.
Proof.
  intros H. exists (first_seen ∅ results).
  split; [by apply remove_duplicate_dois_first_seen|]. split.
  - pose proof (first_seen_size ∅ results) as Hs.
    rewrite size_empty in Hs. simpl in Hs. rewrite <- Hs. f_equal. set_solver.
  - apply sublist_length, first_seen_sublist.
Qed.

Lemma remove_duplicate_dois_counts_distinct_witness :
  Forall has_doi [abate; abou; abate_again; unresolved_one; unresolved_two]
  /\ exists unique_results,
      remove_duplicate_dois
        [abate; abou; abate_again; unresolved_one; unresolved_two]
      = Ok unique_results
      /\ length unique_results
         = size (dois [abate; abou; abate_again; unresolved_one; unresolved_two])
      /\ length unique_results
         <= length [abate; abou; abate_again; unresolved_one; unresolved_two].
Proof.
  assert (Forall has_doi
            [abate; abou; abate_again; unresolved_one; unresolved_two]) as H.
  { repeat constructor; by eexists. }
  split; [exact H|].
  exact (remove_duplicate_dois_counts_distinct _ H).
Defined.

(** X5. Merging new Records into a table that has no duplicates keeps the
    table as it is, row for row and in place, and appends after it those
    new Records, in their order, whose [doi] neither the table nor an
    earlier new Record has: for each [doi] that the table does not have,
    the one Record appended is the first new Record with it. *)
Theorem remove_duplicate_dois_keeps_the_table (table new_results : list dict) :
  Forall has_doi table ->
  NoDup (doi_of <$> table) ->
  Forall has_doi new_results ->
  exists added,
    remove_duplicate_dois (table ++ new_results) = Ok (table ++ added)
    /\ added `sublist_of` new_results
    /\ NoDup (doi_of <$> added)
    /\ (forall r, r ∈ added -> forall d, doi_of r = Some d -> d ∉ dois table)
    /\ (forall r, r ∈ new_results ->
        exists d, doi_of r = Some d /\ d ∈ dois table ∪ dois added)
    /\ (forall d, List.find (doi_is d) added
                  = if decide (d ∈ dois table) then None
                    else List.find (doi_is d) new_results).
Proof.
  intros Ht Hnd Hn. exists (first_seen (dois table) new_results).
  split; [|split; [|split; [|split; [|split]]]].
  - rewrite remove_duplicate_dois_first_seen by by apply Forall_app.
    rewrite first_seen_app, first_seen_fixed by (done || set_solver).
    by replace (∅ ∪ dois table) with (dois table) by set_solver.
  - apply first_seen_sublist.
  - apply first_seen_NoDup.
  - intros r Hr d Hd. destruct (first_seen_fresh _ _ _ Hr) as (d' & Hd' & Hfresh).
    by assert (d' = d) as -> by congruence.
  - intros r Hr. rewrite Forall_forall in Hn. destruct (Hn r Hr) as [d Hd].
    exists d. split; [done|].
    pose proof (dois_first_seen (dois table) new_results) as He.
    assert (d ∈ dois new_results) as Hin.
    { unfold dois. rewrite elem_of_list_to_set, list_elem_of_omap.
      exists (Some d). split; [|done]. rewrite list_elem_of_fmap. by exists r. }
    set_solver.
  - intros d. apply first_seen_find.
Qed.

Lemma remove_duplicate_dois_keeps_the_table_witness :
  (Forall has_doi [abate; unresolved_one]
   /\ NoDup (doi_of <$> [abate; unresolved_one])
   /\ Forall has_doi [abou; abate_again; unresolved_two; abou_again])
  /\ exists added,
      remove_duplicate_dois
        ([abate; unresolved_one]
         ++ [abou; abate_again; unresolved_two; abou_again])
      = Ok ([abate; unresolved_one] ++ added)
      /\ added `sublist_of` [abou; abate_again; unresolved_two; abou_again]
      /\ NoDup (doi_of <$> added)
      /\ (forall r, r ∈ added -> forall d, doi_of r = Some d ->
          d ∉ dois [abate; unresolved_one])
      /\ (forall r, r ∈ [abou; abate_again; unresolved_two; abou_again] ->
          exists d, doi_of r = Some d
                    /\ d ∈ dois [abate; unresolved_one] ∪ dois added)
      /\ (forall d, List.find (doi_is d) added
                    = if decide (d ∈ dois [abate; unresolved_one]) then None
                      else List.find (doi_is d)
                             [abou; abate_again; unresolved_two; abou_again]).
Proof.
  assert (Forall has_doi [abate; unresolved_one]) as H1.
  { repeat constructor; by eexists. }
  assert (NoDup (doi_of <$> [abate; unresolved_one])) as H2.
  { apply (bool_decide_unpack _). vm_compute. exact I. }
  assert (Forall has_doi [abou; abate_again; unresolved_two; abou_again]) as H3.
  { repeat constructor; by eexists. }
  split; [done|].
  exact (remove_duplicate_dois_keeps_the_table _ _ H1 H2 H3).
Defined.

(** ** More on [save_results]: the sanitizing loop and the counts *)

Lemma join_if_idemp p s : PyStr.join_if p (PyStr.join_if p s) = PyStr.join_if p s.
Proof.
  induction s as [|c s IH]; [done|]. simpl.
  destruct (p c) eqn:Hc; [|done]. simpl. by rewrite Hc, IH.
Qed.

Lemma setitem_keys d k v v0 :
  dict_get d k = Some v0 -> (setitem d k v).*1 = d.*1.
Proof.
  induction d as [|[k' v'] d IH]; [done|]. cbn [dict_get setitem].
  destruct (String.eqb k' k); [done|]. intros H. rewrite !fmap_cons.
  by rewrite IH.
Qed.

(** X6. The sanitizing loop of [save_results] changes the citation of
    each Record to its printable characters and nothing else: the Records
    keep their number and order, their keys and every other value. It
    changes nothing when it is run on its own result. *)
Theorem sanitize_changes_citation_only (results results' : list dict) :
  sanitize results = Ok results' ->
  Forall2 sanitized results results'
  /\ sanitize results' = Ok results'.
Proof.
  revert results'. induction results as [|r rest IH]; intros results' H.
  - injection H as <-. by split.
  - simpl in H. unfold getitem in H.
    destruct (dict_get r "citation") as [[s|]|] eqn:Hc; simpl in H; try done.
    destruct (sanitize rest) as [rest'|] eqn:Hr; simpl in H; [|done].
    injection H as <-. destruct (IH _ eq_refl) as [IH1 IH2]. split.
    + constructor; [|done]. split; [|split].
      * by eapply setitem_keys.
      * intros k Hk. rewrite dict_get_setitem.
        destruct (String.eqb_spec "citation" k); congruence.
      * exists s. split; [done|]. by rewrite dict_get_setitem.
    + simpl. unfold getitem. rewrite dict_get_setitem. simpl.
      rewrite IH2. simpl. rewrite join_if_idemp. do 2 f_equal.
      clear. induction r as [|[k v] r IHr]; [done|]. simpl.
      destruct (String.eqb k "citation") eqn:Hk; simpl; rewrite Hk; [done|].
      by rewrite IHr.
Qed.

Lemma sanitize_changes_citation_only_witness :
  sanitize [make_record ("Abate 2007" +:+ newline) "10.1103/PhysRevE.76.021306"]
  = Ok [make_record "Abate 2007" "10.1103/PhysRevE.76.021306"]
  /\ Forall2 sanitized
       [make_record ("Abate 2007" +:+ newline) "10.1103/PhysRevE.76.021306"]
       [make_record "Abate 2007" "10.1103/PhysRevE.76.021306"]
  /\ sanitize [make_record "Abate 2007" "10.1103/PhysRevE.76.021306"]
     = Ok [make_record "Abate 2007" "10.1103/PhysRevE.76.021306"].
Proof.
  split; [reflexivity|].
  apply (sanitize_changes_citation_only
           [make_record ("Abate 2007" +:+ newline) "10.1103/PhysRevE.76.021306"]).
  reflexivity.
Defined.

Lemma sanitize_Ok_citation_is_str results results' :
  sanitize results = Ok results' -> Forall citation_is_str results.
Proof.
  revert results'. induction results as [|r rest IH]; intros results' H; [done|].
  simpl in H. unfold getitem in H.
  destruct (dict_get r "citation") as [[s|]|] eqn:Hc; simpl in H; try done.
  destruct (sanitize rest) as [rest'|] eqn:Hr; simpl in H; [|done].
  constructor; [by exists s|]. by eapply IH.
Qed.

Lemma sanitize_raises results e :
  sanitize results = Raise e ->
  (e = KeyError "citation" \/ e = TypeError)
  /\ ~ Forall citation_is_str results.
Proof.
  induction results as [|r rest IH]; intros H; [done|].
  simpl in H. unfold getitem in H.
  destruct (dict_get r "citation") as [[s|]|] eqn:Hc; simpl in H.
  - destruct (sanitize rest) as [rest'|e'] eqn:Hr; simpl in H; [done|].
    injection H as <-. destruct (IH eq_refl) as [He Hn]. split; [done|].
    intros Hall. apply Hn. by inversion Hall.
  - injection H as <-. split; [by right|]. intros Hall.
    inversion Hall as [|? ? [s Hs] _]; subst. congruence.
  - injection H as <-. split; [by left|]. intros Hall.
    inversion Hall as [|? ? [s Hs] _]; subst. congruence.
Qed.

(** X7. [save_results] sanitizes before it writes: when a Record has no
    citation ([KeyError]) or a missing value for it ([TypeError]), the
    call raises that exception and leaves the files and the output as
    they were. *)
Theorem save_results_raises_before_writing
    self (results : list dict) output_path check_duplicates w :
  ~ Forall citation_is_str results ->
  exists e,
    save_results self results output_path check_duplicates w = (w, Raise e)
    /\ (e = KeyError "citation" \/ e = TypeError).
Proof.
  intros Hn. destruct (sanitize results) as [results'|e] eqn:Hs.
  - exfalso. apply Hn. by eapply sanitize_Ok_citation_is_str.
  - exists e. split; [|by destruct (sanitize_raises _ _ Hs)].
    unfold save_results, bind, lift. by rewrite Hs.
Qed.

Lemma save_results_raises_before_writing_witness :
  ~ Forall citation_is_str [abate; [("citation", NaN); ("doi", Str "10.1/x")]]
  /\ exists e,
      save_results DOIFinder_init
        [abate; [("citation", NaN); ("doi", Str "10.1/x")]]
        "dois.csv" false two_known
      = (two_known, Raise e)
      /\ (e = KeyError "citation" \/ e = TypeError).
Proof.
  assert (~ Forall citation_is_str
              [abate; [("citation", NaN); ("doi", Str "10.1/x")]]) as H.
  { intros Hall. inversion Hall as [|? ? _ Hall']; subst.
    inversion Hall' as [|? ? [s Hs] _]; subst. discriminate Hs. }
  split; [exact H|].
  exact (save_results_raises_before_writing DOIFinder_init _ "dois.csv" false
           two_known H).
Defined.

(** X8. The summary of [save_results] counts every Record once: the DOIs
    found and the Records with the sentinel add up to the total. *)
Theorem count_found_and_not_found (results : list dict) :
  Forall has_doi results ->
  exists found_count,
    count_found results = Ok found_count
    /\ found_count + not_found_rows results = length results.
Proof.
  induction 1 as [|r rest [d Hd] _ (n & Hn & IH)]; [by exists 0|].
  unfold doi_of in Hd. simpl. unfold getitem. rewrite Hd. simpl. rewrite Hn. simpl.
  eexists. split; [done|]. unfold not_found_rows in *. simpl.
  unfold doi_is at 1, doi_of. rewrite Hd.
  destruct (decide (d ≠ Str "Not Found")) as [Hne|He].
  - rewrite bool_decide_eq_false_2 by congruence. simpl. lia.
  - apply dec_stable in He. subst d. rewrite bool_decide_eq_true_2 by done.
    simpl. lia.
Qed.

Lemma count_found_and_not_found_witness :
  Forall has_doi [abate; unresolved_one; abou; unresolved_two]
  /\ exists found_count,
      count_found [abate; unresolved_one; abou; unresolved_two] = Ok found_count
      /\ found_count + not_found_rows [abate; unresolved_one; abou; unresolved_two]
         = length [abate; unresolved_one; abou; unresolved_two].
Proof.
  assert (Forall has_doi [abate; unresolved_one; abou; unresolved_two]) as H.
  { repeat constructor; by eexists. }
  split; [exact H|]. exact (count_found_and_not_found _ H).
Defined.

(** ** More on the Lookup Client *)

(** X9. [rate_limit] returns when at least [request_delay] has passed
    since the last request: it sleeps for what is missing, or not at all,
    and records the time. Two calls in a row, whatever happens between
    them, return at least [request_delay] apart. *)
Theorem rate_limit_spaces_calls (self : DOIFinder) (w : World) :
  exists w1 self1,
    rate_limit self w = (w1, Ok self1)
    /\ now w1 = Z.max (now w) (last_request_time self + request_delay self)
    /\ fs w1 = fs w /\ requests w1 = requests w /\ stdout w1 = stdout w
    /\ forall w2, exists w3 self2,
         rate_limit self1 w2 = (w3, Ok self2)
         /\ (now w1 + request_delay self <= now w3)%Z.
Proof.
  assert (forall self w, exists w1 self1,
    rate_limit self w = (w1, Ok self1)
    /\ now w1 = Z.max (now w) (last_request_time self + request_delay self)
    /\ fs w1 = fs w /\ requests w1 = requests w /\ stdout w1 = stdout w
    /\ last_request_time self1 = now w1
    /\ request_delay self1 = request_delay self) as Hone.
  { clear. intros self w.
    unfold rate_limit, bind, time_time, time_sleep, ret. simpl.
    destruct (now w - last_request_time self <? request_delay self)%Z eqn:E;
      simpl; do 2 eexists; (split; [reflexivity|]); simpl;
      (split; [|done]).
    - apply Z.ltb_lt in E. lia.
    - apply Z.ltb_ge in E. lia. }
  destruct (Hone self w) as (w1 & self1 & H1 & Hnow & Hfs & Hreq & Hout & Hl & Hd).
  exists w1, self1. repeat (split; [done|]). intros w2.
  destruct (Hone self1 w2) as (w3 & self2 & H2 & Hnow2 & _).
  exists w3, self2. split; [done|]. rewrite Hnow2, Hl, Hd. lia.
Qed.

(** X10. [find_doi] returns in every world and for every answer of the
    service: its bare [except:] turns every exception of the lookup, a
    [KeyboardInterrupt] or a [SystemExit] included, into the sentinel.
    It issues one query, at once and without a retry, prints two lines,
    and returns the citation as given, the first DOI of the answer or
    ["Not Found"], and the source ["CrossRef"]. *)
Theorem find_doi_always_returns (self : DOIFinder) (citation : string) (w : World) :
  exists w',
    find_doi self citation w
    = (w', Ok (citation, doi_for (service w) citation, "CrossRef"))
    /\ match works (service w) citation with
       | Raise _ => doi_for (service w) citation = "Not Found"
       | Ok _ => True
       end
    /\ fs w' = fs w
    /\ requests w' = requests w ++ [(now w, citation)]
    /\ now w' = (now w + latency (service w) citation)%Z
    /\ stdout w'
       = stdout w ++ [SearchingFor (PyStr.take 80 citation);
                      lookup_report (service w) citation].
Proof.
  unfold find_doi, doi_for, lookup_report, bind, try_except, cr_works, lift,
    print, ret.
  simpl. destruct (works (service w) citation) as [api|e]; simpl.
  - destruct (top_DOI api) as [doi|e]; simpl; eexists;
      (split; [reflexivity|]); simpl; rewrite <- ?app_assoc; done.
  - eexists; (split; [reflexivity|]); simpl; rewrite <- ?app_assoc; done.
Qed.

(** ** More on [process_citations_file] *)

Lemma lookup_loop_schedule self n i citations results w :
  i + length citations = S n ->
  exists w',
    lookup_loop self n i citations results w
    = (w', Ok (results ++ looked_up (service w) citations))
    /\ fs w' = fs w /\ service w' = service w
    /\ requests w' = requests w ++ schedule (service w) (now w) citations
    /\ now w' = (now w + total_latency (service w) citations
                 + 500 * Z.of_nat (length citations - 1))%Z.
Proof.
  revert i results w. induction citations as [|c rest IH]; intros i results w Hi.
  - simpl. exists w. unfold ret. rewrite !app_nil_r. repeat split; try done.
    unfold total_latency. simpl. lia.
  - simpl. unfold bind at 1. unfold print at 1. unfold bind at 1.
    set (w0 := mk_world _ _ _ _ _).
    destruct (find_doi_run self c w0) as (w1 & -> & Hfs1 & Hsvc1 & Hnow1 & Hreq1).
    simpl in Hi.
    destruct rest as [|c' rest'].
    + assert ((i <? n) = false) as -> by (apply Nat.ltb_ge; simpl in Hi; lia).
      unfold bind at 1. unfold ret at 1. simpl. unfold ret.
      exists w1. rewrite <- ?app_assoc. simpl.
      rewrite Hfs1, Hsvc1, Hnow1, Hreq1. subst w0. simpl.
      repeat split; try done. unfold total_latency. simpl. lia.
    + assert ((i <? n) = true) as -> by (apply Nat.ltb_lt; simpl in Hi; lia).
      unfold bind at 1. unfold time_sleep at 1.
      set (w2 := mk_world _ _ _ _ _).
      destruct (IH (S i) (results ++ [make_record c (doi_for (service w0) c)]) w2)
        as (w3 & -> & Hfs3 & Hsvc3 & Hreq3 & Hnow3); [simpl in *; lia|].
      exists w3. rewrite Hfs3, Hsvc3, Hreq3, Hnow3. subst w2. simpl.
      rewrite Hfs1, Hsvc1, Hnow1, Hreq1. subst w0. simpl.
      rewrite <- !app_assoc. repeat split; try done.
      unfold total_latency. simpl length. simpl foldr. lia.
Qed.

Lemma process_citations_file_trace self file_path lines w :
  fs w !! file_path = Some (TextFile lines) ->
  let citations := normalized_citations lines in
  exists w',
    process_citations_file self file_path w
    = (w', Ok (looked_up (service w) citations))
    /\ fs w' = fs w /\ service w' = service w
    /\ requests w' = requests w ++ schedule (service w) (now w) citations
    /\ now w' = (now w + total_latency (service w) citations
                 + 500 * Z.of_nat (length citations - 1))%Z.
Proof.
  intros Hf citations. unfold process_citations_file. unfold bind at 1.
  unfold read_lines. rewrite Hf. unfold bind at 1. unfold print at 1.
  set (w0 := mk_world _ _ _ _ _). fold citations.
  destruct (lookup_loop_schedule self (length citations) 1 citations [] w0)
    as (w1 & -> & Hfs & Hsvc & Hreq & Hnow); [done|].
  exists w1. by rewrite Hfs, Hsvc, Hreq, Hnow.
Qed.

(** X11. On a readable input file [process_citations_file] returns one
    Record for each citation of the Normalizer, in the order of the file,
    and issues one query for each: the first at once, each later one half
    a second after the answer to the one before, and no pause follows the
    last. It changes no file. *)
Theorem process_citations_file_one_query_each
    (self : DOIFinder) (file_path : string) (lines : list string) (w : World) :
  fs w !! file_path = Some (TextFile lines) ->
  let citations := normalized_citations lines in
  exists w' results,
    process_citations_file self file_path w = (w', Ok results)
    /\ length results = length citations
    /\ column_of "citation" results = Str <$> citations
    /\ column_of "doi" results = (fun c => Str (doi_for (service w) c)) <$> citations
    /\ requests w' = requests w ++ schedule (service w) (now w) citations
    /\ now w' = (now w + total_latency (service w) citations
                 + 500 * Z.of_nat (length citations - 1))%Z
    /\ fs w' = fs w.
Proof.
  intros Hf citations.
  destruct (process_citations_file_trace self file_path lines w Hf)
    as (w' & Hrun & Hfs & _ & Hreq & Hnow).
  exists w', (looked_up (service w) citations). fold citations in Hreq, Hnow.
  split; [done|].
  unfold looked_up, column_of. rewrite length_fmap, <- !list_fmap_compose.
  repeat split; try done.
  apply list_fmap_ext. intros _ c _. simpl.
  unfold doi_for. by destruct (rbind _ _) as [[|? ?]|].
Qed.

Lemma process_citations_file_one_query_each_witness :
  fs two_known !! "cites.txt" = Some (TextFile [abate_line; abou_line])
  /\ exists w' results,
      process_citations_file DOIFinder_init "cites.txt" two_known = (w', Ok results)
      /\ length results = length (normalized_citations [abate_line; abou_line])
      /\ column_of "citation" results
         = Str <$> normalized_citations [abate_line; abou_line]
      /\ column_of "doi" results
         = (fun c => Str (doi_for (service two_known) c))
             <$> normalized_citations [abate_line; abou_line]
      /\ requests w'
         = requests two_known
           ++ schedule (service two_known) (now two_known)
                (normalized_citations [abate_line; abou_line])
      /\ now w'
         = (now two_known
            + total_latency (service two_known)
                (normalized_citations [abate_line; abou_line])
            + 500 * Z.of_nat
                      (length (normalized_citations [abate_line; abou_line]) - 1))%Z
      /\ fs w' = fs two_known.
Proof.
  split; [reflexivity|].
  apply (process_citations_file_one_query_each DOIFinder_init "cites.txt"
           [abate_line; abou_line] two_known).
  reflexivity.
Defined.

(** ** Bounds on what the stages change and raise *)

Lemma changes_only_refl S net w : changes_only S net w w.
Proof. by repeat split. Qed.

Lemma changes_only_trans S net w1 w2 w3 :
  changes_only S net w1 w2 -> changes_only S net w2 w3 -> changes_only S net w1 w3.
Proof.
  intros (Hs1 & Hf1 & Hn1) (Hs2 & Hf2 & Hn2). split; [congruence|]. split.
  - intros p Hp. rewrite Hf2, Hf1; done.
  - intros Hnet. destruct (Hn1 Hnet), (Hn2 Hnet). split; congruence.
Qed.

Lemma keeps_ret {A} S net P (a : A) : keeps S net P (ret a).
Proof. intros w. split; [apply changes_only_refl|done]. Qed.

Lemma keeps_raise {A} S net (P : exn -> Prop) e : P e -> keeps S net P (@raise A e).
Proof. intros H w. split; [apply changes_only_refl|done]. Qed.

Lemma keeps_lift {A} S net (P : exn -> Prop) (r : result A) :
  match r with Raise e => P e | Ok _ => True end -> keeps S net P (lift r).
Proof. intros H w. split; [apply changes_only_refl|done]. Qed.

Lemma keeps_print S net P msg : keeps S net P (print msg).
Proof. intros w. by repeat split. Qed.

Lemma keeps_time_sleep S P d : keeps S true P (time_sleep d).
Proof. intros w. by repeat split. Qed.

Lemma keeps_path_exists S net P p : keeps S net P (path_exists p).
Proof. intros w. by repeat split. Qed.

Lemma keeps_cr_works S (P : exn -> Prop) query :
  (forall e, P e) -> keeps S true P (cr_works query).
Proof.
  intros H w. split; [by repeat split|]. simpl. by destruct (works _ _).
Qed.

Lemma keeps_write_file S net P p f : p ∈ S -> keeps S net P (write_file p f).
Proof.
  intros Hp w. split; [|done]. split; [done|]. split; [|done].
  intros q Hq. simpl. apply lookup_insert_ne. intros ->. done.
Qed.

Lemma keeps_read_lines S net (P : exn -> Prop) p :
  P OSError -> keeps S net P (read_lines p).
Proof.
  intros H w. unfold read_lines.
  destruct (fs w !! p) as [[| |]|]; (split; [apply changes_only_refl|done]).
Qed.

Lemma keeps_read_csv S net (P : exn -> Prop) p :
  P EmptyDataError -> P ParserError -> P OSError -> keeps S net P (read_csv p).
Proof.
  intros H1 H2 H3 w. unfold read_csv.
  destruct (fs w !! p) as [[|df|]|]; try (split; [apply changes_only_refl|done]).
  destruct (Pandas.cols df); (split; [apply changes_only_refl|done]).
Qed.

Lemma keeps_read_excel S net (P : exn -> Prop) p :
  P ValueError -> P OSError -> keeps S net P (read_excel p).
Proof.
  intros H1 H2 w. unfold read_excel.
  destruct (fs w !! p) as [[| |]|]; (split; [apply changes_only_refl|done]).
Qed.

Lemma keeps_bind {A B} S net P (m : M A) (k : A -> M B) :
  keeps S net P m -> (forall a, keeps S net P (k a)) -> keeps S net P (bind m k).
Proof.
  intros Hm Hk w. unfold bind. specialize (Hm w).
  destruct (m w) as [w1 [a|e]]; simpl in Hm; [|done].
  destruct Hm as [Hc _]. specialize (Hk a w1). destruct (k a w1) as [w2 r].
  simpl in *. destruct Hk as [Hc2 Hr]. split; [|done].
  by eapply changes_only_trans.
Qed.

Lemma keeps_try_except {A} S net (P Q : exn -> Prop) (m : M A) catches handler :
  keeps S net Q m ->
  (forall e, Q e -> catches e = true -> keeps S net P (handler e)) ->
  (forall e, Q e -> catches e = false -> P e) ->
  keeps S net P (try_except m catches handler).
Proof.
  intros Hm Hh Hp w. unfold try_except. specialize (Hm w).
  destruct (m w) as [w1 [a|e]]; simpl in Hm; [done|].
  destruct Hm as [Hc He]. destruct (catches e) eqn:Hcatch.
  - specialize (Hh e He Hcatch w1). destruct (handler e w1) as [w2 r].
    simpl in *. destruct Hh as [Hc2 Hr]. split; [|done].
    by eapply changes_only_trans.
  - split; [done|]. simpl. by apply Hp.
Qed.

Lemma keeps_mono {A} S S' (net net' : bool) (P P' : exn -> Prop) (m : M A) :
  S ⊆ S' -> (net = true -> net' = true) -> (forall e, P e -> P' e) ->
  keeps S net P m -> keeps S' net' P' m.
Proof.
  intros HS Hnet HP Hm w. destruct (Hm w) as [(Hs & Hf & Hn) Hr]. split.
  - split; [done|]. split.
    + intros p Hp. apply Hf. set_solver.
    + intros ->. apply Hn. by destruct net; [discriminate Hnet|].
  - destruct ((m w).2); [done|]. by apply HP.
Qed.

Lemma keeps_find_doi self citation :
  keeps [] true (fun _ => False) (find_doi self citation).
Proof.
  unfold find_doi. apply keeps_bind; [apply keeps_print|]. intros _.
  apply keeps_try_except with (Q := fun _ => True); [| |done].
  - apply keeps_bind; [by apply keeps_cr_works|]. intros api.
    apply keeps_bind; [apply keeps_lift; by destruct (top_DOI api)|]. intros doi.
    apply keeps_bind; [apply keeps_print|]. intros _. apply keeps_ret.
  - intros e _ _. apply keeps_bind; [apply keeps_print|]. intros _.
    apply keeps_ret.
Qed.

Lemma keeps_lookup_loop self n i citations results :
  keeps [] true (fun _ => False) (lookup_loop self n i citations results).
Proof.
  revert i results. induction citations as [|c rest IH]; intros i results.
  - apply keeps_ret.
  - simpl. apply keeps_bind; [apply keeps_print|]. intros _.
    apply keeps_bind; [apply keeps_find_doi|]. intros [[ct doi] src].
    apply keeps_bind; [|intros _; apply IH].
    destruct (i <? n); [apply keeps_time_sleep|apply keeps_ret].
Qed.

Lemma keeps_process_citations_file self file_path :
  keeps [] true (fun e => e = OSError) (process_citations_file self file_path).
Proof.
  unfold process_citations_file.
  apply keeps_bind; [by apply keeps_read_lines|]. intros lines.
  apply keeps_bind; [apply keeps_print|]. intros _.
  eapply keeps_mono; [| | |apply keeps_lookup_loop]; done.
Qed.

Lemma raises_Exception_keeps {A} S net (r : result A) :
  raises_Exception r -> keeps S net (fun e => is_Exception e = true) (lift r).
Proof. intros H. apply keeps_lift. by destruct r. Qed.

Lemma keeps_merge_existing excel_path new_df :
  keeps [] false (fun _ => False) (merge_existing excel_path new_df).
Proof.
  unfold merge_existing. apply keeps_bind; [apply keeps_path_exists|].
  intros [|]; [|apply keeps_ret].
  apply keeps_try_except with (Q := fun e => is_Exception e = true).
  - apply keeps_bind; [by apply keeps_read_excel|]. intros existing_df.
    apply keeps_bind; [apply raises_Exception_keeps, merge_raises|].
    intros merged_df. apply raises_Exception_keeps, fold_new_columns_raises.
  - intros e _ _. apply keeps_bind; [apply keeps_print|]. intros _.
    apply keeps_ret.
  - intros e He Hc. congruence.
Qed.

Lemma keeps_to_excel S net df p :
  p ∈ S -> keeps S net (fun e => is_Exception e = true) (to_excel df p).
Proof.
  intros Hp. unfold to_excel.
  destruct (_ || _); [by apply keeps_write_file|by apply keeps_raise].
Qed.

Lemma keeps_write_tables final_df excel_path output_path :
  keeps [output_path; excel_path] false (fun _ => False)
    (write_tables final_df excel_path output_path).
Proof.
  unfold write_tables. apply keeps_bind.
  - apply keeps_try_except with (Q := fun e => is_Exception e = true).
    + apply keeps_bind; [apply keeps_to_excel; set_solver|]. intros _.
      apply keeps_print.
    + intros e _ _. apply keeps_print.
    + intros e He Hc. congruence.
  - intros _. apply keeps_bind; [apply keeps_write_file; set_solver|].
    intros _. apply keeps_print.
Qed.

Lemma getitem_raises d k : raises_Exception (getitem d k).
Proof. unfold getitem. by destruct (dict_get d k). Qed.

Lemma count_found_raises results : raises_Exception (count_found results).
Proof.
  induction results as [|r rest IH]; [done|]. simpl. unfold getitem.
  destruct (dict_get r "doi"); [|done]. simpl.
  by destruct (count_found rest).
Qed.

Lemma sanitize_raises_Exception results : raises_Exception (sanitize results).
Proof.
  induction results as [|r rest IH]; [done|]. simpl. unfold getitem.
  destruct (dict_get r "citation") as [[s|]|]; [|done|done]. simpl.
  by destruct (sanitize rest).
Qed.

Lemma remove_duplicate_dois_raises results :
  raises_Exception (remove_duplicate_dois results).
Proof.
  unfold remove_duplicate_dois. generalize (∅ : gset value), (@nil dict).
  induction results as [|r rest IH]; intros seen acc; [done|]. simpl.
  unfold getitem. destruct (dict_get r "doi"); [|done]. simpl.
  destruct (decide _); apply IH.
Qed.

Lemma keeps_print_summary self results check_duplicates :
  keeps [] false (fun e => is_Exception e = true)
    (print_summary self results check_duplicates).
Proof.
  unfold print_summary. destruct check_duplicates; simpl.
  - apply keeps_bind; [apply raises_Exception_keeps, remove_duplicate_dois_raises|].
    intros unique_results. repeat (apply keeps_bind; [apply keeps_print|intros _]).
    apply keeps_print.
  - apply keeps_bind; [apply raises_Exception_keeps, count_found_raises|].
    intros n. repeat (apply keeps_bind; [apply keeps_print|intros _]).
    destruct (length results); [by apply keeps_raise|apply keeps_print].
Qed.

Lemma keeps_save_results self results output_path check_duplicates :
  keeps [output_path; excel_path_of output_path] false
    (fun e => is_Exception e = true)
    (save_results self results output_path check_duplicates).
Proof.
  unfold save_results.
  apply keeps_bind; [apply raises_Exception_keeps, sanitize_raises_Exception|].
  intros results'. cbv zeta. apply keeps_bind.
  { eapply keeps_mono; [| | |apply keeps_merge_existing]; set_solver. }
  intros final_df. apply keeps_bind.
  { eapply keeps_mono; [| | |apply keeps_write_tables]; set_solver. }
  intros _. eapply keeps_mono; [| | |apply keeps_print_summary]; set_solver.
Qed.

Lemma keeps_main_try finder args :
  keeps (written_paths args) (ingests args) Exception_or_exit_1
    (main_try finder args).
Proof.
  unfold main_try, written_paths, ingests.
  destruct (given (clean args)) as [csv_file|];
    [|destruct (given (input args)) as [citations_file|]].
  - apply keeps_bind; [apply keeps_path_exists|]. intros csv_exists.
    apply keeps_bind.
    { destruct csv_exists; simpl; [apply keeps_ret|].
      apply keeps_bind; [apply keeps_print|]. intros _.
      apply keeps_raise. by right. }
    intros _. apply keeps_bind; [apply keeps_print|]. intros _.
    apply keeps_bind; [apply keeps_read_csv; by left|]. intros existing_df.
    cbv zeta. apply keeps_bind.
    { eapply keeps_mono;
        [| | |apply raises_Exception_keeps, remove_duplicate_dois_raises];
        [done|done|by left]. }
    intros unique_results.
    apply keeps_bind; [apply keeps_write_file; set_solver|]. intros _.
    repeat (apply keeps_bind; [apply keeps_print|intros _]). apply keeps_print.
  - apply keeps_bind; [apply keeps_path_exists|]. intros citations_exist.
    apply keeps_bind.
    { destruct citations_exist; simpl; [apply keeps_ret|].
      apply keeps_bind; [apply keeps_print|]. intros _.
      apply keeps_raise. by right. }
    intros _. apply keeps_bind; [apply keeps_print|]. intros _.
    apply keeps_bind.
    { eapply keeps_mono; [| | |apply keeps_process_citations_file];
        [set_solver|done|]. intros e ->. by left. }
    intros new_results. cbv zeta.
    apply keeps_bind; [apply keeps_path_exists|]. intros output_exists.
    apply keeps_bind.
    { destruct output_exists; [|apply keeps_ret].
      apply keeps_bind; [apply keeps_print|]. intros _.
      apply keeps_bind; [apply keeps_read_csv; by left|]. intros existing_df.
      apply keeps_ret. }
    intros existing_results. apply keeps_bind.
    { eapply keeps_mono;
        [| | |apply raises_Exception_keeps, remove_duplicate_dois_raises];
        [done|done|by left]. }
    intros unique_results. apply keeps_bind.
    { eapply keeps_mono; [| | |apply keeps_save_results];
        [done|done|by left]. }
    intros _.
    repeat (apply keeps_bind; [apply keeps_print|intros _]). apply keeps_print.
  - apply keeps_bind; [apply keeps_print|]. intros _. apply keeps_raise.
    by right.
Qed.

Lemma keeps_main args :
  keeps (written_paths args) (ingests args) (fun e => e = SystemExit 1)
    (main args).
Proof.
  unfold main. cbv zeta.
  apply keeps_try_except with (Q := Exception_or_exit_1).
  - apply keeps_main_try.
  - intros e _ _.
    destruct e; (apply keeps_bind; [apply keeps_print|]; intros _;
                 by apply keeps_raise).
  - intros e [He|He] Hc; [|done]. by destruct e.
Qed.

Lemma run_main args w :
  (run args w).1 = (main args w).1
  /\ ((main args w).2 = Raise (SystemExit 1) -> (run args w).2 = 1%Z)
  /\ (forall u, (main args w).2 = Ok u -> (run args w).2 = 0%Z).
Proof.
  unfold run. destruct (main args w) as [w' [u|e]]; simpl.
  - repeat split; done.
  - destruct e; repeat split; try done. by intros [= ->].
Qed.

(** X12. Once its command line is parsed, a run of the script exits with
    status 0 or 1 and no other, whatever the options, the files and the
    answers of the service. *)
Theorem run_exits_with_0_or_1 (args : Args) (w : World) :
  (run args w).2 = 0%Z \/ (run args w).2 = 1%Z.
Proof.
  destruct (keeps_main args w) as [_ Hr].
  destruct (run_main args w) as (_ & H1 & H0).
  destruct ((main args w).2) as [u|e]; [left; by eapply H0|].
  right. apply H1. by rewrite Hr.
Qed.

(** X13. A run writes at its own table paths only: a clean run at the
    path of the CSV file, an ingest run at the output path and at the
    spreadsheet path derived from it. Every other file, the input file of
    citations among them, is left as it was, also when the run fails. *)
Theorem run_writes_its_tables_only (args : Args) (w : World) (p : string) :
  p ∉ written_paths args ->
  fs (run args w).1 !! p = fs w !! p.
Proof.
  intros Hp. destruct (keeps_main args w) as [(_ & Hf & _) _].
  destruct (run_main args w) as (-> & _). by apply Hf.
Qed.

Lemma run_writes_its_tables_only_witness :
  ("cites.txt" ∉ written_paths ingest_args)
  /\ fs (run ingest_args two_known).1 !! "cites.txt" = fs two_known !! "cites.txt".
Proof.
  assert ("cites.txt" ∉ written_paths ingest_args) as H.
  { apply (bool_decide_unpack _). vm_compute. exact I. }
  split; [exact H|].
  exact (run_writes_its_tables_only ingest_args two_known "cites.txt" H).
Defined.

(** X14. A clean run works on the file alone: it issues no query, and it
    passes no time. The [-c] option takes precedence: with it the run does
    not depend on the options [-i] and [-o]. *)
Theorem clean_run_is_offline (args : Args) (w : World) (csv_file : string) :
  given (clean args) = Some csv_file ->
  requests (run args w).1 = requests w
  /\ now (run args w).1 = now w
  /\ forall i o, run (mk_args i o (clean args)) w = run args w.
Proof.
  intros Hc. destruct (keeps_main args w) as [(_ & _ & Hn) _].
  destruct (run_main args w) as (-> & _).
  unfold ingests in Hn. rewrite Hc in Hn. destruct (Hn eq_refl) as [-> ->].
  repeat split. intros i o. unfold run, main, main_try. simpl. by rewrite Hc.
Qed.

Lemma clean_run_is_offline_witness :
  given (clean clean_args) = Some "dois.csv"
  /\ requests (run clean_args to_clean).1 = requests to_clean
  /\ now (run clean_args to_clean).1 = now to_clean
  /\ forall i o, run (mk_args i o (clean clean_args)) to_clean
                 = run clean_args to_clean.
Proof.
  split; [reflexivity|].
  apply (clean_run_is_offline clean_args to_clean "dois.csv"). reflexivity.
Defined.

(** ** More on [main]: the runs that fail *)

(** X15. A run without [-i] and [-c] (or with empty ones), an ingest run
    whose input file does not exist and a clean run whose CSV file does
    not exist print their one message and exit with status 1: the
    [sys.exit(1)] inside the [try] passes the handlers of [main], so no
    second message follows, and nothing is read, looked up or written. *)
Theorem run_usage_error (args : Args) (w : World) (msg : Msg) :
  usage_error args w = Some msg ->
  run args w = (printed msg w, 1%Z).
Proof.
  unfold usage_error, run, main, try_except, main_try, printed.
  destruct (given (clean args)) as [csv_file|];
    [|destruct (given (input args)) as [citations_file|]].
  - unfold bind at 1. unfold path_exists at 1.
    destruct (bool_decide _); [done|]. intros [= <-]. reflexivity.
  - unfold bind at 1. unfold path_exists at 1.
    destruct (bool_decide _); [done|]. intros [= <-]. reflexivity.
  - intros [= <-]. reflexivity.
Qed.

Lemma run_usage_error_witness :
  usage_error ingest_args (world_of ∅ two_papers)
  = Some (ErrorCitationsNotFound "cites.txt")
  /\ run ingest_args (world_of ∅ two_papers)
     = (printed (ErrorCitationsNotFound "cites.txt") (world_of ∅ two_papers), 1%Z).
Proof.
  split; [reflexivity|].
  apply (run_usage_error ingest_args (world_of ∅ two_papers)). reflexivity.
Defined.

Lemma ingest_unreadable_run args w citations_file lines df :
  given (clean args) = None ->
  given (input args) = Some citations_file ->
  fs w !! citations_file = Some (TextFile lines) ->
  fs w !! output args = Some (CsvFile df) ->
  Pandas.cols df = [] ->
  exists w' pre,
    run args w = (w', 1%Z)
    /\ fs w' = fs w
    /\ requests w'
       = requests w ++ schedule (service w) (now w) (normalized_citations lines)
    /\ stdout w'
       = pre ++ [LoadingExisting (output args); ErrorMsg EmptyDataError].
Proof.
  intros Hclean Hinput Hfile Hout Hcols.
  unfold run, main, try_except, main_try. rewrite Hclean, Hinput.
  unfold bind at 1. unfold path_exists at 1.
  rewrite bool_decide_eq_true_2 by eauto. simpl negb. cbv iota.
  unfold bind at 1. unfold ret at 1.
  unfold bind at 1. unfold print at 1.
  set (w0 := mk_world _ _ _ _ _).
  destruct (process_citations_file_trace DOIFinder_init citations_file lines w0)
    as (w1 & Hproc & Hfs1 & Hsvc1 & Hreq1 & Hnow1); [done|].
  rewrite (bind_Ok _ _ _ _ _ Hproc). cbv zeta.
  unfold bind at 1. unfold path_exists at 1. rewrite Hfs1. simpl fs.
  rewrite bool_decide_eq_true_2 by eauto.
  unfold bind at 1. unfold bind at 1. unfold print at 1.
  unfold bind at 1. unfold read_csv at 1. simpl fs. rewrite Hfs1. simpl fs.
  rewrite Hout, Hcols. simpl.
  unfold bind, print, raise. simpl.
  eexists. exists (stdout w1). split; [reflexivity|]. simpl.
  split; [done|]. split; [done|]. by rewrite <- app_assoc.
Qed.

(** X16. An ingest run loads the existing table only after it has looked
    every citation up: when the CSV file at the output path has no
    columns, the run still issues all its queries, then fails with
    pandas' [EmptyDataError], exits with status 1 and writes nothing. *)
Theorem ingest_into_table_without_columns
    (args : Args) (w : World) (citations_file : string) (lines : list string)
    (df : Pandas.DataFrame) :
  given (clean args) = None ->
  given (input args) = Some citations_file ->
  fs w !! citations_file = Some (TextFile lines) ->
  fs w !! output args = Some (CsvFile df) ->
  Pandas.cols df = [] ->
  exists w' pre,
    run args w = (w', 1%Z)
    /\ fs w' = fs w
    /\ requests w'
       = requests w ++ schedule (service w) (now w) (normalized_citations lines)
    /\ stdout w'
       = pre ++ [LoadingExisting (output args); ErrorMsg EmptyDataError].
Proof. apply ingest_unreadable_run. Qed.

Lemma ingest_into_table_without_columns_witness :
  (given (clean ingest_args) = None
   /\ given (input ingest_args) = Some "cites.txt"
   /\ fs empty_table !! "cites.txt" = Some (TextFile [abate_line; abou_line])
   /\ fs empty_table !! output ingest_args
      = Some (CsvFile (Pandas.of_records []))
   /\ Pandas.cols (Pandas.of_records []) = [])
  /\ exists w' pre,
      run ingest_args empty_table = (w', 1%Z)
      /\ fs w' = fs empty_table
      /\ requests w'
         = requests empty_table
           ++ schedule (service empty_table) (now empty_table)
                (normalized_citations [abate_line; abou_line])
      /\ stdout w'
         = pre ++ [LoadingExisting (output ingest_args); ErrorMsg EmptyDataError].
Proof.
  split; [repeat split; reflexivity|].
  apply (ingest_into_table_without_columns ingest_args empty_table "cites.txt"
           [abate_line; abou_line] (Pandas.of_records [])); reflexivity.
Defined.

Lemma blank_ingest_files args w citations_file lines :
  given (clean args) = None ->
  given (input args) = Some citations_file ->
  fs w !! citations_file = Some (TextFile lines) ->
  Forall (fun line => is_blank line = true) lines ->
  fs w !! output args = None ->
  fs w !! excel_path_of (output args) = None ->
  (run args w).2 = 1%Z
  /\ fs (run args w).1 !! output args = Some (CsvFile (Pandas.of_records [])).
Proof.
  intros Hclean Hinput Hfile Hblank Hout Hxl.
  cut (exists w', run args w = (w', 1%Z)
                  /\ fs w' !! output args = Some (CsvFile (Pandas.of_records []))).
  { by intros (w' & -> & Hw). }
  unfold run, main, try_except, main_try. rewrite Hclean, Hinput.
  unfold bind at 1. unfold path_exists at 1.
  rewrite bool_decide_eq_true_2 by eauto. simpl negb. cbv iota.
  unfold bind at 1. unfold ret at 1.
  unfold bind at 1. unfold print at 1.
  set (w0 := mk_world _ _ _ _ _).
  destruct (process_citations_file_blank DOIFinder_init citations_file lines w0)
    as (w1 & Hproc & Hfs1 & Hstd1); [done..|].
  rewrite (bind_Ok _ _ _ _ _ Hproc). cbv zeta.
  unfold bind at 1. unfold path_exists at 1. rewrite Hfs1. simpl fs.
  rewrite Hout. rewrite bool_decide_eq_false_2 by (by intros [? ?]).
  unfold bind at 1. unfold ret at 1.
  unfold bind at 1. unfold lift at 1.
  change (remove_duplicate_dois ([] ++ [])) with (@Ok (list dict) []).
  cbv iota beta.
  destruct (save_results_empty_fresh DOIFinder_init (output args) w1)
    as (w2 & Hsave & Hcsv & Hxlsx & Hstd2).
  { by rewrite Hfs1. }
  rewrite (bind_Raise _ _ _ _ _ Hsave). simpl.
  unfold bind, print, raise. simpl. eexists. by split.
Qed.

(** X17. The table that a run on a blank input file leaves behind stops
    every later ingest run on that output path: the CSV file it wrote has
    no columns, so a run with citations to look up, in whatever else the
    world has become, fails with [EmptyDataError] and status 1 after its
    lookups, and the file stays as it is. *)
Theorem blank_ingest_blocks_later_runs
    (args : Args) (w : World) (citations_file : string) (lines : list string)
    (args2 : Args) (w2 : World) (citations_file2 : string) (lines2 : list string) :
  given (clean args) = None ->
  given (input args) = Some citations_file ->
  fs w !! citations_file = Some (TextFile lines) ->
  Forall (fun line => is_blank line = true) lines ->
  fs w !! output args = None ->
  fs w !! excel_path_of (output args) = None ->
  given (clean args2) = None ->
  given (input args2) = Some citations_file2 ->
  output args2 = output args ->
  fs w2 !! output args = fs (run args w).1 !! output args ->
  fs w2 !! citations_file2 = Some (TextFile lines2) ->
  (run args w).2 = 1%Z
  /\ exists w3 pre,
      run args2 w2 = (w3, 1%Z)
      /\ fs w3 = fs w2
      /\ stdout w3
         = pre ++ [LoadingExisting (output args); ErrorMsg EmptyDataError].
Proof.
  intros Hclean Hinput Hfile Hblank Hout Hxl Hclean2 Hinput2 Ho2 Hsame Hfile2.
  destruct (blank_ingest_files args w citations_file lines) as [H1 Hcsv];
    [done..|].
  split; [done|]. rewrite Hcsv in Hsame.
  destruct (ingest_unreadable_run args2 w2 citations_file2 lines2
              (Pandas.of_records []))
    as (w3 & pre & Hrun & Hfs & _ & Hstd); [done|done|done|by rewrite Ho2|done|].
  exists w3, pre. by rewrite <- Ho2.
Qed.

Lemma blank_ingest_blocks_later_runs_witness :
  (given (clean ingest_args) = None
   /\ given (input ingest_args) = Some "cites.txt"
   /\ fs blank_input !! "cites.txt" = Some (TextFile [newline; "   " +:+ newline])
   /\ Forall (fun line => is_blank line = true) [newline; "   " +:+ newline]
   /\ fs blank_input !! output ingest_args = None
   /\ fs blank_input !! excel_path_of (output ingest_args) = None
   /\ given (clean (mk_args (Some "more.txt") "dois.csv" None)) = None
   /\ given (input (mk_args (Some "more.txt") "dois.csv" None)) = Some "more.txt"
   /\ output (mk_args (Some "more.txt") "dois.csv" None) = output ingest_args
   /\ fs after_blank_run !! output ingest_args
      = fs (run ingest_args blank_input).1 !! output ingest_args
   /\ fs after_blank_run !! "more.txt" = Some (TextFile [abate_line; abou_line]))
  /\ (run ingest_args blank_input).2 = 1%Z
  /\ exists w3 pre,
      run (mk_args (Some "more.txt") "dois.csv" None) after_blank_run = (w3, 1%Z)
      /\ fs w3 = fs after_blank_run
      /\ stdout w3
         = pre ++ [LoadingExisting (output ingest_args); ErrorMsg EmptyDataError].
Proof.
  assert (Forall (fun line => is_blank line = true) [newline; "   " +:+ newline])
    as Hb by (repeat constructor).
  split; [repeat split; try reflexivity; exact Hb|].
  apply (blank_ingest_blocks_later_runs ingest_args blank_input "cites.txt"
           [newline; "   " +:+ newline]
           (mk_args (Some "more.txt") "dois.csv" None) after_blank_run
           "more.txt" [abate_line; abou_line]);
    try reflexivity; exact Hb.
Defined.

(** ** More on the Persistence Writer: the files *)

Lemma write_tables_not_writable final_df excel_path output_path w :
  excel_writable excel_path = false -> excel_path <> output_path ->
  fs (write_tables final_df excel_path output_path w).1 !! excel_path
  = fs w !! excel_path.
Proof.
  intros Hw Hne.
  unfold write_tables, bind, try_except, to_excel, to_csv, write_file, raise,
    print.
  unfold excel_writable in Hw. rewrite Hw. simpl.
  by rewrite lookup_insert_ne.
Qed.

Lemma save_results_files self results results' output_path check_duplicates w :
  sanitize results = Ok results' ->
  exists final_df,
    fs (save_results self results output_path check_duplicates w).1
      !! output_path = Some (CsvFile final_df)
    /\ (excel_path_of output_path <> output_path ->
        fs (save_results self results output_path check_duplicates w).1
          !! excel_path_of output_path
        = if excel_writable (excel_path_of output_path)
          then Some (XlsxFile final_df)
          else fs w !! excel_path_of output_path)
    /\ (fs w !! excel_path_of output_path = None ->
        final_df = Pandas.of_records results')
    /\ (forall p, p <> output_path -> p <> excel_path_of output_path ->
        fs (save_results self results output_path check_duplicates w).1 !! p
        = fs w !! p).
Proof.
  intros Hsan.
  destruct (merge_existing_run (excel_path_of output_path)
              (Pandas.of_records results') w)
    as (w1 & final_df & Hm & Hfs1 & _ & Hfresh).
  destruct (write_tables_run final_df (excel_path_of output_path) output_path w1)
    as (w2 & Hw & _ & Hcsv & Hframe).
  pose proof (write_tables_excel final_df (excel_path_of output_path)
                output_path w1) as Hx.
  pose proof (write_tables_not_writable final_df (excel_path_of output_path)
                output_path w1) as Hnx.
  rewrite Hw in Hx, Hnx. simpl in Hx, Hnx.
  assert (save_results self results output_path check_duplicates w
          = print_summary self results' check_duplicates w2) as ->.
  { unfold save_results. unfold bind at 1. unfold lift at 1. rewrite Hsan.
    cbv zeta. fold (excel_path_of output_path).
    rewrite (bind_Ok _ _ _ _ _ Hm). by rewrite (bind_Ok _ _ _ _ _ Hw). }
  rewrite !print_summary_fs.
  exists final_df. split; [done|]. split; [|split].
  - intros Hne. destruct (excel_writable _); [by apply Hx|].
    rewrite Hnx by done. by rewrite Hfs1.
  - intros Hnone. by apply Hfresh.
  - intros p H1 H2. rewrite Hframe by done. by rewrite Hfs1.
Qed.

(** X18. Once the Records are sanitized, [save_results] writes its tables
    whatever happens next, also when the summary then raises: the CSV
    file at the output path holds the final frame, the spreadsheet holds
    the same frame when pandas has a writer for its path and is left as
    it was when it has none, and no other file changes. Without a
    spreadsheet before the call, the final frame is that of the
    sanitized Records. *)
Theorem save_results_writes_both_tables
    (self : DOIFinder) (results results' : list dict) (output_path : string)
    (check_duplicates : bool) (w : World) :
  sanitize results = Ok results' ->
  exists final_df,
    fs (save_results self results output_path check_duplicates w).1
      !! output_path = Some (CsvFile final_df)
    /\ (excel_path_of output_path <> output_path ->
        fs (save_results self results output_path check_duplicates w).1
          !! excel_path_of output_path
        = if excel_writable (excel_path_of output_path)
          then Some (XlsxFile final_df)
          else fs w !! excel_path_of output_path)
    /\ (fs w !! excel_path_of output_path = None ->
        final_df = Pandas.of_records results')
    /\ (forall p, p <> output_path -> p <> excel_path_of output_path ->
        fs (save_results self results output_path check_duplicates w).1 !! p
        = fs w !! p).
Proof. apply save_results_files. Qed.

Lemma save_results_writes_both_tables_witness :
  sanitize [abate; abou] = Ok [abate; abou]
  /\ exists final_df,
      fs (save_results DOIFinder_init [abate; abou] "dois.csv" false two_known).1
        !! "dois.csv" = Some (CsvFile final_df)
      /\ (excel_path_of "dois.csv" <> "dois.csv" ->
          fs (save_results DOIFinder_init [abate; abou] "dois.csv" false
                two_known).1 !! excel_path_of "dois.csv"
          = if excel_writable (excel_path_of "dois.csv")
            then Some (XlsxFile final_df)
            else fs two_known !! excel_path_of "dois.csv")
      /\ (fs two_known !! excel_path_of "dois.csv" = None ->
          final_df = Pandas.of_records [abate; abou])
      /\ (forall p, p <> "dois.csv" -> p <> excel_path_of "dois.csv" ->
          fs (save_results DOIFinder_init [abate; abou] "dois.csv" false
                two_known).1 !! p
          = fs two_known !! p).
Proof.
  split; [reflexivity|].
  apply (save_results_writes_both_tables DOIFinder_init [abate; abou]
           [abate; abou] "dois.csv" false two_known).
  reflexivity.
Defined.

Lemma replace_from_absent old new s :
  occurs old s = false -> PyStr.replace_from old new 0 s = s.
Proof.
  induction s as [|c s IH]; [done|]. intros H. cbn [occurs] in H.
  apply orb_false_iff in H as [Hp Ho]. cbn [PyStr.replace_from].
  rewrite Hp. by rewrite IH.
Qed.

(** X19. The spreadsheet path is the output path with every [.csv] in it
    replaced: for an output path without [.csv] the two are the same
    path, and the call leaves no spreadsheet, only the CSV text that is
    written last, at that one path. *)
Theorem save_results_without_csv_in_the_path
    (self : DOIFinder) (results results' : list dict) (output_path : string)
    (check_duplicates : bool) (w : World) :
  occurs ".csv" output_path = false ->
  sanitize results = Ok results' ->
  excel_path_of output_path = output_path
  /\ exists final_df,
      fs (save_results self results output_path check_duplicates w).1
      = <[output_path := CsvFile final_df]> (fs w).
Proof.
  intros Hocc Hsan.
  assert (excel_path_of output_path = output_path) as Hsame.
  { unfold excel_path_of, PyStr.replace. by apply replace_from_absent. }
  split; [done|].
  destruct (save_results_files self results results' output_path
              check_duplicates w Hsan) as (final_df & Hcsv & _ & _ & Hframe).
  exists final_df. apply map_eq. intros p.
  destruct (decide (p = output_path)) as [->|Hne].
  - by rewrite lookup_insert_eq.
  - rewrite lookup_insert_ne by done. apply Hframe; [done|]. by rewrite Hsame.
Qed.

Lemma save_results_without_csv_in_the_path_witness :
  (occurs ".csv" "dois.xlsx" = false
   /\ sanitize [abate; abou] = Ok [abate; abou])
  /\ excel_path_of "dois.xlsx" = "dois.xlsx"
  /\ exists final_df,
      fs (save_results DOIFinder_init [abate; abou] "dois.xlsx" false two_known).1
      = <["dois.xlsx" := CsvFile final_df]> (fs two_known).
Proof.
  split; [split; reflexivity|].
  apply (save_results_without_csv_in_the_path DOIFinder_init [abate; abou]
           [abate; abou] "dois.xlsx" false two_known); reflexivity.
Defined.

(** ** More on [main]: the runs that succeed *)

Lemma first_seen_length results :
  length (first_seen ∅ results) = size (dois results).
Proof.
  pose proof (first_seen_size ∅ results) as Hs.
  rewrite size_empty in Hs. simpl in Hs. rewrite <- Hs. f_equal. set_solver.
Qed.

(** X20. The summary of an ingest run, in Records: the combined table is
    the existing table without its own duplicates, followed by the new
    Records that were appended. The run reports as added the number
    appended minus the number of duplicate rows dropped from the existing
    table, and as duplicates the new Records not appended plus those
    dropped rows. On a table without duplicates the existing rows are
    all kept, and the two numbers count the new Records only. *)
Theorem ingest_run_counts
    (args : Args) (w : World) (citations_file : string) (lines : list string)
    (E : list dict) :
  given (clean args) = None ->
  given (input args) = Some citations_file ->
  fs w !! citations_file = Some (TextFile lines) ->
  existing_table (fs w) (output args) = Some E ->
  Forall well_formed E ->
  E ++ looked_up (service w) (normalized_citations lines) <> [] ->
  let N := looked_up (service w) (normalized_citations lines) in
  let kept := first_seen ∅ E in
  exists w' pre added,
    run args w = (w', 0%Z)
    /\ first_seen ∅ (E ++ N) = kept ++ added
    /\ added `sublist_of` N
    /\ kept `sublist_of` E
    /\ (NoDup (doi_of <$> E) -> kept = E)
    /\ stdout w'
       = pre ++ ingest_summary (length kept + length added)
                  (Z.of_nat (length added) - Z.of_nat (length E - length kept))
                  (Z.of_nat (length N - length added)
                   + Z.of_nat (length E - length kept)).
Proof.
  intros Hclean Hinput Hfile Htable HE Hne N kept.
  destruct (ingest_run args w citations_file lines E)
    as (w' & pre & _ & _ & Hrun & Hstd & _); [done..|].
  fold N in Hstd. set (added := first_seen (∅ ∪ dois E) N).
  assert (first_seen ∅ (E ++ N) = kept ++ added) as HU by apply first_seen_app.
  pose proof (first_seen_sublist (∅ ∪ dois E) N) as Hsa.
  pose proof (first_seen_sublist ∅ E) as Hsk.
  pose proof (sublist_length _ _ Hsa) as Hla.
  pose proof (sublist_length _ _ Hsk) as Hlk.
  fold added in Hsa, Hla. fold kept in Hsk, Hlk.
  exists w', pre, added. repeat (split; [done|]). split.
  - intros Hnd. apply first_seen_fixed; [|done|set_solver].
    eapply Forall_impl; [exact HE|]. by intros r [_ ?].
  - rewrite Hstd, HU, length_app.
    assert ((Z.of_nat (length kept + length added) - Z.of_nat (length E))%Z
            = (Z.of_nat (length added) - Z.of_nat (length E - length kept))%Z)
      as -> by lia.
    assert ((Z.of_nat (length E) + Z.of_nat (length N)
             - Z.of_nat (length kept + length added))%Z
            = (Z.of_nat (length N - length added)
               + Z.of_nat (length E - length kept))%Z) as -> by lia.
    done.
Qed.

Lemma ingest_run_counts_witness :
  (given (clean ingest_args) = None
   /\ given (input ingest_args) = Some "cites.txt"
   /\ fs doubled_table !! "cites.txt" = Some (TextFile [abou_line])
   /\ existing_table (fs doubled_table) (output ingest_args)
      = Some [abate; abate_again]
   /\ Forall well_formed [abate; abate_again]
   /\ [abate; abate_again]
      ++ looked_up (service doubled_table) (normalized_citations [abou_line])
      <> [])
  /\ exists w' pre added,
      run ingest_args doubled_table = (w', 0%Z)
      /\ first_seen ∅ ([abate; abate_again]
                       ++ looked_up (service doubled_table)
                            (normalized_citations [abou_line]))
         = first_seen ∅ [abate; abate_again] ++ added
      /\ added `sublist_of` looked_up (service doubled_table)
                              (normalized_citations [abou_line])
      /\ first_seen ∅ [abate; abate_again] `sublist_of` [abate; abate_again]
      /\ (NoDup (doi_of <$> [abate; abate_again]) ->
          first_seen ∅ [abate; abate_again] = [abate; abate_again])
      /\ stdout w'
         = pre ++ ingest_summary
                    (length (first_seen ∅ [abate; abate_again]) + length added)
                    (Z.of_nat (length added)
                     - Z.of_nat (length [abate; abate_again]
                                 - length (first_seen ∅ [abate; abate_again])))
                    (Z.of_nat (length (looked_up (service doubled_table)
                                         (normalized_citations [abou_line]))
                               - length added)
                     + Z.of_nat (length [abate; abate_again]
                                 - length (first_seen ∅ [abate; abate_again]))).
Proof.
  assert (Forall well_formed [abate; abate_again]) as Hwf.
  { do 2 (constructor; [split; by eexists|]). constructor. }
  split; [repeat split; try reflexivity; try exact Hwf; discriminate|].
  apply (ingest_run_counts ingest_args doubled_table "cites.txt" [abou_line]
           [abate; abate_again]); try reflexivity; try exact Hwf; discriminate.
Defined.

(** ** More on the clean run *)

Lemma clean_run_trace args w csv_file df :
  given (clean args) = Some csv_file ->
  fs w !! csv_file = Some (CsvFile df) ->
  Pandas.cols df <> [] ->
  Forall has_doi (Pandas.to_dict_records df) ->
  let rows := Pandas.to_dict_records df in
  run args w
  = (mk_world
       (<[csv_file := CsvFile (Pandas.of_records (first_seen ∅ rows))]> (fs w))
       (now w) (service w) (requests w)
       (stdout w
        ++ CleaningDuplicates csv_file
           :: clean_summary csv_file
                (Z.of_nat (length rows)
                 - Z.of_nat (length (first_seen ∅ rows)))
                (length (first_seen ∅ rows))),
     0%Z).
Proof.
  intros Hclean Hfile Hcols Hdoi rows.
  unfold run, main, try_except, main_try. rewrite Hclean.
  unfold bind at 1. unfold path_exists at 1.
  rewrite bool_decide_eq_true_2 by eauto. simpl negb. cbv iota.
  unfold bind at 1. unfold ret at 1.
  unfold bind at 1. unfold print at 1.
  unfold bind at 1. unfold read_csv at 1. simpl fs. rewrite Hfile.
  destruct (Pandas.cols df) as [|col cols] eqn:Hc; [done|].
  cbv zeta. fold rows.
  unfold bind at 1. unfold lift at 1.
  rewrite (remove_duplicate_dois_first_seen rows Hdoi).
  unfold bind, to_csv, write_file, print. simpl.
  unfold clean_summary. by rewrite <- !app_assoc.
Qed.

(** X21. A clean run on a table whose rows have a [doi] rewrites the CSV
    file with the first row of each [doi] value, in the order of the
    file: as many rows as there are distinct values. It reports the
    number of rows that it dropped and the number that remain, and exits
    with status 0. *)
Theorem clean_run_counts
    (args : Args) (w : World) (csv_file : string) (df : Pandas.DataFrame) :
  given (clean args) = Some csv_file ->
  fs w !! csv_file = Some (CsvFile df) ->
  Pandas.cols df <> [] ->
  Forall has_doi (Pandas.to_dict_records df) ->
  let rows := Pandas.to_dict_records df in
  exists w',
    run args w = (w', 0%Z)
    /\ fs w' = <[csv_file := CsvFile (Pandas.of_records (first_seen ∅ rows))]> (fs w)
    /\ Pandas.nrows (Pandas.of_records (first_seen ∅ rows)) = size (dois rows)
    /\ stdout w'
       = stdout w
         ++ CleaningDuplicates csv_file
            :: clean_summary csv_file
                 (Z.of_nat (Pandas.nrows df) - Z.of_nat (size (dois rows)))
                 (size (dois rows)).
Proof.
  intros Hclean Hfile Hcols Hdoi rows.
  rewrite (clean_run_trace args w csv_file df) by done. fold rows.
  eexists. split; [reflexivity|]. simpl.
  rewrite first_seen_length.
  assert (length rows = Pandas.nrows df) as -> by apply to_dict_records_length.
  done.
Qed.

Lemma clean_run_counts_witness :
  (given (clean clean_args) = Some "dois.csv"
   /\ fs (world_of {[ "dois.csv" := CsvFile five_rows ]} no_hits) !! "dois.csv"
      = Some (CsvFile five_rows)
   /\ Pandas.cols five_rows <> []
   /\ Forall has_doi (Pandas.to_dict_records five_rows))
  /\ exists w',
      run clean_args (world_of {[ "dois.csv" := CsvFile five_rows ]} no_hits)
      = (w', 0%Z)
      /\ fs w'
         = <["dois.csv" := CsvFile (Pandas.of_records
                             (first_seen ∅ (Pandas.to_dict_records five_rows)))]>
             (fs (world_of {[ "dois.csv" := CsvFile five_rows ]} no_hits))
      /\ Pandas.nrows (Pandas.of_records
                         (first_seen ∅ (Pandas.to_dict_records five_rows)))
         = size (dois (Pandas.to_dict_records five_rows))
      /\ stdout w'
         = stdout (world_of {[ "dois.csv" := CsvFile five_rows ]} no_hits)
           ++ CleaningDuplicates "dois.csv"
              :: clean_summary "dois.csv"
                   (Z.of_nat (Pandas.nrows five_rows)
                    - Z.of_nat (size (dois (Pandas.to_dict_records five_rows))))
                   (size (dois (Pandas.to_dict_records five_rows))).
Proof.
  assert (Pandas.cols five_rows <> []) as Hc by discriminate.
  assert (Forall has_doi (Pandas.to_dict_records five_rows)) as Hd.
  { repeat constructor; by eexists. }
  split; [repeat split; try reflexivity; done|].
  apply (clean_run_counts clean_args
           (world_of {[ "dois.csv" := CsvFile five_rows ]} no_hits)
           "dois.csv" five_rows); try reflexivity; done.
Defined.

(** X22. A clean run on a table with a row that has no [doi], as every
    row of a table without a [doi] column, fails in the Result Merger:
    it prints the [KeyError], exits with status 1 and leaves the file as
    it was. *)
Theorem clean_run_without_doi
    (args : Args) (w : World) (csv_file : string) (df : Pandas.DataFrame) :
  given (clean args) = Some csv_file ->
  fs w !! csv_file = Some (CsvFile df) ->
  Pandas.cols df <> [] ->
  ~ Forall has_doi (Pandas.to_dict_records df) ->
  run args w
  = (printed (ErrorMsg (KeyError "doi")) (printed (CleaningDuplicates csv_file) w),
     1%Z).
Proof.
  intros Hclean Hfile Hcols Hdoi.
  assert (remove_duplicate_dois (Pandas.to_dict_records df)
          = Raise (KeyError "doi")) as Hraise.
  { destruct (remove_duplicate_dois (Pandas.to_dict_records df)) as [out|e] eqn:H.
    - exfalso. apply Hdoi. eapply remove_duplicate_dois_loop_Ok, H.
    - by destruct (remove_duplicate_dois_loop_raises _ _ _ _ H) as [-> _]. }
  unfold run, main, try_except, main_try. rewrite Hclean.
  unfold bind at 1. unfold path_exists at 1.
  rewrite bool_decide_eq_true_2 by eauto. simpl negb. cbv iota.
  unfold bind at 1. unfold ret at 1.
  unfold bind at 1. unfold print at 1.
  unfold bind at 1. unfold read_csv at 1. simpl fs. rewrite Hfile.
  destruct (Pandas.cols df) as [|col cols] eqn:Hc; [done|].
  cbv zeta. unfold bind at 1. unfold lift at 1. rewrite Hraise.
  reflexivity.
Qed.

Lemma clean_run_without_doi_witness :
  (given (clean clean_args) = Some "dois.csv"
   /\ fs (world_of {[ "dois.csv" := CsvFile renamed_sheet ]} no_hits) !! "dois.csv"
      = Some (CsvFile renamed_sheet)
   /\ Pandas.cols renamed_sheet <> []
   /\ ~ Forall has_doi (Pandas.to_dict_records renamed_sheet))
  /\ run clean_args (world_of {[ "dois.csv" := CsvFile renamed_sheet ]} no_hits)
     = (printed (ErrorMsg (KeyError "doi"))
          (printed (CleaningDuplicates "dois.csv")
             (world_of {[ "dois.csv" := CsvFile renamed_sheet ]} no_hits)),
        1%Z).
Proof.
  assert (Pandas.cols renamed_sheet <> []) as Hc by discriminate.
  assert (~ Forall has_doi (Pandas.to_dict_records renamed_sheet)) as Hd.
  { intros Hall. inversion Hall as [|? ? [d Hd] _]; subst. discriminate Hd. }
  split; [repeat split; try reflexivity; done|].
  apply (clean_run_without_doi clean_args
           (world_of {[ "dois.csv" := CsvFile renamed_sheet ]} no_hits)
           "dois.csv" renamed_sheet); try reflexivity; done.
Defined.

Lemma shaped_has_doi r : shaped r -> has_doi r.
Proof. intros Hs. by destruct (shaped_well_formed r Hs). Qed.

Lemma of_records_cols_shaped records :
  Forall shaped records -> records <> [] ->
  Pandas.cols (Pandas.of_records records) <> [].
Proof. intros Hs Hne. by rewrite of_records_shaped. Qed.

Lemma to_dict_records_cols df :
  Pandas.cols df = [] -> Forall (fun r => r = []) (Pandas.to_dict_records df).
Proof.
  intros Hc. unfold Pandas.to_dict_records. rewrite Hc. simpl.
  by apply Forall_fmap, Forall_forall.
Qed.

(** X23. Cleaning is idempotent on the tables that the program writes
    (the three keys, [str] values) when the rows that the first clean run
    keeps are plain text, so that pandas reads them back as they were
    written: a second clean run then finds nothing to remove, reports 0
    and the same number of rows, and writes the table that is there. *)
Theorem clean_run_twice
    (args : Args) (w : World) (csv_file : string) (df : Pandas.DataFrame) :
  given (clean args) = Some csv_file ->
  fs w !! csv_file = Some (CsvFile df) ->
  Forall shaped (Pandas.to_dict_records df) ->
  Pandas.to_dict_records df <> [] ->
  reads_back_as_written
    (Pandas.of_records (first_seen ∅ (Pandas.to_dict_records df))) = true ->
  exists w1 w2,
    run args w = (w1, 0%Z)
    /\ run args (next_run w1) = (w2, 0%Z)
    /\ fs w2 = fs w1
    /\ stdout w2
       = CleaningDuplicates csv_file
         :: clean_summary csv_file 0
              (size (dois (Pandas.to_dict_records df))).
Proof.
  intros Hclean Hfile Hshaped Hne _.
  set (rows := Pandas.to_dict_records df) in *.
  assert (Forall has_doi rows) as Hdoi.
  { eapply Forall_impl; [exact Hshaped|]. apply shaped_has_doi. }
  assert (Pandas.cols df <> []) as Hcols.
  { intros Hc. pose proof (to_dict_records_cols df Hc) as Hnil. fold rows in Hnil.
    destruct rows as [|r rows']; [done|].
    apply Forall_cons_1 in Hnil as [-> _].
    apply Forall_cons_1 in Hshaped as [(c & d & u & Hr) _]. discriminate Hr. }
  set (U := first_seen ∅ rows).
  assert (Forall shaped U) as HU by by apply first_seen_Forall.
  assert (U <> []) as HUne by by apply first_seen_nonempty.
  assert (Pandas.to_dict_records (Pandas.of_records U) = U) as Hround
    by by apply to_dict_records_of_records.
  assert (first_seen ∅ U = U) as Hfix by apply first_seen_idemp.
  pose proof (clean_run_trace args w csv_file df Hclean Hfile Hcols Hdoi) as H1.
  cbv zeta in H1. fold rows U in H1.
  match type of H1 with _ = (?x, _) => set (w1 := x) in H1 end.
  assert (fs (next_run w1) !! csv_file = Some (CsvFile (Pandas.of_records U)))
    as Hfile2 by (simpl; by rewrite lookup_insert_eq).
  assert (Forall has_doi (Pandas.to_dict_records (Pandas.of_records U))) as Hdoi2.
  { rewrite Hround. eapply Forall_impl; [exact HU|]. apply shaped_has_doi. }
  pose proof (clean_run_trace args (next_run w1) csv_file (Pandas.of_records U)
                Hclean Hfile2 (of_records_cols_shaped U HU HUne) Hdoi2) as H2.
  cbv zeta in H2. rewrite Hround, Hfix in H2.
  exists w1. eexists. split; [exact H1|]. split; [exact H2|]. simpl. split.
  - by rewrite insert_insert_eq.
  - rewrite Z.sub_diag. unfold U. by rewrite first_seen_length.
Qed.

Lemma clean_run_twice_witness :
  (given (clean clean_args) = Some "dois.csv"
   /\ fs to_clean !! "dois.csv" = Some (CsvFile three_rows)
   /\ Forall shaped (Pandas.to_dict_records three_rows)
   /\ Pandas.to_dict_records three_rows <> []
   /\ reads_back_as_written
        (Pandas.of_records (first_seen ∅ (Pandas.to_dict_records three_rows)))
      = true)
  /\ exists w1 w2,
      run clean_args to_clean = (w1, 0%Z)
      /\ run clean_args (next_run w1) = (w2, 0%Z)
      /\ fs w2 = fs w1
      /\ stdout w2
         = CleaningDuplicates "dois.csv"
           :: clean_summary "dois.csv" 0
                (size (dois (Pandas.to_dict_records three_rows))).
Proof.
  assert (Forall shaped (Pandas.to_dict_records three_rows)) as Hs.
  { repeat constructor; by do 3 eexists. }
  assert (Pandas.to_dict_records three_rows <> []) as Hne by discriminate.
  split; [repeat split; try reflexivity; done|].
  apply (clean_run_twice clean_args to_clean "dois.csv" three_rows);
    try reflexivity; done.
Defined.

(** ** The table that an ingest run leaves *)

(** X24. An ingest run that starts from no table, or from one of the
    program's own, and has no spreadsheet to join, writes a CSV file in
    which no two rows have the same [doi]: the Result Merger finds
    nothing to remove in it. *)
Theorem ingest_run_writes_no_duplicates
    (args : Args) (w : World) (citations_file : string) (lines : list string)
    (E : list dict) :
  given (clean args) = None ->
  given (input args) = Some citations_file ->
  fs w !! citations_file = Some (TextFile lines) ->
  existing_table (fs w) (output args) = Some E ->
  Forall shaped E ->
  E ++ looked_up (service w) (normalized_citations lines) <> [] ->
  fs w !! excel_path_of (output args) = None ->
  exists w' final_df,
    run args w = (w', 0%Z)
    /\ fs w' !! output args = Some (CsvFile final_df)
    /\ NoDup (doi_of <$> Pandas.to_dict_records final_df)
    /\ dois (Pandas.to_dict_records final_df)
       = dois (E ++ looked_up (service w) (normalized_citations lines))
    /\ remove_duplicate_dois (Pandas.to_dict_records final_df)
       = Ok (Pandas.to_dict_records final_df).
Proof.
  intros Hclean Hinput Hfile Htable HE Hne Hxl.
  set (N := looked_up (service w) (normalized_citations lines)) in *.
  set (U := first_seen ∅ (E ++ N)).
  assert (Forall shaped (E ++ N)) as Hsh.
  { apply Forall_app. split; [done|apply looked_up_shaped]. }
  destruct (ingest_run args w citations_file lines E)
    as (w' & pre & U' & final_df & Hrun & _ & _ & Hsan & Hcsv & _ & Hfresh);
    [done..| |done|].
  { eapply Forall_impl; [exact HE|]. apply shaped_well_formed. }
  fold N U in Hsan. rewrite (Hfresh Hxl) in Hcsv.
  assert (Forall shaped U) as HU by by apply first_seen_Forall.
  destruct (sanitize_shaped U HU) as (U'' & Hsan' & HU' & Hdois).
  assert (U'' = U') as -> by congruence.
  assert (U' <> []) as HUne.
  { intros ->. assert (U <> []) as HUne.
    { apply first_seen_nonempty; [|done].
      eapply Forall_impl; [exact Hsh|]. apply shaped_has_doi. }
    apply HUne. apply (f_equal length) in Hdois. rewrite !length_fmap in Hdois.
    by destruct U. }
  exists w', (Pandas.of_records U'). split; [done|]. split; [done|].
  rewrite to_dict_records_of_records by done.
  assert (NoDup (doi_of <$> U')) as Hnd.
  { rewrite Hdois. apply first_seen_NoDup. }
  split; [done|]. split.
  - rewrite (dois_fmap_eq _ _ Hdois). unfold U.
    pose proof (dois_first_seen ∅ (E ++ N)) as Hd. set_solver.
  - rewrite remove_duplicate_dois_first_seen.
    + f_equal. apply first_seen_fixed; [|done|set_solver].
      eapply Forall_impl; [exact HU'|]. apply shaped_has_doi.
    + eapply Forall_impl; [exact HU'|]. apply shaped_has_doi.
Qed.

Lemma ingest_run_writes_no_duplicates_witness :
  (given (clean ingest_args) = None
   /\ given (input ingest_args) = Some "cites.txt"
   /\ fs two_unresolved !! "cites.txt"
      = Some (TextFile [smith_line; newline; jones_line])
   /\ existing_table (fs two_unresolved) (output ingest_args) = Some []
   /\ Forall shaped []
   /\ [] ++ looked_up (service two_unresolved)
              (normalized_citations [smith_line; newline; jones_line]) <> []
   /\ fs two_unresolved !! excel_path_of (output ingest_args) = None)
  /\ exists w' final_df,
      run ingest_args two_unresolved = (w', 0%Z)
      /\ fs w' !! output ingest_args = Some (CsvFile final_df)
      /\ NoDup (doi_of <$> Pandas.to_dict_records final_df)
      /\ dois (Pandas.to_dict_records final_df)
         = dois ([] ++ looked_up (service two_unresolved)
                         (normalized_citations [smith_line; newline; jones_line]))
      /\ remove_duplicate_dois (Pandas.to_dict_records final_df)
         = Ok (Pandas.to_dict_records final_df).
Proof.
  split; [repeat split; try reflexivity; try constructor; discriminate|].
  apply (ingest_run_writes_no_duplicates ingest_args two_unresolved "cites.txt"
           [smith_line; newline; jones_line] []);
    try reflexivity; try constructor; discriminate.
Defined.

(** X25. [find_doi] reads the first item of the answer and no other: it
    returns the DOI of that item whatever follows it, and the sentinel
    when that item has no DOI, also when a later item has one. *)
Theorem find_doi_takes_the_first_item
    (self : DOIFinder) (citation : string) (w : World)
    (message : message_body) (item : work) (rest : list work) :
  works (service w) citation = Ok (mk_reply (Some message)) ->
  message_items message = Some (item :: rest) ->
  (find_doi self citation w).2
  = Ok (citation, default "Not Found" (work_DOI item), "CrossRef").
Proof.
  intros Hworks Hitems.
  destruct (find_doi_run self citation w) as (w' & -> & _). simpl.
  unfold doi_for. rewrite Hworks. simpl. unfold top_DOI. simpl.
  rewrite Hitems. by destruct (work_DOI item).
Qed.

Lemma find_doi_takes_the_first_item_witness :
  (works (service (world_of ∅ second_hit_only)) "Abate 2007"
   = Ok (mk_reply (Some (mk_message
           (Some [mk_work None; mk_work (Some "10.1000/second")]))))
   /\ message_items (mk_message
                      (Some [mk_work None; mk_work (Some "10.1000/second")]))
      = Some (mk_work None :: [mk_work (Some "10.1000/second")]))
  /\ (find_doi DOIFinder_init "Abate 2007" (world_of ∅ second_hit_only)).2
     = Ok ("Abate 2007", default "Not Found" (work_DOI (mk_work None)), "CrossRef").
Proof.
  split; [split; reflexivity|].
  apply (find_doi_takes_the_first_item DOIFinder_init "Abate 2007"
           (world_of ∅ second_hit_only)
           (mk_message (Some [mk_work None; mk_work (Some "10.1000/second")]))
           (mk_work None) [mk_work (Some "10.1000/second")]); reflexivity.
Defined.

(** X26. Loading the existing spreadsheet never fails the call: for
    every state of the file [merge_existing] returns a frame, writes
    nothing and issues no query. Without a file, and whenever the file
    cannot be read as a spreadsheet or cannot be joined, the frame is
    the new one, in the second case after one line that reports the
    exception. *)
Theorem merge_existing_falls_back
    (excel_path : string) (new_df : Pandas.DataFrame) (w : World) :
  exists w' final_df,
    merge_existing excel_path new_df w = (w', Ok final_df)
    /\ fs w' = fs w /\ requests w' = requests w /\ now w' = now w
    /\ (stdout w' = stdout w
        \/ exists e, stdout w' = stdout w ++ [ErrorLoadingExcel e]
                     /\ final_df = new_df)
    /\ (fs w !! excel_path = None -> w' = w /\ final_df = new_df)
    /\ ((forall df, fs w !! excel_path <> Some (XlsxFile df)) ->
        final_df = new_df).
Proof.
  unfold merge_existing, bind, path_exists, try_except.
  destruct (fs w !! excel_path) as [f|] eqn:Hf.
  - rewrite bool_decide_eq_true_2 by eauto.
    destruct (load_existing_run excel_path new_df w) as (r & Hload & Hr).
    unfold bind in Hload. rewrite Hload.
    destruct r as [final_df|e].
    + do 2 eexists. split; [reflexivity|]. repeat (split; [done|]).
      split; [by left|]. split; [done|]. intros Hdf. exfalso.
      unfold read_excel in Hload. rewrite Hf in Hload.
      destruct f as [| |df']; try done. by apply (Hdf df').
    + simpl in Hr. rewrite Hr. unfold print, ret. simpl.
      do 2 eexists. split; [reflexivity|]. simpl. repeat (split; [done|]).
      split; [right; by exists e|]. by split.
  - rewrite bool_decide_eq_false_2 by (by intros [? ?]). unfold ret.
    do 2 eexists. split; [reflexivity|]. repeat (split; [done|]).
    split; [by left|]. by split.
Qed.

(** X27. With [check_duplicates] set, the summary of [save_results]
    counts the duplicates among the Records in place of the DOIs found:
    the call returns for every list of Records with a citation and a
    [doi], the empty list included, after it has written its tables. *)
Theorem save_results_check_duplicates
    (self : DOIFinder) (results : list dict) (output_path : string) (w : World) :
  Forall well_formed results ->
  exists w' pre final_df,
    save_results self results output_path true w = (w', Ok tt)
    /\ fs w' !! output_path = Some (CsvFile final_df)
    /\ stdout w'
       = pre ++ [SummaryHeader;
                 DuplicatesRemoved (Z.of_nat (length results)
                                    - Z.of_nat (size (dois results)));
                 CitationsRemaining (size (dois results))].
Proof.
  intros Hwf.
  destruct (sanitize_well_formed results Hwf) as (results' & Hsan & Hlen & Hdois & Hwf').
  destruct (merge_existing_run (excel_path_of output_path)
              (Pandas.of_records results') w) as (w1 & final_df & Hm & _).
  destruct (write_tables_run final_df (excel_path_of output_path) output_path w1)
    as (w2 & Hw & _ & Hcsv & _).
  assert (Forall has_doi results') as Hdoi.
  { eapply Forall_impl; [exact Hwf'|]. by intros r [_ ?]. }
  unfold save_results. unfold bind at 1. unfold lift at 1. rewrite Hsan.
  cbv zeta. fold (excel_path_of output_path).
  rewrite (bind_Ok _ _ _ _ _ Hm). rewrite (bind_Ok _ _ _ _ _ Hw).
  unfold print_summary. simpl negb. cbv iota.
  unfold bind at 1. unfold lift at 1.
  rewrite (remove_duplicate_dois_first_seen _ Hdoi).
  unfold bind, print. simpl.
  eexists. exists (stdout w2), final_df.
  split; [reflexivity|]. simpl. split; [exact Hcsv|].
  rewrite first_seen_length, Hlen, (dois_fmap_eq _ _ Hdois).
  by rewrite <- !app_assoc.
Qed.

Lemma save_results_check_duplicates_witness :
  Forall well_formed []
  /\ exists w' pre final_df,
      save_results DOIFinder_init [] "dois.csv" true two_known = (w', Ok tt)
      /\ fs w' !! "dois.csv" = Some (CsvFile final_df)
      /\ stdout w'
         = pre ++ [SummaryHeader;
                   DuplicatesRemoved (Z.of_nat (length (@nil dict))
                                      - Z.of_nat (size (dois [])));
                   CitationsRemaining (size (dois []))].
Proof.
  split; [constructor|].
  apply (save_results_check_duplicates DOIFinder_init [] "dois.csv" two_known).
  constructor.
Defined.

(** ** An ingest run into a table with a missing citation *)

(** X29. An ingest run sanitizes the combined table before it writes
    anything: when a row that the merger keeps has no text for its
    citation, as a row of the existing table whose citation pandas read
    as a missing value, the run fails after its lookups with [TypeError]
    (or with [KeyError] when the key itself is missing), prints the error
    in place of its summary, exits with status 1 and leaves every file as
    it was. *)
Theorem ingest_run_with_a_missing_citation
    (args : Args) (w : World) (citations_file : string) (lines : list string)
    (E : list dict) :
  given (clean args) = None ->
  given (input args) = Some citations_file ->
  fs w !! citations_file = Some (TextFile lines) ->
  existing_table (fs w) (output args) = Some E ->
  Forall has_doi E ->
  ~ Forall citation_is_str
      (first_seen ∅ (E ++ looked_up (service w) (normalized_citations lines))) ->
  exists w' pre e,
    run args w = (w', 1%Z)
    /\ fs w' = fs w
    /\ (e = KeyError "citation" \/ e = TypeError)
    /\ stdout w' = pre ++ [ErrorMsg e].
Proof.
  intros Hclean Hinput Hfile Htable HE Hnot.
  set (N := looked_up (service w) (normalized_citations lines)) in *.
  assert (Forall has_doi (E ++ N)) as Hdoi.
  { apply Forall_app. split; [done|].
    eapply Forall_impl; [apply looked_up_shaped|]. apply shaped_has_doi. }
  destruct (sanitize (first_seen ∅ (E ++ N))) as [U'|e] eqn:Hsan.
  { exfalso. apply Hnot. by eapply sanitize_Ok_citation_is_str. }
  destruct (sanitize_raises _ _ Hsan) as [He _].
  unfold run, main, try_except, main_try. rewrite Hclean, Hinput.
  unfold bind at 1. unfold path_exists at 1.
  rewrite bool_decide_eq_true_2 by eauto. simpl negb. cbv iota.
  unfold bind at 1. unfold ret at 1.
  unfold bind at 1. unfold print at 1.
  set (w0 := mk_world _ _ _ _ _).
  destruct (process_citations_file_run DOIFinder_init citations_file lines w0)
    as (w1 & Hproc & Hfs1 & Hsvc1); [done|].
  rewrite (bind_Ok _ _ _ _ _ Hproc).
  cbv zeta. unfold bind at 1. unfold path_exists at 1.
  destruct (load_existing_table (output args) E w1) as (w2 & Hload & Hfs2 & Hsvc2).
  { by rewrite Hfs1. }
  rewrite (bind_Ok _ _ _ _ _ Hload).
  unfold bind at 1. unfold lift at 1.
  change (service w0) with (service w). fold N.
  rewrite (remove_duplicate_dois_first_seen _ Hdoi).
  assert (save_results DOIFinder_init (first_seen ∅ (E ++ N)) (output args)
            false w2 = (w2, Raise e)) as Hsave.
  { unfold save_results, bind, lift. by rewrite Hsan. }
  rewrite (bind_Raise _ _ _ _ _ Hsave).
  exists (mk_world (fs w2) (now w2) (service w2) (requests w2)
            (stdout w2 ++ [ErrorMsg e])), (stdout w2), e.
  split; [by destruct He as [-> | ->]|].
  simpl. by rewrite Hfs2, Hfs1.
Qed.

Lemma ingest_run_with_a_missing_citation_witness :
  (given (clean ingest_args) = None
   /\ given (input ingest_args) = Some "cites.txt"
   /\ fs na_table !! "cites.txt" = Some (TextFile ["[3] NA" +:+ newline])
   /\ existing_table (fs na_table) (output ingest_args) = Some [na_record]
   /\ Forall has_doi [na_record]
   /\ ~ Forall citation_is_str
         (first_seen ∅ ([na_record]
                        ++ looked_up (service na_table)
                             (normalized_citations ["[3] NA" +:+ newline]))))
  /\ exists w' pre e,
      run ingest_args na_table = (w', 1%Z)
      /\ fs w' = fs na_table
      /\ (e = KeyError "citation" \/ e = TypeError)
      /\ stdout w' = pre ++ [ErrorMsg e].
Proof.
  assert (Forall has_doi [na_record]) as Hd.
  { repeat constructor. by eexists. }
  assert (~ Forall citation_is_str
            (first_seen ∅ ([na_record]
                           ++ looked_up (service na_table)
                                (normalized_citations ["[3] NA" +:+ newline]))))
    as Hn.
  { intros Hall. vm_compute in Hall.
    inversion Hall as [|? ? [s Hs] _]; subst. discriminate Hs. }
  split; [repeat split; try reflexivity; done|].
  apply (ingest_run_with_a_missing_citation ingest_args na_table "cites.txt"
           ["[3] NA" +:+ newline] [na_record]); try reflexivity; done.
Defined.
